(** * Medical-Atlas: the gateway and session-authorization layer

    A shallow embedding of the request handlers of the portal
    (the route middleware, the login handler, the admin proxy and the
    prediction proxy) together with the properties the specification
    states about them.

    Conventions of the embedding.
    - A JavaScript string is a [string]: a sequence of code units, here
      restricted to U+0000..U+00FF (header values are byte strings).
    - A JavaScript number is a [float]: Rocq's primitive binary64, the
      very IEEE 754 format ECMAScript prescribes.
    - A JavaScript value that can come out of [JSON.parse], or be handed
      to [JSON.stringify], is a [JsValue].
    - [await fetch(...)] is the one effect of the handlers.  A handler is
      a [Handler]: it either responds, or awaits one backend call and
      continues with its outcome.
    - [Math.random()] is an explicit argument: the draw it would return. *)

From Stdlib Require Import Bool Ascii String List ZArith Lia.
From Stdlib Require Import Floats DecimalString.
Import ListNotations.

Set Warnings "-register-all,-inexact-float".

Local Open Scope string_scope.
Local Open Scope bool_scope.

(* ================================================================== *)
(** * JavaScript strings *)
(* ================================================================== *)

Module JsString.

(** [s.startsWith(p)] *)
Definition startsWith (s p : string) : bool := String.prefix p s.

(** [s.includes(sub)] *)
Fixpoint includes (s sub : string) : bool :=
  String.prefix sub s ||
  match s with
  | EmptyString => false
  | String _ rest => includes rest sub
  end.

Definition code (c : ascii) : N := N_of_ascii c.

Definition between (lo hi : N) (c : ascii) : bool :=
  (lo <=? code c)%N && (code c <=? hi)%N.

(** White space and line terminators stripped by [trim], below U+0100:
    TAB, LF, VT, FF, CR, SP and NBSP. *)
Definition is_whitespace (c : ascii) : bool :=
  between 9 13 c || (code c =? 32)%N || (code c =? 160)%N.

Fixpoint trimStart (s : string) : string :=
  match s with
  | EmptyString => EmptyString
  | String c rest => if is_whitespace c then trimStart rest else s
  end.

Fixpoint trimEnd (s : string) : string :=
  match s with
  | EmptyString => EmptyString
  | String c rest =>
      match trimEnd rest with
      | EmptyString => if is_whitespace c then EmptyString else String c EmptyString
      | rest' => String c rest'
      end
  end.

(** [s.trim()] *)
Definition trim (s : string) : string := trimEnd (trimStart s).

(** Upper-case letters below U+0100: A-Z, and U+00C0..U+00DE but the
    multiplication sign U+00D7; each is 32 below its lower-case form. *)
Definition is_upper (c : ascii) : bool :=
  between 65 90 c || (between 192 222 c && negb (code c =? 215)%N).

Definition lower_char (c : ascii) : ascii :=
  if is_upper c then ascii_of_N (code c + 32) else c.

(** [s.toLowerCase()] *)
Fixpoint toLowerCase (s : string) : string :=
  match s with
  | EmptyString => EmptyString
  | String c rest => String (lower_char c) (toLowerCase rest)
  end.

(** The class [\w] of a regular expression without the unicode flag. *)
Definition is_word_char (c : ascii) : bool :=
  between 48 57 c || between 65 90 c || between 97 122 c || (code c =? 95)%N.

Fixpoint drop (n : nat) (s : string) : string :=
  match n, s with
  | O, _ => s
  | S _, EmptyString => EmptyString
  | S n', String _ rest => drop n' rest
  end.

End JsString.

(* ================================================================== *)
(** * JavaScript values *)
(* ================================================================== *)

Inductive JsValue : Type :=
| JUndefined
| JNull
| JBool (b : bool)
| JNum (x : float)
| JStr (s : string)
| JArr (items : list JsValue)
| JObj (props : list (string * JsValue)).

Module Js.

(** The own properties of an object, in insertion order; a key occurs
    once, and [lookup] reads it. *)
Fixpoint lookup (k : string) (props : list (string * JsValue)) : option JsValue :=
  match props with
  | [] => None
  | (k', v) :: rest => if k' =? k then Some v else lookup k rest
  end.

(** Defining property [k]: an existing key keeps its place. *)
Fixpoint define (k : string) (v : JsValue) (props : list (string * JsValue))
  : list (string * JsValue) :=
  match props with
  | [] => [(k, v)]
  | (k', v') :: rest =>
      if k' =? k then (k, v) :: rest else (k', v') :: define k v rest
  end.

(** [v.k] for [v] neither [null] nor [undefined], and [k] none of the
    names the built-in prototypes define (every key the handlers read:
    [doctor_id], [password], [role], [detail], [msg], [resistant],
    [probability], [confidence], [age], [duration_days], [id], ...). *)
Definition prop (v : JsValue) (k : string) : JsValue :=
  match v with
  | JObj props => match lookup k props with Some x => x | None => JUndefined end
  | _ => JUndefined
  end.

Definition is_nullish (v : JsValue) : bool :=
  match v with JUndefined | JNull => true | _ => false end.

(** [v.k] in general: [None] stands for the [TypeError] thrown when
    [v] is [null] or [undefined]. *)
Definition member (v : JsValue) (k : string) : option JsValue :=
  if is_nullish v then None else Some (prop v k).

(** [v?.k] *)
Definition opt_member (v : JsValue) (k : string) : JsValue :=
  if is_nullish v then JUndefined else prop v k.

(** [a ?? b] *)
Definition coalesce (a b : JsValue) : JsValue :=
  if is_nullish a then b else a.

(** [ToBoolean] *)
Definition truthy (v : JsValue) : bool :=
  match v with
  | JUndefined | JNull => false
  | JBool b => b
  | JNum x => negb (PrimFloat.is_zero x || PrimFloat.is_nan x)
  | JStr s => negb (s =? "")
  | JArr _ | JObj _ => true
  end.

(** [a || b] *)
Definition or (a b : JsValue) : JsValue := if truthy a then a else b.

Definition is_undefined (v : JsValue) : bool :=
  match v with JUndefined => true | _ => false end.

Definition is_string (v : JsValue) : bool :=
  match v with JStr _ => true | _ => false end.

Definition is_number (v : JsValue) : bool :=
  match v with JNum _ => true | _ => false end.

(** [typeof v === "object"] *)
Definition typeof_object (v : JsValue) : bool :=
  match v with JNull | JArr _ | JObj _ => true | _ => false end.

(** [k in v] for [v] an object or an array, and [k] neither an index
    nor a name of the built-in prototypes. *)
Definition has (k : string) (v : JsValue) : bool :=
  match v with
  | JObj props => match lookup k props with Some _ => true | None => false end
  | _ => false
  end.

Definition index_key (i : nat) : string :=
  NilEmpty.string_of_uint (Nat.to_uint i).

Fixpoint indexed {A} (f : A -> JsValue) (i : nat) (l : list A)
  : list (string * JsValue) :=
  match l with
  | [] => []
  | x :: rest => (index_key i, f x) :: indexed f (S i) rest
  end.

(** The properties [{...v}] copies: the own enumerable ones. *)
Definition spread (v : JsValue) : list (string * JsValue) :=
  match v with
  | JObj props => props
  | JArr items => indexed (fun x => x) 0 items
  | JStr s => indexed (fun c => JStr (String c EmptyString)) 0 (list_ascii_of_string s)
  | _ => []
  end.

(** The rest element of a destructuring pattern: the own properties but
    the ones the pattern names. *)
Fixpoint omit (keys : list string) (props : list (string * JsValue))
  : list (string * JsValue) :=
  match props with
  | [] => []
  | (k, v) :: rest =>
      if existsb (String.eqb k) keys then omit keys rest
      else (k, v) :: omit keys rest
  end.

(** What [JSON.stringify] keeps of a number: [null] for NaN and the
    infinities. *)
Definition is_finite (x : float) : bool :=
  negb (PrimFloat.is_nan x || PrimFloat.is_infinity x).

(** The value a client reads back from [JSON.stringify v]: properties
    whose value is [undefined] are dropped, [undefined] in an array and
    a number that is not finite become [null]. *)
Fixpoint wire (v : JsValue) : JsValue :=
  match v with
  | JUndefined => JNull
  | JNum x => if is_finite x then v else JNull
  | JArr items => JArr (map wire items)
  | JObj props =>
      JObj ((fix go (ps : list (string * JsValue)) : list (string * JsValue) :=
               match ps with
               | [] => []
               | (k, x) :: rest =>
                   if is_undefined x then go rest else (k, wire x) :: go rest
               end) props)
  | _ => v
  end.

End Js.

(* ================================================================== *)
(** * Requests, responses and the backend *)
(* ================================================================== *)

(** A cookie as [res.cookies.set(name, value, options)] records it. *)
Record Cookie : Type := {
  c_name : string;
  c_value : string;
  c_httpOnly : option bool;
  c_sameSite : option string;
  c_maxAge : option Z;
  c_path : option string;
  c_secure : option bool
}.

Inductive ResponseKind : Type :=
| RNext                        (* NextResponse.next() *)
| RRedirect (location : string) (* NextResponse.redirect(url) *)
| RJson (body : JsValue).       (* NextResponse.json(body, init) *)

Record NextResponse : Type := {
  kind : ResponseKind;
  status : Z;
  set_cookies : list Cookie
}.

Record NextRequest : Type := {
  url : string;                            (* request.url *)
  origin : string;                         (* new URL(request.url).origin *)
  pathname : string;                       (* request.nextUrl.pathname *)
  searchParams : list (string * string);
  cookies : list (string * string);        (* request.cookies *)
  headers : list (string * string);        (* request.headers, lower-case names *)
  json : string + JsValue                  (* await request.json(); inl: it rejects *)
}.

Module Http.

Definition next : NextResponse :=
  {| kind := RNext; status := 200; set_cookies := [] |}.

(** [NextResponse.redirect(new URL(path, request.url))] *)
Definition redirect (request : NextRequest) (path : string) : NextResponse :=
  {| kind := RRedirect (origin request ++ path); status := 307; set_cookies := [] |}.

(** [NextResponse.json(body, { status: st })] for a status the
    constructor accepts: the handlers' literal 400, 401, 500 and 503, or
    a status checked by [accepts_status]. *)
Definition json_status (body : JsValue) (st : Z) : NextResponse :=
  {| kind := RJson body; status := st; set_cookies := [] |}.

Definition json_ok (body : JsValue) : NextResponse := json_status body 200.

(** The statuses that may not carry a body (101 and 103 as well, which
    are out of range anyway). *)
Definition null_body_status (st : Z) : bool :=
  (st =? 204)%Z || (st =? 205)%Z || (st =? 304)%Z.

(** The statuses a response with a body can be built with: the
    constructor throws a [RangeError] outside 200..599 and a [TypeError]
    on a null body status. *)
Definition accepts_status (st : Z) : bool :=
  (200 <=? st)%Z && (st <=? 599)%Z && negb (null_body_status st).

(** [NextResponse.json(body, { status: st })] for a status read at run
    time; [None] when the constructor throws. *)
Definition json_init (body : JsValue) (st : Z) : option NextResponse :=
  if accepts_status st then Some (json_status body st) else None.

(** [res.cookies.set(...)] *)
Definition cookies_set (res : NextResponse) (c : Cookie) : NextResponse :=
  {| kind := kind res; status := status res;
     set_cookies := set_cookies res ++ [c] |}.

Fixpoint assoc (k : string) (l : list (string * string)) : option string :=
  match l with
  | [] => None
  | (k', v) :: rest => if k' =? k then Some v else assoc k rest
  end.

(** [request.cookies.get(name)?.value] *)
Definition cookie_value (request : NextRequest) (name : string) : option string :=
  assoc name (cookies request).

(** [request.headers.get(name)] *)
Definition header (request : NextRequest) (name : string) : option string :=
  assoc name (headers request).

(** [response.ok] *)
Definition ok (st : Z) : bool := (200 <=? st)%Z && (st <=? 299)%Z.

End Http.

(** One backend call, and what [await fetch] makes of it. *)
Record FetchCall : Type := {
  f_url : string;
  f_method : string;
  f_headers : list (string * string);
  f_body : option JsValue                  (* the value given to JSON.stringify *)
}.

Inductive FetchResult : Type :=
| FetchRejects                             (* transport failure *)
| FetchResponse (st : Z)                   (* response.status *)
                (content_type : option string)
                (body : option JsValue).   (* await response.json(); None: it rejects *)

Inductive Handler : Type :=
| Respond (r : NextResponse)
| Await (call : FetchCall) (k : FetchResult -> Handler).

(** Running a handler against a backend: the response and the calls made. *)
Fixpoint run (backend : FetchCall -> FetchResult) (h : Handler)
  : NextResponse * list FetchCall :=
  match h with
  | Respond r => (r, [])
  | Await call k =>
      let (r, calls) := run backend (k (backend call)) in (r, call :: calls)
  end.

(* ================================================================== *)
(** * Session Gate: [middleware.ts] *)
(* ================================================================== *)

(** A [matcher] entry: a literal path, or a path followed by [/:path*].
    [pattern_matches] tells the paths an entry names.  The framework
    compiles each entry into a regular expression of its own, which
    selects the named paths and, besides them, the forms it gives them
    for its data requests (a [.json] suffix among them); what holds on
    every path is therefore stated of [middleware], and [session_gate] is
    used on named paths only. *)
Inductive Pattern : Type :=
| PLiteral (p : string)
| PWithRest (p : string).

Definition pattern_matches (pat : Pattern) (path : string) : bool :=
  match pat with
  | PLiteral p => path =? p
  | PWithRest p => (path =? p) || JsString.startsWith path (p ++ "/")
  end.

Definition matcher_matches (matcher : list Pattern) (path : string) : bool :=
  existsb (fun pat => pattern_matches pat path) matcher.

(** The gate on the paths the matcher names: there the framework runs
    the middleware. *)
Definition gate (matcher : list Pattern) (mw : NextRequest -> NextResponse)
  (request : NextRequest) : NextResponse :=
  if matcher_matches matcher (pathname request) then mw request else Http.next.

(** The regular expression [/\buser_role=([^;]+)/] and its first group. *)
Module CookieRegex.

Fixpoint up_to_semicolon (s : string) : string :=
  match s with
  | EmptyString => EmptyString
  | String c rest =>
      if (c =? ";")%char then EmptyString else String c (up_to_semicolon rest)
  end.

(** A match that starts at the head of [s]. *)
Definition match_here (s : string) : option string :=
  if String.prefix "user_role=" s then
    match up_to_semicolon (JsString.drop 10 s) with
    | EmptyString => None
    | v => Some v
    end
  else None.

(** The leftmost match in [s]; [after_word] tells whether the character
    before [s] is a word character, in which case [\b] fails here. *)
Fixpoint search (after_word : bool) (s : string) : option string :=
  match s with
  | EmptyString => None
  | String c rest =>
      match (if after_word then None else match_here s) with
      | Some v => Some v
      | None => search (JsString.is_word_char c) rest
      end
  end.

(** [header.match(/\buser_role=([^;]+)/)[1]] *)
Definition group1 (header : string) : option string := search false header.

End CookieRegex.

(** A role is usable when it is a non-empty string (JavaScript's [!role]
    is false). *)
Definition role_present (role : option string) : bool :=
  match role with
  | Some r => negb (r =? "")
  | None => false
  end.

Definition role_is_admin (role : option string) : bool :=
  match role with
  | Some r => JsString.toLowerCase r =? "admin"
  | None => false
  end.

(** The middleware that reads the raw [Cookie] header when the cookie
    accessor has nothing, and leaves the cookie alone on ["/"]. *)
Module GateFallback.

Definition read_role (request : NextRequest) : option string :=
  let role := Http.cookie_value request "user_role" in
  if role_present role then role
  else
    match Http.header request "cookie" with
    | Some cookieHeader =>
        match CookieRegex.group1 cookieHeader with
        | Some m => Some (JsString.trim m)
        | None => None
        end
    | None => None
    end.

Definition middleware (request : NextRequest) : NextResponse :=
  if JsString.startsWith (pathname request) "/admin" then
    let role := read_role request in
    if negb (role_present role) || negb (role_is_admin role)
    then Http.redirect request "/"
    else Http.next
  else Http.next.

Definition matcher : list Pattern := [PLiteral "/admin"; PWithRest "/admin"].

Definition session_gate : NextRequest -> NextResponse := gate matcher middleware.

End GateFallback.

(** The middleware that clears the cookie on ["/"] and reads the role
    from the cookie accessor alone. *)
Module GateLogout.

Definition cleared_cookie : Cookie :=
  {| c_name := "user_role"; c_value := "";
     c_httpOnly := None; c_sameSite := None;
     c_maxAge := Some 0%Z; c_path := Some "/"; c_secure := None |}.

Definition middleware (request : NextRequest) : NextResponse :=
  if pathname request =? "/" then
    Http.cookies_set Http.next cleared_cookie
  else if JsString.startsWith (pathname request) "/admin" then
    let role := Http.cookie_value request "user_role" in
    if negb (role_present role) || negb (role_is_admin role)
    then Http.redirect request "/"
    else Http.next
  else Http.next.

Definition matcher : list Pattern :=
  [PLiteral "/"; PLiteral "/admin"; PWithRest "/admin"].

Definition session_gate : NextRequest -> NextResponse := gate matcher middleware.

End GateLogout.

(* ================================================================== *)
(** * The runtime the handlers rely on *)
(* ================================================================== *)

(** What the handlers take from the JavaScript engine and the process
    environment: the two number conversions of ECMAScript, the message
    of the [TypeError] a failed conversion to a primitive throws, and the
    one configuration value. *)
Record Runtime : Type := {
  NumberToString : float -> string;        (* Number::toString *)
  StringToNumber : string -> float;        (* StringToNumber *)
  ToPrimitiveError : string;               (* message of ToPrimitive's TypeError *)
  NEXT_PUBLIC_API_URL : option string      (* process.env.NEXT_PUBLIC_API_URL *)
}.

Module Conv.
Section WithRuntime.
Variable rt : Runtime.

Fixpoint join (sep : string) (l : list string) : string :=
  match l with
  | [] => ""
  | [x] => x
  | x :: rest => x ++ sep ++ join sep rest
  end.

(** [String(v)]; [None] stands for the [TypeError] it throws.  An object
    is converted by the [toString] it finds: the built-in one gives
    ["[object Object]"]; an own [toString] property (in a value that came
    out of [JSON.parse] never a function) hides it, the built-in
    [valueOf] returns the object itself, and the conversion throws.  An
    array joins the conversions of its elements, and throws when one of
    them does. *)
Fixpoint ToString (v : JsValue) : option string :=
  match v with
  | JUndefined => Some "undefined"
  | JNull => Some "null"
  | JBool true => Some "true"
  | JBool false => Some "false"
  | JNum x => Some (NumberToString rt x)
  | JStr s => Some s
  | JArr items =>
      option_map (join ",")
        ((fix each (l : list JsValue) : option (list string) :=
            match l with
            | [] => Some []
            | x :: rest =>
                match (if Js.is_nullish x then Some "" else ToString x), each rest with
                | Some s, Some ss => Some (s :: ss)
                | _, _ => None
                end
            end) items)
  | JObj props =>
      match Js.lookup "toString" props with
      | Some _ => None
      | None => Some "[object Object]"
      end
  end.

(** [Number(v)]; [None] when it throws.  An object or an array is
    converted through its string: the built-in [valueOf] gives no
    primitive, so [toString] decides as in [String(v)]. *)
Definition ToNumber (v : JsValue) : option float :=
  match v with
  | JUndefined => Some PrimFloat.nan
  | JNull => Some 0%float
  | JBool true => Some 1%float
  | JBool false => Some 0%float
  | JNum x => Some x
  | JStr s => Some (StringToNumber rt s)
  | JArr _ | JObj _ => option_map (StringToNumber rt) (ToString v)
  end.

(** [process.env.NEXT_PUBLIC_API_URL || "http://127.0.0.1:8000"] *)
Definition api_base : string :=
  match NEXT_PUBLIC_API_URL rt with
  | Some u => if u =? "" then "http://127.0.0.1:8000" else u
  | None => "http://127.0.0.1:8000"
  end.

End WithRuntime.
End Conv.

(* ================================================================== *)
(** * Session Issuer: the login route *)
(* ================================================================== *)

Module Login.
Section WithRuntime.
Variable rt : Runtime.

Definition DEMO_DOCTOR_ID : string := "123456".
Definition DEMO_PASSWORD : string := "password".

Definition failure (error : JsValue) (st : Z) : NextResponse :=
  Http.json_status (JObj [("success", JBool false); ("error", error)]) st.

Definition session_cookie (role : string) (secure : option bool) : Cookie :=
  {| c_name := "user_role"; c_value := role;
     c_httpOnly := Some true; c_sameSite := Some "lax";
     c_maxAge := Some (60 * 60 * 24)%Z; c_path := Some "/";
     c_secure := secure |}.

(** The synthesized [Doctor] session of the demo pair. *)
Definition demo_session : NextResponse :=
  Http.cookies_set
    (Http.json_ok (JObj [("success", JBool true); ("role", JStr "Doctor")]))
    (session_cookie "Doctor" None).

Definition is_demo (doctorIdStr passwordStr : string) : bool :=
  (doctorIdStr =? DEMO_DOCTOR_ID) && (passwordStr =? DEMO_PASSWORD).

(** The inner [catch (err)]. *)
Definition on_fetch_error (doctorIdStr passwordStr : string) : NextResponse :=
  if is_demo doctorIdStr passwordStr then demo_session
  else failure
         (JStr "Login service unavailable. Is the backend running on port 8000?")
         503.

Definition isSecure (request : NextRequest) : bool :=
  JsString.startsWith (url request) "https://" ||
  match Http.header request "x-forwarded-proto" with
  | Some p => p =? "https"
  | None => false
  end.

(** The branch [response.ok && isJson]; [None] when it throws. *)
Definition on_accepted (request : NextRequest) (data : JsValue)
  : option NextResponse :=
  match Js.member data "role" with
  | None => None
  | Some r =>
      match Js.or r (JStr "Doctor") with
      | JStr rawRole =>
          let role :=
            if JsString.toLowerCase rawRole =? "admin" then "Admin" else rawRole in
          Some (Http.cookies_set
                  (Http.json_ok
                     (JObj [("success", JBool true);
                            ("role", JStr role);
                            ("access_token", Js.prop data "access_token");
                            ("refresh_token", Js.prop data "refresh_token");
                            ("token_type", Js.prop data "token_type");
                            ("expires_in", Js.prop data "expires_in")]))
                  (session_cookie role (Some (isSecure request))))
      | _ => None
      end
  end.

(** [(data.detail as Array<{ msg?: string }>)[0]?.msg] *)
Definition first_msg (detail : JsValue) : JsValue :=
  match detail with
  | JArr (x :: _) => Js.opt_member x "msg"
  | _ => JUndefined
  end.

(** The branch [!response.ok]; [None] when it throws: on reading
    [detail] of [null], or on building a response with a status the
    constructor refuses. *)
Definition on_rejected (st : Z) (data : JsValue) (doctorIdStr passwordStr : string)
  : option NextResponse :=
  if is_demo doctorIdStr passwordStr then Some demo_session
  else
    match Js.member data "detail" with
    | None => None
    | Some d =>
        let detail :=
          match d with
          | JArr _ => first_msg d
          | JStr _ => d
          | _ => JNull
          end in
        let errorMsg :=
          if (st =? 422)%Z
          then Js.or detail
                 (JStr "Doctor ID must be exactly 6 digits and password is required.")
          else Js.or detail (JStr "Incorrect ID or password.") in
        if Http.accepts_status st then Some (failure errorMsg st) else None
    end.

Definition or_else (r : option NextResponse) (fallback : NextResponse) : NextResponse :=
  match r with Some x => x | None => fallback end.

Definition login_call (doctorIdStr passwordStr : string) : FetchCall :=
  {| f_url := Conv.api_base rt ++ "/login";
     f_method := "POST";
     f_headers := [("Content-Type", "application/json")];
     f_body := Some (JObj [("doctor_id", JStr doctorIdStr);
                           ("password", JStr passwordStr)]) |}.

(** Everything after [await fetch] inside the inner [try]. *)
Definition after_fetch (request : NextRequest) (doctorIdStr passwordStr : string)
  (result : FetchResult) : NextResponse :=
  match result with
  | FetchRejects => on_fetch_error doctorIdStr passwordStr
  | FetchResponse st contentType body =>
      let isJson :=
        match contentType with
        | Some c => JsString.includes c "application/json"
        | None => false
        end in
      match (if isJson then body else Some (JObj [])) with
      | None => on_fetch_error doctorIdStr passwordStr
      | Some data =>
          if Http.ok st && isJson then
            or_else (on_accepted request data)
                    (on_fetch_error doctorIdStr passwordStr)
          else if negb (Http.ok st) then
            or_else (on_rejected st data doctorIdStr passwordStr)
                    (on_fetch_error doctorIdStr passwordStr)
          else failure (JStr "Authentication failed") 401
      end
  end.

(** [String(doctor_id).trim()]; [None] when [String] throws. *)
Definition doctor_id_string (doctor_id : JsValue) : option string :=
  option_map JsString.trim (Conv.ToString rt doctor_id).

(** [typeof password === "string" ? password : ""] *)
Definition password_string (password : JsValue) : string :=
  match password with JStr s => s | _ => "" end.

Definition POST (request : NextRequest) : Handler :=
  match json request with
  | inl _ => Respond (failure (JStr "Authentication failed") 500)
  | inr body =>
      let fields := Js.coalesce body (JObj []) in
      let doctor_id := Js.prop fields "doctor_id" in
      let password := Js.prop fields "password" in
      if negb (Js.truthy doctor_id) || Js.is_undefined password then
        Respond (failure (JStr "Doctor ID and password are required") 400)
      else
        match doctor_id_string doctor_id with
        | None => Respond (failure (JStr "Authentication failed") 500)
        | Some doctorIdStr =>
            let passwordStr := password_string password in
            Await (login_call doctorIdStr passwordStr)
                  (fun result =>
                     Respond (after_fetch request doctorIdStr passwordStr result))
        end
  end.

End WithRuntime.
End Login.

(* ================================================================== *)
(** * Resource Proxy: the admin route, [GET] *)
(* ================================================================== *)

Module Admin.
Section WithRuntime.
Variable rt : Runtime.

Definition API_BASE : string := Conv.api_base rt.

Definition passthrough (name : string) (v : option string) : list (string * string) :=
  match v with
  | Some x => if x =? "" then [] else [(name, x)]
  | None => []
  end.

Definition forwardAuthHeaders (request : NextRequest) : list (string * string) :=
  [("Content-Type", "application/json")]
    ++ passthrough "Authorization" (Http.header request "authorization")
    ++ passthrough "Cookie" (Http.header request "cookie").

(** The callback of [data.map]; [None] when it throws. *)
Definition normalize_doctor (d : JsValue) : option JsValue :=
  match Js.member d "doctor_id", Js.member d "id" with
  | Some d_doctor_id, Some d_id =>
      Some (JObj (Js.define "id" (if Js.is_string d_id then d_id else d_id)
                    (Js.define "doctor_id" (Js.coalesce d_doctor_id d_id)
                       (Js.spread d))))
  | _, _ => None
  end.

Fixpoint map_normalize (data : list JsValue) : option (list JsValue) :=
  match data with
  | [] => Some []
  | d :: rest =>
      match normalize_doctor d, map_normalize rest with
      | Some d', Some rest' => Some (d' :: rest')
      | _, _ => None
      end
  end.

Definition fetch_failed (type : string) : NextResponse :=
  Http.json_status
    (JObj [("error",
            JStr ("Failed to fetch " ++ type ++ "s. Is the backend running at "
                    ++ API_BASE ++ "?"))])
    500.

Definition list_call (request : NextRequest) (type : string) : FetchCall :=
  {| f_url := API_BASE ++ "/admin/"
                ++ (if type =? "doctor" then "doctors" else "hospitals");
     f_method := "GET";
     f_headers := forwardAuthHeaders request;
     f_body := None |}.

Definition after_fetch (type : string) (result : FetchResult) : NextResponse :=
  match result with
  | FetchRejects => fetch_failed type
  | FetchResponse st _ body =>
      let data := match body with Some d => d | None => JObj [] end in
      if negb (Http.ok st) then
        match Http.json_init data st with
        | Some response => response
        | None => fetch_failed type
        end
      else
        match type =? "doctor", data with
        | true, JArr items =>
            match map_normalize items with
            | Some normalized => Http.json_ok (JArr normalized)
            | None => fetch_failed type
            end
        | _, _ => Http.json_ok data
        end
  end.

Definition GET (request : NextRequest) : Handler :=
  match Http.assoc "type" (searchParams request) with
  | None => Respond (Http.json_status (JObj [("error", JStr "Type parameter required")]) 400)
  | Some type =>
      if type =? "" then
        Respond (Http.json_status (JObj [("error", JStr "Type parameter required")]) 400)
      else
        Await (list_call request type)
              (fun result => Respond (after_fetch type result))
  end.

(** [type === "doctor"] on a value of any type. *)
Definition is_doctor (type : JsValue) : bool :=
  match type with
  | JStr s => s =? "doctor"
  | _ => false
  end.

Definition bad_request (message : string) : NextResponse :=
  Http.json_status (JObj [("error", JStr message)]) 400.

Definition create_failed : NextResponse :=
  Http.json_status (JObj [("error", JStr "Failed to create resource")]) 500.

Definition update_failed : NextResponse :=
  Http.json_status (JObj [("error", JStr "Failed to update resource")]) 500.

(** What [POST] and [PUT] do with the backend's answer; [failed] is the
    response of their [catch]. *)
Definition relay (failed : NextResponse) (result : FetchResult) : NextResponse :=
  match result with
  | FetchRejects => failed
  | FetchResponse st _ body =>
      match body with
      | None => failed
      | Some responseData =>
          if negb (Http.ok st) then
            match Http.json_init responseData st with
            | Some response => response
            | None => failed
            end
          else Http.json_ok responseData
      end
  end.

Definition create_call (request : NextRequest) (type data : JsValue) : FetchCall :=
  {| f_url := API_BASE ++ "/admin/"
                ++ (if is_doctor type then "doctors" else "hospitals");
     f_method := "POST";
     f_headers := forwardAuthHeaders request;
     f_body := Some data |}.

Definition POST (request : NextRequest) : Handler :=
  match json request with
  | inl _ => Respond create_failed
  | inr body =>
      if Js.is_nullish body then Respond create_failed
      else
        let type := Js.prop body "type" in
        let data := JObj (Js.omit ["type"] (Js.spread body)) in
        if negb (Js.truthy type) then Respond (bad_request "Type field required")
        else
          Await (create_call request type data)
                (fun result => Respond (relay create_failed result))
  end.

(** [id != null ? String(id) : doctorId]; [None] when [String] throws. *)
Definition pathId (id doctorId : JsValue) : option JsValue :=
  if Js.is_nullish id then Some doctorId
  else option_map JStr (Conv.ToString rt id).

(** The template [`${API_BASE}/admin/doctors/${pathId}`]; [None] when
    the conversion of [pathId] throws. *)
Definition update_url (path_id : JsValue) : option string :=
  option_map (fun s => API_BASE ++ "/admin/doctors/" ++ s)
             (Conv.ToString rt path_id).

Definition update_call (request : NextRequest) (url : string) (data : JsValue)
  : FetchCall :=
  {| f_url := url;
     f_method := "PUT";
     f_headers := forwardAuthHeaders request;
     f_body := Some data |}.

Definition PUT (request : NextRequest) : Handler :=
  match json request with
  | inl _ => Respond update_failed
  | inr body =>
      if Js.is_nullish body then Respond update_failed
      else
        let type := Js.prop body "type" in
        let doctorId := Js.prop body "doctorId" in
        let id := Js.prop body "id" in
        let data := JObj (Js.omit ["type"; "doctorId"; "id"] (Js.spread body)) in
        if negb (Js.truthy type) then Respond (bad_request "Type field required")
        else
          match pathId id doctorId with
          | None => Respond update_failed
          | Some path_id =>
              if negb (Js.truthy path_id)
              then Respond (bad_request "id or doctorId required")
              else
                match update_url path_id with
                | None => Respond update_failed
                | Some url =>
                    Await (update_call request url data)
                          (fun result => Respond (relay update_failed result))
                end
          end
  end.

End WithRuntime.
End Admin.

(* ================================================================== *)
(** * Prediction Proxy: the predict route *)
(* ================================================================== *)

Module Predict.
Section WithRuntime.
Variable rt : Runtime.

Definition API_URL : string := Conv.api_base rt.

Definition prediction (resistant : float) (probability : JsValue) : JsValue :=
  JObj [("resistant", JNum resistant); ("probability", probability)].

Definition normalizePrediction (data : JsValue) : JsValue :=
  if Js.truthy data && Js.typeof_object data && Js.has "resistant" data then
    let r := Js.prop data "resistant" in
    let resistant :=
      match r with
      | JBool true => 1%float
      | JNum x => if (x =? 1)%float then 1%float else 0%float
      | _ => 0%float
      end in
    let probability :=
      if Js.is_number (Js.prop data "probability") then Js.prop data "probability"
      else if Js.is_number (Js.prop data "confidence") then Js.prop data "confidence"
      else JUndefined in
    prediction resistant probability
  else prediction 0%float JUndefined.

(** [x || 0] on a number. *)
Definition or_zero (x : float) : float :=
  if PrimFloat.is_zero x || PrimFloat.is_nan x then 0%float else x.

(** [Math.min(a, b)] *)
Definition Math_min (a b : float) : float :=
  if PrimFloat.is_nan a || PrimFloat.is_nan b then PrimFloat.nan
  else if (a <? b)%float then a
  else if (b <? a)%float then b
  else if PrimFloat.is_zero a && PrimFloat.get_sign a then a
  else b.

Definition score (age duration : float) : float :=
  ((age / 100) * 0.4 + Math_min (duration / 30) 1 * 0.6)%float.

(** [Number(body?.age) || 0]; [None] when [Number] throws. *)
Definition mock_age (body : JsValue) : option float :=
  option_map or_zero (Conv.ToNumber rt (Js.opt_member body "age")).

(** [Number(body?.duration_days) || 0]; [None] when [Number] throws. *)
Definition mock_duration (body : JsValue) : option float :=
  option_map or_zero (Conv.ToNumber rt (Js.opt_member body "duration_days")).

(** [random] is the value [Math.random()] returns; [None] when reading
    the age or the duration throws. *)
Definition mockPrediction (random : float) (body : JsValue) : option JsValue :=
  match mock_age body with
  | None => None
  | Some age =>
      match mock_duration body with
      | None => None
      | Some duration =>
          Some (prediction
                  (if (0.5 <? score age duration)%float then 1%float else 0%float)
                  (JNum (0.7 + random * 0.25)%float))
      end
  end.

Definition predict_call (body : JsValue) : FetchCall :=
  {| f_url := API_URL ++ "/predict";
     f_method := "POST";
     f_headers := [("Content-Type", "application/json")];
     f_body := Some body |}.

(** The outer [catch] on a [TypeError] of the conversions: its message
    is the engine's. *)
Definition conversion_failed : NextResponse :=
  Http.json_status (JObj [("error", JStr (ToPrimitiveError rt))]) 500.

(** [NextResponse.json(mockPrediction(body))] wherever the handler
    writes it: when the mock throws inside the inner [try], the inner
    [catch] calls it again, and that throw reaches the outer [catch]. *)
Definition mock_response (random : float) (body : JsValue) : NextResponse :=
  match mockPrediction random body with
  | Some mock => Http.json_ok mock
  | None => conversion_failed
  end.

Definition after_fetch (random : float) (body : JsValue) (result : FetchResult)
  : NextResponse :=
  match result with
  | FetchRejects => mock_response random body
  | FetchResponse st contentType reply =>
      let isJson :=
        match contentType with
        | Some c => JsString.includes c "application/json"
        | None => false
        end in
      if Http.ok st && isJson then
        match reply with
        | Some data => Http.json_ok (normalizePrediction data)
        | None => mock_response random body
        end
      else if negb (Http.ok st) || negb isJson then
        mock_response random body
      else mock_response random body
  end.

Definition POST (random : float) (request : NextRequest) : Handler :=
  match json request with
  | inl message => Respond (Http.json_status (JObj [("error", JStr message)]) 500)
  | inr body =>
      Await (predict_call body)
            (fun result => Respond (after_fetch random body result))
  end.

End WithRuntime.
End Predict.

(* ================================================================== *)
(** * The dashboard statistics route *)
(* ================================================================== *)

Module DashboardStats.
Section WithRuntime.
Variable rt : Runtime.

Definition antibiotic (name : string) (count : float) : JsValue :=
  JObj [("name", JStr name); ("count", JNum count)].

(** The data returned when the backend gives nothing usable. *)
Definition mock_stats : JsValue :=
  JObj [("checksThisWeek", JNum 145);
        ("resistantCount", JNum 58);
        ("notResistantCount", JNum 87);
        ("topAntibiotics",
         JArr [antibiotic "Amoxicillin" 45;
               antibiotic "Ciprofloxacin" 38;
               antibiotic "Vancomycin" 32]);
        ("averageAge", JNum 52.3)].

Definition stats_call : FetchCall :=
  {| f_url := Conv.api_base rt ++ "/dashboard-stats";
     f_method := "GET";
     f_headers := [("Content-Type", "application/json")];
     f_body := None |}.

Definition stats_of (data : JsValue) : JsValue :=
  JObj [("checksThisWeek", Js.or (Js.prop data "checks_this_week") (JNum 0));
        ("resistantCount", Js.or (Js.prop data "resistant_count") (JNum 0));
        ("notResistantCount", Js.or (Js.prop data "not_resistant_count") (JNum 0));
        ("topAntibiotics", Js.or (Js.prop data "top_antibiotics") (JArr []));
        ("averageAge", Js.or (Js.prop data "average_age") (JNum 0))].

Definition after_fetch (result : FetchResult) : NextResponse :=
  match result with
  | FetchRejects => Http.json_ok mock_stats
  | FetchResponse st _ body =>
      if negb (Http.ok st) then Http.json_ok mock_stats
      else
        match body with
        | None => Http.json_ok mock_stats
        | Some data =>
            if Js.is_nullish data then Http.json_ok mock_stats
            else Http.json_ok (stats_of data)
        end
  end.

Definition GET : Handler :=
  Await stats_call (fun result => Respond (after_fetch result)).

End WithRuntime.
End DashboardStats.

(* ================================================================== *)
(** * The login page, client of the login route *)
(* ================================================================== *)

Module LoginPage.

(** The state of the form; [error] holds whatever the route sent. *)
Record State : Type := {
  doctorId : string;
  password : string;
  error : JsValue;
  idError : string;
  isLoading : bool
}.

Definition is_digit (c : ascii) : bool := JsString.between 48 57 c.

(** [value.replace(/\D/g, "")] *)
Fixpoint digits_only (value : string) : string :=
  match value with
  | EmptyString => EmptyString
  | String c rest =>
      if is_digit c then String c (digits_only rest) else digits_only rest
  end.

Definition handleDoctorIdChange (value : string) (s : State) : State :=
  let numericValue := digits_only value in
  {| doctorId := numericValue;
     password := password s;
     error := error s;
     idError :=
       if (0 <? String.length numericValue)%nat && (String.length numericValue <? 6)%nat
       then "Doctor ID must be 6 digits" else "";
     isLoading := isLoading s |}.

Definition setPassword (value : string) (s : State) : State :=
  {| doctorId := doctorId s; password := value; error := error s;
     idError := idError s; isLoading := isLoading s |}.

(** The first half of [handleSubmit], up to [await fetch]: the form is
    refused, or a request body is sent to the login route. *)
Inductive Submission : Type :=
| Refused (s : State)
| Sent (s : State) (body : JsValue).

Definition handleSubmit (s : State) : Submission :=
  if negb (String.length (doctorId s) =? 6)%nat then
    Refused {| doctorId := doctorId s; password := password s;
               error := JStr "";
               idError := "Doctor ID must be 6 digits";
               isLoading := isLoading s |}
  else
    Sent {| doctorId := doctorId s; password := password s;
            error := JStr ""; idError := idError s; isLoading := true |}
         (JObj [("doctor_id", JStr (doctorId s)); ("password", JStr (password s))]).

(** What the page's [fetch] brings back: it rejects, or there is a
    response whose [json()] gives a value or rejects. *)
Inductive Reply : Type :=
| NoReply
| Replied (data : option JsValue).

(** The second half of [handleSubmit]: the new state and the page the
    browser is sent to, if any. *)
Definition afterSubmit (s : State) (reply : Reply) : State * option string :=
  let finished (e : JsValue) :=
    {| doctorId := doctorId s; password := password s; error := e;
       idError := idError s; isLoading := false |} in
  match reply with
  | NoReply => (finished (JStr "An error occurred. Please try again."), None)
  | Replied parsed =>
      let data := match parsed with Some d => d | None => JObj [] end in
      match Js.member data "success" with
      | None => (finished (JStr "An error occurred. Please try again."), None)
      | Some success =>
          if Js.truthy success then (finished (error s), Some "/dashboard")
          else
            (finished (Js.or (Js.prop data "error") (JStr "Incorrect ID or password.")),
             None)
      end
  end.

(** What the browser reads from a response of the route. *)
Definition reply_of (r : NextResponse) : Reply :=
  match kind r with
  | RJson body => Replied (Some (Js.wire body))
  | _ => Replied None
  end.

End LoginPage.

(* ================================================================== *)
(** * The prediction page: the patient's SSN *)
(* ================================================================== *)

Module PredictPage.

(** The two pieces of state [validateSSN] writes: [formData.ssn] and
    [errors.ssn]. *)
Record SsnState : Type := {
  formData_ssn : string;
  errors_ssn : string
}.

(** [s.slice(a, b)] for [0 <= a <= b]. *)
Definition slice (a b : nat) (s : string) : string :=
  String.substring a (b - a) s.

Definition validateSSN (value : string) (st : SsnState) : bool * SsnState :=
  let digitsOnly := LoginPage.digits_only value in
  if negb (String.length digitsOnly =? 9)%nat then
    (false, {| formData_ssn := formData_ssn st;
               errors_ssn := "SSN must be 9 digits (XXX-XX-XXXX)" |})
  else
    let formatted :=
      slice 0 3 digitsOnly ++ "-" ++ slice 3 5 digitsOnly ++ "-"
        ++ slice 5 9 digitsOnly in
    (true, {| formData_ssn := formatted; errors_ssn := "" |}).

End PredictPage.

(* ================================================================== *)
(** * The admin page, client of the admin route *)
(* ================================================================== *)

Module AdminPage.

(** [await response.json().catch(() => ({}))] on a response of a route. *)
Definition received (r : NextResponse) : JsValue :=
  match kind r with
  | RJson body => Js.wire body
  | _ => JObj []
  end.

(** [fetchDoctors]: the list the page holds afterwards. *)
Definition fetchDoctors (doctors : list JsValue) (r : NextResponse) : list JsValue :=
  if Http.ok (status r) then
    match received r with
    | JArr items => items
    | _ => []
    end
  else doctors.

(** The request body of [handleResetPassword], [handleSuspendUser] and
    [handleUpdateRole] as the route parses it; [None] when reading the
    doctor throws. *)
Definition update_body (doctor : JsValue) (field : string) (value : JsValue)
  : option JsValue :=
  match Js.member doctor "id", Js.member doctor "doctor_id" with
  | Some id, Some doctor_id =>
      Some (Js.wire (JObj [("type", JStr "doctor");
                           ("id", id);
                           ("doctorId", doctor_id);
                           (field, value)]))
  | _, _ => None
  end.


Definition handleUpdateRole (doctor : JsValue) (newRole : string) : option JsValue :=
  update_body doctor "role" (JStr newRole).

(** [newPassword] is what [prompt] returned, [None] when it was
    cancelled; the result is the request body, if a request is sent. *)
Definition handleResetPassword (doctor : JsValue) (newPassword : option string)
  : option JsValue :=
  match newPassword with
  | Some p => if p =? "" then None else update_body doctor "password" (JStr p)
  | None => None
  end.

(** The form of a new doctor. *)
Record NewDoctor : Type := {
  name : string;
  doctor_id : string;
  password : string;
  role : string;
  region : string;
  hospital : string
}.

(** [handleAddDoctor] up to [await fetch]: the request body, if a
    request is sent. *)
Definition handleAddDoctor (newDoctor : NewDoctor) : option JsValue :=
  if (name newDoctor =? "") || (doctor_id newDoctor =? "")
     || (password newDoctor =? "") || (region newDoctor =? "")
     || (hospital newDoctor =? "")
  then None
  else
    Some (Js.wire (JObj [("type", JStr "doctor");
                         ("name", JStr (name newDoctor));
                         ("doctor_id", JStr (doctor_id newDoctor));
                         ("password", JStr (password newDoctor));
                         ("role", JStr (role newDoctor));
                         ("region", JStr (region newDoctor));
                         ("hospital", JStr (hospital newDoctor));
                         ("status", JStr "Active")])).

End AdminPage.

(* ================================================================== *)
(** * The specification's vocabulary *)
(* ================================================================== *)

(** ** Session Gate *)

(** A string that reads "admin" when letter case is ignored. *)
Definition spells_admin (r : string) : Prop :=
  exists c1 c2 c3 c4 c5,
    r = String c1 (String c2 (String c3 (String c4 (String c5 EmptyString)))) /\
    (c1 = "a" \/ c1 = "A")%char /\
    (c2 = "d" \/ c2 = "D")%char /\
    (c3 = "m" \/ c3 = "M")%char /\
    (c4 = "i" \/ c4 = "I")%char /\
    (c5 = "n" \/ c5 = "N")%char.

(** The role of a session: present, and "admin" up to letter case. *)
Definition admin_role (role : option string) : Prop :=
  exists r, role = Some r /\ spells_admin r.

(** A path under the admin route prefix: [/admin] itself, or [/admin]
    followed by one or more non-empty segments. *)
Definition segment (s : string) : Prop :=
  s <> "" /\ Forall (fun c => c <> "/"%char) (list_ascii_of_string s).

Inductive admin_path : string -> Prop :=
| admin_root : admin_path "/admin"
| admin_below (path seg : string) :
    admin_path path -> segment seg -> admin_path (path ++ "/" ++ seg).

(** The cookie accessor and the headers of a request are maps: no name
    occurs twice. *)
Definition well_formed (request : NextRequest) : Prop :=
  NoDup (map fst (cookies request)) /\ NoDup (map fst (headers request)).

(** The cookie accessor holds the cookie [name] with the value [v]. *)
Definition accessor_holds (request : NextRequest) (name v : string) : Prop :=
  In (name, v) (cookies request).

(** The cookie accessor has nothing to read under [name]: no entry, or
    an empty value. *)
Definition accessor_empty (request : NextRequest) (name : string) : Prop :=
  forall v, In (name, v) (cookies request) -> v = "".

(** The request has the header [name] with the value [h]. *)
Definition header_is (request : NextRequest) (name h : string) : Prop :=
  In (name, h) (headers request).

Definition no_header (request : NextRequest) (name : string) : Prop :=
  ~ In name (map fst (headers request)).

(** The text [sub] occurs in [s]. *)
Definition occurs (sub s : string) : Prop :=
  exists before after, s = before ++ sub ++ after.

(** The raw [Cookie] header [h] holds a cookie [name] with the value
    [v], as the cookie grammar writes it: the pair [name=v] stands at
    the start of [h] or right after a separator ["; "], and runs to the
    end of [h] or to the next [;]. *)
Definition header_holds (h name v : string) : Prop :=
  exists before after,
    h = before ++ name ++ "=" ++ v ++ after /\
    (before = "" \/ exists b, before = b ++ "; ") /\
    ~ occurs ";" v /\
    (after = "" \/ exists a, after = ";" ++ a).

(** The first place where [name=] is written in [h] is the pair of a
    cookie [name] with the value [v]. *)
Definition header_first_holds (h name v : string) : Prop :=
  exists before after,
    h = before ++ name ++ "=" ++ v ++ after /\
    (before = "" \/ exists b, before = b ++ "; ") /\
    (forall a b, before ++ name ++ "=" = a ++ name ++ "=" ++ b -> b = "") /\
    ~ occurs ";" v /\
    (after = "" \/ exists a, after = ";" ++ a).

(** ** Handlers and the backend *)

(** The JSON body of a response. *)
Definition body_of (r : NextResponse) : JsValue :=
  match kind r with
  | RJson b => b
  | _ => JUndefined
  end.

(** The backend call failed: the transport broke, or the reply is not
    2xx. *)
Definition backend_failed (result : FetchResult) : Prop :=
  result = FetchRejects \/
  exists st contentType body,
    result = FetchResponse st contentType body /\ Http.ok st = false.

(** The backend replied 2xx with a JSON body [data]. *)
Definition replied_json (result : FetchResult) (data : JsValue) : Prop :=
  exists st contentType,
    result = FetchResponse st (Some contentType) (Some data) /\
    Http.ok st = true /\
    JsString.includes contentType "application/json" = true.

(** The prediction call failed: transport failure, a reply that is not
    2xx, or a 2xx reply whose body is not JSON (by its content type, or
    because it does not parse). *)
Inductive predict_failed : FetchResult -> Prop :=
| predict_transport : predict_failed FetchRejects
| predict_status st contentType body :
    Http.ok st = false ->
    predict_failed (FetchResponse st contentType body)
| predict_no_content_type st body :
    predict_failed (FetchResponse st None body)
| predict_other_content_type st contentType body :
    JsString.includes contentType "application/json" = false ->
    predict_failed (FetchResponse st (Some contentType) body)
| predict_unparsable st contentType :
    predict_failed (FetchResponse st contentType None).

(** [data] is an object that contains the key [k]. *)
Definition has_key (k : string) (data : JsValue) : Prop :=
  exists props v, data = JObj props /\ Js.lookup k props = Some v.

(** A key of a record holds a value: neither missing, nor [undefined],
    nor [null]. *)
Definition populated (k : string) (record : JsValue) : bool :=
  negb (Js.is_nullish (Js.prop record k)).

(** A doctor record [d] and its normalized form [d']: [doctor_id] is the
    backend's or, without one, the record's [id]; an [id] the backend
    sent is kept; every other key is as the backend sent it. *)
Definition doctor_normalized (d d' : JsValue) : Prop :=
  (exists props', d' = JObj props') /\
  Js.prop d' "doctor_id" = Js.coalesce (Js.prop d "doctor_id") (Js.prop d "id") /\
  (populated "id" d = true -> Js.prop d' "id" = Js.prop d "id") /\
  (forall k, k <> "id" -> k <> "doctor_id" -> Js.prop d' k = Js.prop d k).

Definition is_record (v : JsValue) : Prop :=
  exists props, v = JObj props.



(** The score of the specification, its operands in the order the
    specification writes them. *)
Definition spec_score (age duration_days : float) : float :=
  (0.4 * (age / 100) + 0.6 * Predict.Math_min (duration_days / 30) 1)%float.

(** A draw of [Math.random()]: a number in [0, 1). *)
Definition is_draw (x : float) : Prop :=
  (0 <=? x)%float = true /\ (x <? 1)%float = true.

(** ** Sample inputs *)

Module Sample.

Definition runtime : Runtime :=
  {| NumberToString := fun _ => "0";
     StringToNumber := fun _ => PrimFloat.nan;
     ToPrimitiveError := "Cannot convert object to primitive value";
     NEXT_PUBLIC_API_URL := None |}.

Definition request (path : string) (body : string + JsValue) : NextRequest :=
  {| url := "http://localhost:3000" ++ path;
     origin := "http://localhost:3000";
     pathname := path;
     searchParams := [];
     cookies := [];
     headers := [];
     json := body |}.

(** An admin page request of a session with the role [Admin]. *)
Definition admin_page : NextRequest :=
  {| url := "http://localhost:3000/admin";
     origin := "http://localhost:3000";
     pathname := "/admin";
     searchParams := [];
     cookies := [("theme", "dark"); ("user_role", "Admin")];
     headers := [("cookie", "theme=dark; user_role=Admin")];
     json := inl "Unexpected end of JSON input" |}.

(** An admin page request without a [user_role] cookie: its only
    cookie is named [x-user_role]. *)
Definition foreign_cookie_page : NextRequest :=
  {| url := "http://localhost:3000/admin";
     origin := "http://localhost:3000";
     pathname := "/admin";
     searchParams := [];
     cookies := [("x-user_role", "admin")];
     headers := [("cookie", "x-user_role=admin")];
     json := inl "Unexpected end of JSON input" |}.

Definition entry_page : NextRequest :=
  {| url := "http://localhost:3000/";
     origin := "http://localhost:3000";
     pathname := "/";
     searchParams := [];
     cookies := [("user_role", "Admin")];
     headers := [("cookie", "user_role=Admin")];
     json := inl "Unexpected end of JSON input" |}.

Definition credentials (doctor_id password : JsValue) : JsValue :=
  JObj [("doctor_id", doctor_id); ("password", password)].

Definition demo_login : NextRequest :=
  request "/api/login" (inr (credentials (JStr "123456") (JStr "password"))).

Definition other_login : NextRequest :=
  request "/api/login" (inr (credentials (JStr "654321") (JStr "secret"))).

Definition empty_password_login : NextRequest :=
  request "/api/login" (inr (credentials (JStr "654321") (JStr ""))).

Definition no_id_login : NextRequest :=
  request "/api/login" (inr (JObj [("password", JStr "secret")])).

Definition null_id_login : NextRequest :=
  request "/api/login" (inr (credentials JNull (JStr "secret"))).

Definition doctors_list : NextRequest :=
  {| url := "http://localhost:3000/api/admin?type=doctor";
     origin := "http://localhost:3000";
     pathname := "/api/admin";
     searchParams := [("type", "doctor")];
     cookies := [];
     headers := [];
     json := inl "Unexpected end of JSON input" |}.

(** [{id: 5, name: "A"}] *)
Definition doctor_with_id : JsValue :=
  JObj [("id", JNum 5); ("name", JStr "A")].

(** [{doctor_id: "123456", name: "B"}] *)
Definition doctor_with_doctor_id : JsValue :=
  JObj [("doctor_id", JStr "123456"); ("name", JStr "B")].

(** [{age: 80, duration_days: 30}] *)
Definition patient : JsValue :=
  JObj [("age", JNum 80); ("duration_days", JNum 30)].



Definition unreachable : FetchCall -> FetchResult := fun _ => FetchRejects.

Definition replies (data : JsValue) : FetchCall -> FetchResult :=
  fun _ => FetchResponse 200 (Some "application/json") (Some data).

(** The greatest number below 1, 1 - 2^-53, and the one before it,
    1 - 2^-52. *)
Definition top_draw : float := 0x1.fffffffffffffp-1%float.
Definition second_draw : float := 0x1.ffffffffffffep-1%float.

End Sample.

(** ** Binary64 rounding, after [SpecFloat] *)

Module B64.

(** The last step of [binary_round_aux] for a positive sign: the
    float a mantissa and an exponent stand for. *)
Definition finish (m e : Z) : spec_float :=
  match m with
  | Z0 => S754_zero false
  | Zpos p =>
      if (e <=? emax - prec)%Z then S754_finite false p e else S754_infinity false
  | Zneg _ => S754_nan
  end.

(** The second half of [binary_round_aux]: renormalization of a rounded
    mantissa. *)
Definition renorm (m e : Z) : spec_float :=
  let '(mrs, e') := shr_fexp prec emax m e loc_Exact in finish (shr_m mrs) e'.

(** A float between zero and 0.25: a zero, a positive float with an
    exponent of at most -55, or 0.25 itself. *)
Definition at_most_quarter (r : spec_float) : Prop :=
  (exists s, r = S754_zero s) \/
  (exists m e, r = S754_finite false m e /\ (e <= -55)%Z) \/
  r = S754_finite false 4503599627370496 (-54).

(** The mantissas of 0.7 and 0.95, both at exponent -53. *)
Definition M7 : positive := 6305039478318694.
Definition M95 : positive := 8556839292003942.

End B64.

(** ** Further vocabulary *)

(** The role a backend login reply carries: its [role] when that is a
    non-empty string, ["Doctor"] when it is missing or falsy. *)
Inductive backend_role (data : JsValue) : string -> Prop :=
| role_given (raw : string) :
    Js.prop data "role" = JStr raw ->
    raw <> "" ->
    backend_role data raw
| role_default :
    Js.truthy (Js.prop data "role") = false ->
    backend_role data "Doctor".

(** The role the portal issues for a backend role: ["Admin"] for every
    spelling of admin, the backend's own string otherwise. *)
Definition issued_role (raw role : string) : Prop :=
  (spells_admin raw /\ role = "Admin") \/ (~ spells_admin raw /\ role = raw).

(** A login response that opens a session for [role]: 200, success, and
    the one [user_role] cookie. *)
Definition session_issued (r : NextResponse) (role : string) : Prop :=
  status r = 200%Z /\
  Js.prop (body_of r) "success" = JBool true /\
  Js.prop (body_of r) "role" = JStr role /\
  exists secure, set_cookies r = [Login.session_cookie role secure].

(** A login response that opens no session: not 2xx, no success, and no
    cookie. *)
Definition login_refused (r : NextResponse) : Prop :=
  Http.ok (status r) = false /\
  Js.prop (body_of r) "success" = JBool false /\
  set_cookies r = [].


(** The request came over https: by its URL, or by the word of the
    proxy in front of the server. *)
Definition over_https (request : NextRequest) : Prop :=
  (exists rest, url request = "https://" ++ rest) \/
  header_is request "x-forwarded-proto" "https".

(** The credentials are the demo pair. *)
Definition demo_pair (id : string) (password : JsValue) : Prop :=
  id = "123456" /\ password = JStr "password".

(** A request that carries the cookies a response has set. *)
Definition carries_cookies (request : NextRequest) (response : NextResponse) : Prop :=
  forall c, In c (set_cookies response) ->
            Http.cookie_value request (c_name c) = Some (c_value c).

(** A string that does not begin with white space. *)
Definition starts_clean (s : string) : bool :=
  match s with
  | EmptyString => true
  | String c _ => negb (JsString.is_whitespace c)
  end.

(** The keys of an object, in order. *)
Definition keys_of (v : JsValue) : list string :=
  match v with
  | JObj props => map fst props
  | _ => []
  end.

(** A string of decimal digits. *)
Definition all_digits (s : string) : Prop :=
  Forall (fun c => LoginPage.is_digit c = true) (list_ascii_of_string s).

(** One of the ten decimal digits. *)
Definition decimal_digit (c : ascii) : bool :=
  existsb (Ascii.eqb c) (list_ascii_of_string "0123456789").

(** The decimal digits of a text, in their order. *)
Definition digits_of (s : string) : list ascii :=
  filter decimal_digit (list_ascii_of_string s).


(** ** Further sample inputs *)

Module Scenario.

Definition admin_reply : JsValue :=
  JObj [("access_token", JStr "t1"); ("role", JStr "ADMIN")].

Definition accepts (data : JsValue) : FetchCall -> FetchResult :=
  fun _ => FetchResponse 200 (Some "application/json; charset=utf-8") (Some data).

Definition rejects (st : Z) (data : JsValue) : FetchCall -> FetchResult :=
  fun _ => FetchResponse st (Some "application/json") (Some data).

Definition html_page : FetchCall -> FetchResult :=
  fun _ => FetchResponse 200 (Some "text/html") None.

(** A later request for an admin page, with the given session cookie. *)
Definition admin_visit (role : string) : NextRequest :=
  {| url := "http://localhost:3000/admin/doctors";
     origin := "http://localhost:3000";
     pathname := "/admin/doctors";
     searchParams := [];
     cookies := [("user_role", role)];
     headers := [];
     json := inl "Unexpected end of JSON input" |}.

Definition with_headers (hs : list (string * string)) (r : NextRequest) : NextRequest :=
  {| url := url r; origin := origin r; pathname := pathname r;
     searchParams := searchParams r; cookies := cookies r;
     headers := hs; json := json r |}.

Definition list_of (type : string) : NextRequest :=
  {| url := "http://localhost:3000/api/admin?type=" ++ type;
     origin := "http://localhost:3000";
     pathname := "/api/admin";
     searchParams := [("type", type)];
     cookies := [];
     headers := [];
     json := inl "Unexpected end of JSON input" |}.

Definition admin_write (body : JsValue) : NextRequest :=
  Sample.request "/api/admin" (inr body).

(** [{type: "doctor", name: "A", doctor_id: "123456"}] *)
Definition new_doctor : JsValue :=
  JObj [("type", JStr "doctor"); ("name", JStr "A"); ("doctor_id", JStr "123456")].

(** [{type: "doctor", id: 5, doctorId: "123456", status: "Suspended"}],
    the id as a string. *)
Definition suspend_doctor : JsValue :=
  JObj [("type", JStr "doctor"); ("id", JStr "5"); ("doctorId", JStr "123456");
        ("status", JStr "Suspended")].

Definition form : LoginPage.State :=
  {| LoginPage.doctorId := ""; LoginPage.password := "secret";
     LoginPage.error := JStr ""; LoginPage.idError := "";
     LoginPage.isLoading := false |}.

End Scenario.

(* ================================================================== *)
(** * Properties of the Session Gate *)
(* ================================================================== *)

(** ** Letter case *)

Ltac each_ascii c :=
  destruct c as [[] [] [] [] [] [] [] []].

Lemma lower_char_inv (c l u : ascii) :
  JsString.is_upper l = false ->
  JsString.lower_char u = l ->
  (forall x, JsString.lower_char x = l -> x = l \/ x = u) ->
  JsString.lower_char c = l <-> (c = l \/ c = u).
Proof.
  intros Hl Hu Hall. split.
  - apply Hall.
  - intros [-> | ->]; [unfold JsString.lower_char; now rewrite Hl | exact Hu].
Qed.

Lemma lower_a c : JsString.lower_char c = "a"%char <-> (c = "a" \/ c = "A")%char.
Proof.
  apply lower_char_inv; try reflexivity.
  intros x; each_ascii x; vm_compute; intros H; try discriminate H; auto.
Qed.

Lemma lower_d c : JsString.lower_char c = "d"%char <-> (c = "d" \/ c = "D")%char.
Proof.
  apply lower_char_inv; try reflexivity.
  intros x; each_ascii x; vm_compute; intros H; try discriminate H; auto.
Qed.

Lemma lower_m c : JsString.lower_char c = "m"%char <-> (c = "m" \/ c = "M")%char.
Proof.
  apply lower_char_inv; try reflexivity.
  intros x; each_ascii x; vm_compute; intros H; try discriminate H; auto.
Qed.

Lemma lower_i c : JsString.lower_char c = "i"%char <-> (c = "i" \/ c = "I")%char.
Proof.
  apply lower_char_inv; try reflexivity.
  intros x; each_ascii x; vm_compute; intros H; try discriminate H; auto.
Qed.

Lemma lower_n c : JsString.lower_char c = "n"%char <-> (c = "n" \/ c = "N")%char.
Proof.
  apply lower_char_inv; try reflexivity.
  intros x; each_ascii x; vm_compute; intros H; try discriminate H; auto.
Qed.

(** [role.toLowerCase() === "admin"] is the comparison that ignores
    letter case. *)
Lemma toLowerCase_admin (r : string) :
  JsString.toLowerCase r = "admin" <-> spells_admin r.
Proof.
  split.
  - destruct r as [|c1 [|c2 [|c3 [|c4 [|c5 [|c6 r]]]]]]; simpl; try discriminate.
    intros H. injection H as H1 H2 H3 H4 H5.
    exists c1, c2, c3, c4, c5. split; [reflexivity|].
    rewrite <- lower_a, <- lower_d, <- lower_m, <- lower_i, <- lower_n. tauto.
  - intros (c1 & c2 & c3 & c4 & c5 & -> & H1 & H2 & H3 & H4 & H5). simpl.
    apply lower_a in H1. apply lower_d in H2. apply lower_m in H3.
    apply lower_i in H4. apply lower_n in H5.
    now rewrite H1, H2, H3, H4, H5.
Qed.

Lemma role_is_admin_spec (role : option string) :
  role_is_admin role = true <-> admin_role role.
Proof.
  unfold role_is_admin, admin_role. destruct role as [r|].
  - rewrite String.eqb_eq, toLowerCase_admin. split.
    + intros H. now exists r.
    + intros (r' & E & H). now injection E as ->.
  - split; [discriminate | intros (r & E & _); discriminate].
Qed.

Lemma admin_role_present (role : option string) :
  admin_role role -> role_present role = true.
Proof.
  intros (r & -> & c1 & c2 & c3 & c4 & c5 & -> & _). reflexivity.
Qed.

(** ** Reading the role *)

Example group1_finds_cookie :
  CookieRegex.group1 "theme=dark; user_role=Admin" = Some "Admin".
Proof. reflexivity. Qed.

Example group1_needs_word_boundary :
  CookieRegex.group1 "xuser_role=admin" = None.
Proof. reflexivity. Qed.

Example group1_needs_value :
  CookieRegex.group1 "user_role=; theme=dark" = None.
Proof. reflexivity. Qed.

Lemma role_present_some (v : string) :
  role_present (Some v) = true <-> v <> "".
Proof.
  unfold role_present. rewrite negb_true_iff. split.
  - intros H ->. discriminate.
  - intros H. apply String.eqb_neq. exact H.
Qed.

(** ** Maps *)

Lemma assoc_In (k v : string) (l : list (string * string)) :
  NoDup (map fst l) -> In (k, v) l -> Http.assoc k l = Some v.
Proof.
  induction l as [|[k' v'] rest IH]; [intros _ []|].
  cbn [map fst Http.assoc In]. intros Hnd Hin. inversion Hnd as [|? ? Hnot Hrest]; subst.
  destruct Hin as [E | Hin].
  - injection E as -> ->. now rewrite String.eqb_refl.
  - destruct (String.eqb_spec k' k) as [-> |]; [|now apply IH].
    exfalso. apply Hnot. change k with (fst (k, v)). now apply in_map.
Qed.

Lemma assoc_Some_In (k v : string) (l : list (string * string)) :
  Http.assoc k l = Some v -> In (k, v) l.
Proof.
  induction l as [|[k' v'] rest IH]; [discriminate|].
  cbn [Http.assoc]. destruct (String.eqb_spec k' k) as [-> |].
  - intros E. injection E as ->. now left.
  - intros H. right. now apply IH.
Qed.

Lemma assoc_absent (k : string) (l : list (string * string)) :
  ~ In k (map fst l) -> Http.assoc k l = None.
Proof.
  intros H. destruct (Http.assoc k l) as [v|] eqn:E; [|reflexivity].
  exfalso. apply H. apply assoc_Some_In in E.
  change k with (fst (k, v)). now apply in_map.
Qed.

Lemma accessor_empty_absent (request : NextRequest) (name : string) :
  accessor_empty request name ->
  role_present (Http.cookie_value request name) = false.
Proof.
  intros H. unfold Http.cookie_value.
  destruct (Http.assoc name (cookies request)) as [v|] eqn:E; [|reflexivity].
  apply assoc_Some_In in E. now rewrite (H v E).
Qed.

(** ** Paths *)

Lemma prefix_append (p s r : string) :
  String.prefix p s = true -> String.prefix p (s ++ r) = true.
Proof.
  revert s. induction p as [|c p IH]; intros s H.
  - now destruct (s ++ r).
  - destruct s as [|c' s]; [discriminate|]. cbn [String.append String.prefix] in *.
    destruct (Ascii.ascii_dec c c'); [now apply IH | discriminate].
Qed.

Lemma prefix_app_l (a b s : string) :
  String.prefix (a ++ b) s = true -> String.prefix a s = true.
Proof.
  revert s. induction a as [|c a IH]; intros s; simpl; [now destruct s|].
  destruct s as [|c' s]; [discriminate|]. simpl.
  destruct (Ascii.ascii_dec c c'); [apply IH | discriminate].
Qed.

Lemma admin_path_shape (path : string) :
  admin_path path ->
  path = "/admin" \/ String.prefix "/admin/" path = true.
Proof.
  induction 1 as [|path seg _ [-> | IH] _]; [now left | right | right].
  - now destruct seg.
  - now apply prefix_append.
Qed.

(** Both matchers select every path under the admin prefix, and there
    the middleware takes its admin branch. *)
Lemma admin_path_selected (path : string) :
  admin_path path ->
  matcher_matches GateFallback.matcher path = true /\
  matcher_matches GateLogout.matcher path = true /\
  JsString.startsWith path "/admin" = true /\
  (path =? "/") = false.
Proof.
  intros H. destruct (admin_path_shape path H) as [-> | Hp]; [now repeat split|].
  unfold matcher_matches, GateFallback.matcher, GateLogout.matcher.
  cbn [existsb pattern_matches]. unfold JsString.startsWith.
  change ("/admin" ++ "/") with "/admin/". rewrite Hp.
  rewrite !orb_true_r. repeat split.
  - exact (prefix_app_l "/admin" "/" path Hp).
  - apply String.eqb_neq. intros ->. discriminate Hp.
Qed.

(** ** The pattern of the raw header *)

Lemma prefix_split (p s : string) :
  String.prefix p s = true -> exists r, s = p ++ r.
Proof.
  revert s. induction p as [|c p IH]; intros s H.
  - now exists s.
  - destruct s as [|c' s]; [discriminate|]. simpl in H.
    destruct (Ascii.ascii_dec c c') as [<- |]; [|discriminate].
    destruct (IH s H) as [r ->]. now exists r.
Qed.

Lemma prefix_app (p a b : string) :
  String.prefix (p ++ a) (p ++ b) = String.prefix a b.
Proof.
  induction p as [|c p IH]; simpl; [reflexivity|].
  destruct (Ascii.ascii_dec c c); [exact IH | congruence].
Qed.

Lemma drop_app (p r : string) : JsString.drop (String.length p) (p ++ r) = r.
Proof. induction p as [|c p IH]; simpl; [now destruct r | exact IH]. Qed.

Lemma up_to_semicolon_prefix (r : string) :
  String.prefix (CookieRegex.up_to_semicolon r) r = true.
Proof.
  induction r as [|c r IH]; simpl; [reflexivity|].
  destruct (c =? ";")%char; simpl; [reflexivity|].
  destruct (Ascii.ascii_dec c c); [exact IH | congruence].
Qed.

Lemma up_to_semicolon_clean (r : string) :
  JsString.includes (CookieRegex.up_to_semicolon r) ";" = false.
Proof.
  induction r as [|c r IH]; cbn [CookieRegex.up_to_semicolon]; [reflexivity|].
  destruct (c =? ";")%char eqn:E; [reflexivity|].
  cbn [JsString.includes String.prefix]. rewrite IH, orb_false_r.
  destruct (Ascii.ascii_dec ";" c) as [<- |]; [|reflexivity].
  rewrite Ascii.eqb_refl in E. discriminate.
Qed.

Lemma includes_tail (c : ascii) (s sub : string) :
  JsString.includes s sub = true -> JsString.includes (String c s) sub = true.
Proof. intros H. cbn [JsString.includes]. rewrite H. apply orb_true_r. Qed.

Lemma includes_prefix (s sub : string) :
  String.prefix sub s = true -> JsString.includes s sub = true.
Proof. intros H. destruct s; cbn [JsString.includes]; rewrite H; reflexivity. Qed.

Lemma match_here_sound (s v : string) :
  CookieRegex.match_here s = Some v ->
  v <> "" /\ JsString.includes v ";" = false /\
  String.prefix ("user_role=" ++ v) s = true.
Proof.
  unfold CookieRegex.match_here.
  destruct (String.prefix "user_role=" s) eqn:Hp; [|discriminate].
  destruct (prefix_split _ _ Hp) as [r ->].
  change 10%nat with (String.length "user_role="). rewrite drop_app.
  pose proof (up_to_semicolon_prefix r) as Hpre.
  pose proof (up_to_semicolon_clean r) as Hclean.
  destruct (CookieRegex.up_to_semicolon r) as [|c v'] eqn:E; [discriminate|].
  intros H. injection H as <-. repeat split.
  - discriminate.
  - exact Hclean.
  - rewrite prefix_app. exact Hpre.
Qed.

Lemma search_sound (s v : string) : forall after_word,
  CookieRegex.search after_word s = Some v ->
  v <> "" /\ JsString.includes v ";" = false /\
  JsString.includes s ("user_role=" ++ v) = true.
Proof.
  induction s as [|c s IH]; intros after_word H; [discriminate|].
  cbn [CookieRegex.search] in H.
  destruct (if after_word then None else CookieRegex.match_here (String c s))
    as [v'|] eqn:E.
  - injection H as ->. destruct after_word; [discriminate|].
    destruct (match_here_sound _ _ E) as (Hne & Hclean & Hp).
    repeat split; auto. now apply includes_prefix.
  - destruct (IH _ H) as (Hne & Hclean & Hin).
    repeat split; auto. now apply includes_tail.
Qed.

Lemma search_complete (s : string) : forall after_word,
  JsString.includes s "user_role=" = false ->
  CookieRegex.search after_word s = None.
Proof.
  induction s as [|c s IH]; intros after_word H; [reflexivity|].
  cbn [CookieRegex.search]. cbn [JsString.includes] in H.
  apply orb_false_iff in H. destruct H as [Hp Hrest].
  unfold CookieRegex.match_here. rewrite Hp.
  rewrite (IH _ Hrest). now destruct after_word.
Qed.


Lemma includes_occurs (s sub : string) :
  JsString.includes s sub = true -> occurs sub s.
Proof.
  induction s as [|c s IH]; cbn [JsString.includes].
  - rewrite orb_false_r. intros H. destruct (prefix_split _ _ H) as [r ->].
    exists "", r. reflexivity.
  - intros H. apply orb_true_iff in H. destruct H as [H | H].
    + destruct (prefix_split _ _ H) as [r Hr]. exists "", r. exact Hr.
    + destruct (IH H) as (b & a & ->). exists (String c b), a. reflexivity.
Qed.

Lemma length_app (a b : string) :
  String.length (a ++ b) = String.length a + String.length b.
Proof. induction a as [|c a IH]; cbn; [reflexivity | now rewrite IH]. Qed.

Lemma app_assoc_string (a b c : string) : (a ++ b) ++ c = a ++ b ++ c.
Proof. induction a as [|x a IH]; cbn; [reflexivity | now rewrite IH]. Qed.

Lemma app_prefix_split (p : string) : forall x y r,
  x ++ y = p ++ r -> String.length p <= String.length x ->
  exists b, x = p ++ b.
Proof.
  induction p as [|c p IH]; intros x y r H Hlen.
  - now exists x.
  - destruct x as [|c' x]; [cbn in Hlen; lia|].
    cbn [String.append] in H. injection H as -> H.
    cbn [String.length] in Hlen.
    destruct (IH x y r H) as [b ->]; [lia|]. now exists b.
Qed.

Lemma last_char (x y : string) (c d : ascii) :
  x ++ String c "" = y ++ String d "" -> c = d.
Proof.
  revert y. induction x as [|a x IH]; intros [|b y] H; cbn [String.append] in H.
  - now injection H.
  - injection H as _ H. destruct y; discriminate H.
  - injection H as _ H. destruct x; discriminate H.
  - injection H as _ H. exact (IH y H).
Qed.

Lemma up_to_semicolon_value (v after : string) :
  ~ occurs ";" v ->
  after = "" \/ (exists a, after = ";" ++ a) ->
  CookieRegex.up_to_semicolon (v ++ after) = v.
Proof.
  intros Hv Hafter. induction v as [|c v IH].
  - destruct Hafter as [-> | [a ->]]; reflexivity.
  - cbn [String.append CookieRegex.up_to_semicolon].
    destruct (Ascii.eqb_spec c ";") as [-> |].
    + exfalso. apply Hv. exists "", v. reflexivity.
    + rewrite IH; [reflexivity|].
      intros (b & a & E). apply Hv. exists (String c b), a. now rewrite E.
Qed.

(** The pattern finds the value that follows the first [user_role=] of
    the header when a word boundary precedes it. *)
Lemma search_first (v after : string) :
  v <> "" -> ~ occurs ";" v ->
  after = "" \/ (exists a, after = ";" ++ a) ->
  forall before after_word,
    (forall a b, before ++ "user_role=" = a ++ "user_role=" ++ b -> b = "") ->
    (before = "" -> after_word = false) ->
    (forall b c, before = b ++ String c "" -> JsString.is_word_char c = false) ->
    CookieRegex.search after_word (before ++ "user_role=" ++ v ++ after) = Some v.
Proof.
  intros Hne Hv Hafter.
  assert (Hhead : exists s, "user_role=" ++ v ++ after = String "u" s)
    by (eexists; reflexivity).
  assert (Hp : String.prefix "user_role=" ("user_role=" ++ v ++ after) = true).
  { change "user_role=" with ("user_role=" ++ "") at 1. rewrite prefix_app.
    now destruct (v ++ after). }
  assert (Hdrop : JsString.drop 10 ("user_role=" ++ v ++ after) = v ++ after).
  { change 10 with (String.length "user_role="). apply drop_app. }
  set (tail := "user_role=" ++ v ++ after) in *.
  induction before as [|c before IH];
    intros after_word Hfirst Hstart Hboundary.
  - rewrite (Hstart eq_refl). cbn [String.append].
    destruct Hhead as [s Hs]. rewrite Hs. cbn [CookieRegex.search]. rewrite <- Hs.
    unfold CookieRegex.match_here. rewrite Hp, Hdrop.
    rewrite (up_to_semicolon_value v after Hv Hafter).
    destruct v; [contradiction | reflexivity].
  - cbn [String.append CookieRegex.search].
    assert (Hhere : (if after_word then None
                     else CookieRegex.match_here (String c (before ++ tail)))
                    = None).
    { destruct after_word; [reflexivity|]. unfold CookieRegex.match_here.
      destruct (String.prefix "user_role=" (String c (before ++ tail))) eqn:Hpre;
        [|reflexivity].
      exfalso. destruct (prefix_split _ _ Hpre) as [r Hr].
      change (String c (before ++ tail)) with (String c before ++ tail) in Hr.
      unfold tail in Hr. rewrite <- app_assoc_string in Hr.
      destruct (app_prefix_split "user_role=" _ _ _ Hr) as [b Hb].
      { rewrite length_app. cbn. lia. }
      pose proof (Hfirst "" b Hb) as ->.
      apply (f_equal String.length) in Hb. rewrite !length_app in Hb.
      cbn in Hb. lia. }
    rewrite Hhere. apply IH.
    + intros a b E. apply (Hfirst (String c a) b). cbn [String.append]. now rewrite E.
    + intros ->. exact (Hboundary "" c eq_refl).
    + intros b d ->. exact (Hboundary (String c b) d eq_refl).
Qed.

Lemma spells_admin_trimmed (v : string) :
  spells_admin v -> JsString.trim v = v.
Proof.
  intros (c1 & c2 & c3 & c4 & c5 & -> & H1 & H2 & H3 & H4 & H5).
  destruct H1 as [-> | ->], H2 as [-> | ->], H3 as [-> | ->],
    H4 as [-> | ->], H5 as [-> | ->]; reflexivity.
Qed.

(** What either middleware does with the role it has read. *)
Lemma decide_on_role (role : option string) (redirected passed : NextResponse) :
  (if negb (role_present role) || negb (role_is_admin role)
   then redirected else passed)
    = (if role_is_admin role then passed else redirected).
Proof.
  destruct (role_is_admin role) eqn:E.
  - apply role_is_admin_spec in E. now rewrite (admin_role_present _ E).
  - now rewrite orb_true_r.
Qed.

Lemma role_is_admin_some (v : string) :
  (spells_admin v -> role_is_admin (Some v) = true) /\
  (~ spells_admin v -> role_is_admin (Some v) = false).
Proof.
  split; intros H.
  - apply role_is_admin_spec. now exists v.
  - destruct (role_is_admin (Some v)) eqn:E; [|reflexivity].
    apply role_is_admin_spec in E. destruct E as (r & Er & Hr).
    injection Er as ->. contradiction.
Qed.

Lemma admin_role_some (v : string) : admin_role (Some v) <-> spells_admin v.
Proof.
  split.
  - intros (r & E & H). now injection E as ->.
  - intros H. now exists v.
Qed.

(** ** The claims *)

(** C1.  On every path under the admin prefix:
    - when the cookie accessor holds a non-empty [user_role], both gates
      let the request through if the value is "admin" up to letter case
      and redirect to the entry route ["/"] otherwise;
    - when the accessor has nothing, the gate with the header fallback
      redirects a request without a [Cookie] header, or whose header
      nowhere says [user_role=]; and when the first [user_role=] of the
      header is the pair of a [user_role] cookie, it decides on that
      cookie's value, trimmed, in the same way.
    The gate does not decide on the [user_role] cookie in every case:
    [foreign_cookie_opens_admin] has the input on which it departs. *)
Theorem admin_requires_admin_role (request : NextRequest) :
  admin_path (pathname request) ->
  well_formed request ->
  (forall v,
     accessor_holds request "user_role" v -> v <> "" ->
     (spells_admin v ->
      GateFallback.session_gate request = Http.next /\
      GateLogout.session_gate request = Http.next) /\
     (~ spells_admin v ->
      GateFallback.session_gate request = Http.redirect request "/" /\
      GateLogout.session_gate request = Http.redirect request "/" /\
      kind (Http.redirect request "/") = RRedirect (origin request ++ "/"))) /\
  (accessor_empty request "user_role" ->
   (no_header request "cookie" ->
    GateFallback.session_gate request = Http.redirect request "/") /\
   (forall h,
      header_is request "cookie" h -> ~ occurs "user_role=" h ->
      GateFallback.session_gate request = Http.redirect request "/") /\
   (forall h v,
      header_is request "cookie" h ->
      header_first_holds h "user_role" v -> v <> "" ->
      (spells_admin (JsString.trim v) ->
       GateFallback.session_gate request = Http.next) /\
      (~ spells_admin (JsString.trim v) ->
       GateFallback.session_gate request = Http.redirect request "/"))).
Proof.
  intros Hpath [Hjar Hheaders].
  destruct (admin_path_selected _ Hpath) as (Hsel1 & Hsel2 & Hstart & Hroot).
  unfold GateFallback.session_gate, GateLogout.session_gate, gate,
    GateFallback.middleware, GateLogout.middleware.
  rewrite Hsel1, Hsel2, Hstart, Hroot, !decide_on_role. split.
  - intros v Hv Hne.
    pose proof (assoc_In _ _ _ Hjar Hv) as Hread.
    unfold GateFallback.read_role, Http.cookie_value. rewrite Hread.
    apply role_present_some in Hne. rewrite Hne.
    split; intros H.
    + rewrite (proj1 (role_is_admin_some v) H). split; reflexivity.
    + rewrite (proj2 (role_is_admin_some v) H). repeat split.
  - intros Hempty.
    pose proof (accessor_empty_absent request "user_role" Hempty) as Hnone.
    unfold GateFallback.read_role. rewrite Hnone.
    split; [|split].
    + intros Hh. unfold Http.header. now rewrite (assoc_absent _ _ Hh).
    + intros h Hh Hocc. unfold Http.header. rewrite (assoc_In _ _ _ Hheaders Hh).
      assert (Hinc : JsString.includes h "user_role=" = false).
      { destruct (JsString.includes h "user_role=") eqn:E; [|reflexivity].
        exfalso. apply Hocc. now apply includes_occurs. }
      unfold CookieRegex.group1. now rewrite (search_complete h false Hinc).
    + intros h v Hh (before & after & -> & Hbefore & Hfirst & Hv & Hafter) Hne.
      unfold Http.header. rewrite (assoc_In _ _ _ Hheaders Hh).
      unfold CookieRegex.group1.
      change ("user_role" ++ "=" ++ v ++ after) with ("user_role=" ++ v ++ after).
      rewrite (search_first v after Hne Hv Hafter before false).
      * split; intros H.
        -- now rewrite (proj1 (role_is_admin_some _) H).
        -- now rewrite (proj2 (role_is_admin_some _) H).
      * exact Hfirst.
      * reflexivity.
      * intros b c E. destruct Hbefore as [-> | [b0 ->]].
        -- destruct b; discriminate E.
        -- change "; " with (";" ++ String " " "") in E.
           rewrite <- app_assoc_string in E.
           now rewrite <- (last_char _ _ _ _ E).
Qed.

(** C2.  On the entry route ["/"] the clearing gate answers, whatever the
    request carries, with a pass-through response that sets [user_role]
    to the empty value with max-age 0. *)
Theorem entry_route_clears_session (request : NextRequest) :
  pathname request = "/" ->
  GateLogout.session_gate request
    = Http.cookies_set Http.next GateLogout.cleared_cookie /\
  kind (GateLogout.session_gate request) = RNext /\
  set_cookies (GateLogout.session_gate request)
    = [ {| c_name := "user_role"; c_value := "";
           c_httpOnly := None; c_sameSite := None;
           c_maxAge := Some 0%Z; c_path := Some "/"; c_secure := None |} ].
Proof.
  intros Hpath.
  unfold GateLogout.session_gate, gate, GateLogout.middleware.
  rewrite Hpath. repeat split.
Qed.

Lemma admin_requires_admin_role_witness :
  GateFallback.session_gate Sample.admin_page = Http.next /\
  GateLogout.session_gate Sample.admin_page = Http.next.
Proof.
  assert (Hmap : well_formed Sample.admin_page).
  { split; repeat constructor; cbn; intuition discriminate. }
  refine (proj1 (proj1 (admin_requires_admin_role Sample.admin_page
                          admin_root Hmap) "Admin" _ _) _).
  - right. now left.
  - discriminate.
  - exists "A"%char, "d"%char, "m"%char, "i"%char, "n"%char. tauto.
Defined.

(** C1 as stated fails on a request without a [user_role] cookie whose
    header names a cookie [x-user_role=admin]: the accessor has no
    [user_role], the header holds no [user_role] cookie, and the gate
    lets the request through to the admin page.  The gate that reads the
    accessor alone redirects the same request. *)
Lemma foreign_cookie_opens_admin :
  let request := Sample.foreign_cookie_page in
  admin_path (pathname request) /\
  well_formed request /\
  accessor_empty request "user_role" /\
  header_is request "cookie" "x-user_role=admin" /\
  (forall v, ~ header_holds "x-user_role=admin" "user_role" v) /\
  GateFallback.session_gate request = Http.next /\
  GateFallback.session_gate request <> Http.redirect request "/" /\
  GateLogout.session_gate request = Http.redirect request "/".
Proof.
  intros request. split; [exact admin_root|].
  split; [split; repeat constructor; cbn; intuition discriminate|].
  split.
  { intros v [E | []]. discriminate E. }
  split; [now left|].
  split; [|split; [reflexivity | split; [discriminate | reflexivity]]].
  intros v (before & after & E & Hbefore & _).
  destruct Hbefore as [-> | [b ->]].
  - discriminate E.
  - assert (H : JsString.includes "x-user_role=admin" ";" = true).
    { rewrite E. clear E. induction b as [|c b IH]; [reflexivity|].
      cbn [String.append]. now apply includes_tail. }
    discriminate H.
Qed.

Lemma entry_route_clears_session_witness :
  pathname Sample.entry_page = "/" /\
  set_cookies (GateLogout.session_gate Sample.entry_page)
    = [GateLogout.cleared_cookie].
Proof.
  split; [reflexivity|].
  exact (proj2 (proj2 (entry_route_clears_session Sample.entry_page eq_refl))).
Defined.

(** The other gate never touches the cookie: it is not even run on
    ["/"], and its middleware sets no cookie on any path. *)
Lemma fallback_gate_sets_no_cookie (request : NextRequest) :
  set_cookies (GateFallback.session_gate request) = [].
Proof.
  unfold GateFallback.session_gate, gate, GateFallback.middleware.
  destruct (matcher_matches _ _); [|reflexivity].
  destruct (JsString.startsWith _ _); [|reflexivity].
  destruct (_ || _); reflexivity.
Qed.

(** The clearing gate has no header fallback: it decides on the cookie
    accessor alone. *)
Lemma logout_gate_reads_accessor (request : NextRequest) :
  JsString.startsWith (pathname request) "/admin" = true ->
  (admin_role (Http.cookie_value request "user_role") ->
   GateLogout.middleware request = Http.next) /\
  (~ admin_role (Http.cookie_value request "user_role") ->
   GateLogout.middleware request = Http.redirect request "/").
Proof.
  intros Hpath. unfold GateLogout.middleware.
  assert (Hroot : (pathname request =? "/") = false).
  { apply String.eqb_neq. intros E. rewrite E in Hpath. discriminate. }
  rewrite Hroot, Hpath. split.
  - intros Hadm. rewrite (admin_role_present _ Hadm).
    apply role_is_admin_spec in Hadm. now rewrite Hadm.
  - intros Hno. destruct (role_is_admin _) eqn:E.
    + apply role_is_admin_spec in E. contradiction.
    + now rewrite orb_true_r.
Qed.

(** Every path the matcher selects for the admin area starts with
    ["/admin"]. *)
Lemma admin_matcher_prefix (path : string) :
  matcher_matches GateFallback.matcher path = true ->
  JsString.startsWith path "/admin" = true.
Proof.
  unfold matcher_matches, GateFallback.matcher, JsString.startsWith. simpl.
  rewrite orb_false_r. intros H.
  apply orb_true_iff in H. destruct H as [H | H].
  - apply String.eqb_eq in H. now subst.
  - apply orb_true_iff in H. destruct H as [H | H].
    + apply String.eqb_eq in H. now subst.
    + exact (prefix_app_l "/admin" "/" path H).
Qed.

(* ================================================================== *)
(** * Properties of the Session Issuer *)
(* ================================================================== *)

Section LoginProperties.
Variable rt : Runtime.

Lemma prop_coalesce (body : JsValue) (k : string) :
  Js.prop (Js.coalesce body (JObj [])) k = Js.prop body k.
Proof. destruct body; reflexivity. Qed.

Lemma prop_absent (body : JsValue) (k : string) :
  Js.has k body = false -> Js.prop body k = JUndefined.
Proof.
  destruct body; try reflexivity. simpl.
  destruct (Js.lookup k props); [discriminate | reflexivity].
Qed.

Lemma is_undefined_spec (v : JsValue) :
  Js.is_undefined v = true <-> v = JUndefined.
Proof. destruct v; simpl; split; intros H; try discriminate H; reflexivity. Qed.

(** The validation step, read off [POST]. *)
Lemma POST_rejects (request : NextRequest) (body : JsValue) :
  json request = inr body ->
  Js.truthy (Js.prop body "doctor_id") = false \/
  Js.prop body "password" = JUndefined ->
  Login.POST rt request
    = Respond (Login.failure (JStr "Doctor ID and password are required") 400).
Proof.
  intros Hjson H. unfold Login.POST. rewrite Hjson, !prop_coalesce.
  destruct H as [H | H]; rewrite H; [reflexivity|].
  now rewrite orb_true_r.
Qed.

Lemma POST_calls (request : NextRequest) (body : JsValue) (d : string) :
  json request = inr body ->
  Js.truthy (Js.prop body "doctor_id") = true ->
  Js.prop body "password" <> JUndefined ->
  Login.doctor_id_string rt (Js.prop body "doctor_id") = Some d ->
  Login.POST rt request
    = Await (Login.login_call rt d
               (Login.password_string (Js.prop body "password")))
            (fun result =>
               Respond (Login.after_fetch request d
                          (Login.password_string (Js.prop body "password"))
                          result)).
Proof.
  intros Hjson Hid Hpw Hd. unfold Login.POST.
  rewrite Hjson, !prop_coalesce, Hid, Hd.
  destruct (Js.is_undefined (Js.prop body "password")) eqn:E.
  - apply is_undefined_spec in E. contradiction.
  - reflexivity.
Qed.

(** An id that [String] cannot convert ends in the outer [catch]. *)
Lemma POST_throws (request : NextRequest) (body : JsValue) :
  json request = inr body ->
  Js.truthy (Js.prop body "doctor_id") = true ->
  Js.prop body "password" <> JUndefined ->
  Login.doctor_id_string rt (Js.prop body "doctor_id") = None ->
  Login.POST rt request
    = Respond (Login.failure (JStr "Authentication failed") 500).
Proof.
  intros Hjson Hid Hpw Hd. unfold Login.POST.
  rewrite Hjson, !prop_coalesce, Hid, Hd.
  destruct (Js.is_undefined (Js.prop body "password")) eqn:E.
  - apply is_undefined_spec in E. contradiction.
  - reflexivity.
Qed.

(** With the demo pair, every failure of the backend call ends in the
    synthesized session. *)
Lemma after_fetch_demo (request : NextRequest) (result : FetchResult) :
  backend_failed result ->
  Login.after_fetch request Login.DEMO_DOCTOR_ID Login.DEMO_PASSWORD result
    = Login.demo_session.
Proof.
  intros [-> | (st & ct & b & -> & Hok)]; [reflexivity|].
  unfold Login.after_fetch. rewrite Hok. simpl.
  destruct ct as [c|]; [|reflexivity].
  destruct (JsString.includes c "application/json"); [|reflexivity].
  destruct b; reflexivity.
Qed.

(** The demo pair, read off the request. *)
Lemma not_demo (d : string) (password : JsValue) :
  ~ (d = "123456" /\ password = JStr "password") ->
  Login.is_demo d (Login.password_string password) = false.
Proof.
  intros H. unfold Login.is_demo, Login.DEMO_DOCTOR_ID, Login.DEMO_PASSWORD.
  destruct (String.eqb_spec d "123456") as [-> |]; [|reflexivity].
  destruct password as [| | | |p| |]; try reflexivity.
  cbn [Login.password_string andb].
  destruct (String.eqb_spec p "password") as [-> |]; [|reflexivity].
  exfalso. now apply H.
Qed.

(** C3.  A login with the demo id and the demo password, against a
    backend whose call breaks or replies with a status that is not 2xx,
    answers 200 with [{success: true, role: "Doctor"}] and sets the
    [user_role] cookie to ["Doctor"]. *)
Theorem demo_login_survives_backend_failure
  (request : NextRequest) (body : JsValue) (backend : FetchCall -> FetchResult) :
  json request = inr body ->
  Js.prop body "doctor_id" = JStr Login.DEMO_DOCTOR_ID ->
  Js.prop body "password" = JStr Login.DEMO_PASSWORD ->
  backend_failed
    (backend (Login.login_call rt Login.DEMO_DOCTOR_ID Login.DEMO_PASSWORD)) ->
  let response := fst (run backend (Login.POST rt request)) in
  status response = 200%Z /\
  body_of response = JObj [("success", JBool true); ("role", JStr "Doctor")] /\
  set_cookies response
    = [ {| c_name := "user_role"; c_value := "Doctor";
           c_httpOnly := Some true; c_sameSite := Some "lax";
           c_maxAge := Some 86400%Z; c_path := Some "/";
           c_secure := None |} ].
Proof.
  intros Hjson Hid Hpw Hfail response. subst response.
  rewrite (POST_calls request body Login.DEMO_DOCTOR_ID Hjson).
  - rewrite Hpw. cbn [run Login.password_string].
    rewrite (after_fetch_demo request _ Hfail). repeat split.
  - now rewrite Hid.
  - rewrite Hpw. discriminate.
  - now rewrite Hid.
Qed.

(** C4, amended.  A login body without [doctor_id], or whose [password]
    is [undefined], is answered 400 with [success: false] and no backend
    call.  An empty-string password passes the check: with a truthy
    [doctor_id] that [String] converts, the request is forwarded to the
    backend with the password [""]; with a truthy [doctor_id] that
    [String] cannot convert, the answer is 500 "Authentication failed"
    and the backend is not called. *)
Theorem login_requires_both_fields (request : NextRequest) (body : JsValue) :
  json request = inr body ->
  (Js.has "doctor_id" body = false \/ Js.prop body "password" = JUndefined ->
   forall backend,
     let outcome := run backend (Login.POST rt request) in
     status (fst outcome) = 400%Z /\
     Js.prop (body_of (fst outcome)) "success" = JBool false /\
     snd outcome = []) /\
  (Js.truthy (Js.prop body "doctor_id") = true ->
   Js.prop body "password" = JStr "" ->
   (forall id,
      Conv.ToString rt (Js.prop body "doctor_id") = Some id ->
      forall backend,
        snd (run backend (Login.POST rt request))
          = [ {| f_url := Conv.api_base rt ++ "/login";
                 f_method := "POST";
                 f_headers := [("Content-Type", "application/json")];
                 f_body := Some (JObj [("doctor_id", JStr (JsString.trim id));
                                       ("password", JStr "")]) |} ]) /\
   (Conv.ToString rt (Js.prop body "doctor_id") = None ->
    forall backend,
      run backend (Login.POST rt request)
        = (Http.json_status
             (JObj [("success", JBool false);
                    ("error", JStr "Authentication failed")]) 500, []))).
Proof.
  intros Hjson. split.
  - intros H backend outcome. subst outcome.
    rewrite (POST_rejects request body Hjson); [repeat split|].
    destruct H as [H | H]; [left | now right].
    now rewrite (prop_absent _ _ H).
  - intros Hid Hpw. split.
    + intros id Hconv backend.
      rewrite (POST_calls request body (JsString.trim id) Hjson Hid).
      * rewrite Hpw. reflexivity.
      * rewrite Hpw. discriminate.
      * unfold Login.doctor_id_string. now rewrite Hconv.
    + intros Hconv backend.
      rewrite (POST_throws request body Hjson Hid).
      * reflexivity.
      * rewrite Hpw. discriminate.
      * unfold Login.doctor_id_string. now rewrite Hconv.
Qed.

(** C10.  A [doctor_id] that is present but falsy (the empty string, 0,
    [false] or [null]) is answered like a missing one: 400, and no
    backend call. *)
Theorem falsy_doctor_id_is_rejected
  (request : NextRequest) (body : JsValue) (backend : FetchCall -> FetchResult) :
  json request = inr body ->
  Js.has "doctor_id" body = true ->
  In (Js.prop body "doctor_id") [JStr ""; JNum 0; JBool false; JNull] ->
  run backend (Login.POST rt request)
    = (Login.failure (JStr "Doctor ID and password are required") 400, []) /\
  (forall request' body',
     json request' = inr body' ->
     Js.has "doctor_id" body' = false ->
     run backend (Login.POST rt request') = run backend (Login.POST rt request)).
Proof.
  intros Hjson _ Hin.
  assert (Hreject : Login.POST rt request
            = Respond (Login.failure (JStr "Doctor ID and password are required") 400)).
  { apply (POST_rejects request body Hjson). left.
    simpl in Hin. destruct Hin as [E | [E | [E | [E | []]]]]; now rewrite <- E. }
  rewrite Hreject. split; [reflexivity|].
  intros request' body' Hjson' Habsent.
  rewrite (POST_rejects request' body' Hjson'); [reflexivity|].
  left. now rewrite (prop_absent _ _ Habsent).
Qed.

(** C5, amended.  A login that passes the check with credentials other
    than the demo pair (the id converted to a string and trimmed, the
    password as a string), against a backend whose call breaks, is
    answered 503 with [success: false] and the message "Login service
    unavailable. Is the backend running on port 8000?", which begins
    with "Login service unavailable."; no cookie is set. *)
Theorem login_unavailable_on_transport_failure
  (request : NextRequest) (body : JsValue) (id : string)
  (backend : FetchCall -> FetchResult) :
  json request = inr body ->
  Js.truthy (Js.prop body "doctor_id") = true ->
  Js.prop body "password" <> JUndefined ->
  Conv.ToString rt (Js.prop body "doctor_id") = Some id ->
  ~ (JsString.trim id = "123456" /\
     Js.prop body "password" = JStr "password") ->
  backend (Login.login_call rt (JsString.trim id)
             (Login.password_string (Js.prop body "password"))) = FetchRejects ->
  let response := fst (run backend (Login.POST rt request)) in
  status response = 503%Z /\
  body_of response
    = JObj [("success", JBool false);
            ("error",
             JStr "Login service unavailable. Is the backend running on port 8000?")] /\
  JsString.startsWith
    "Login service unavailable. Is the backend running on port 8000?"
    "Login service unavailable." = true /\
  set_cookies response = [].
Proof.
  intros Hjson Hid Hpw Hconv Hdemo Hfetch response. subst response.
  rewrite (POST_calls request body (JsString.trim id) Hjson Hid Hpw)
    by (unfold Login.doctor_id_string; now rewrite Hconv).
  cbn [run]. rewrite Hfetch. cbn [Login.after_fetch]. unfold Login.on_fetch_error.
  rewrite (not_demo _ _ Hdemo). repeat split.
Qed.

End LoginProperties.

Lemma demo_login_survives_backend_failure_witness :
  body_of (fst (run Sample.unreachable (Login.POST Sample.runtime Sample.demo_login)))
    = JObj [("success", JBool true); ("role", JStr "Doctor")].
Proof.
  refine (proj1 (proj2 (demo_login_survives_backend_failure Sample.runtime
                          Sample.demo_login _ Sample.unreachable
                          eq_refl eq_refl eq_refl _))).
  left. reflexivity.
Defined.

Lemma login_requires_both_fields_witness :
  status (fst (run Sample.unreachable (Login.POST Sample.runtime Sample.no_id_login)))
    = 400%Z /\
  snd (run Sample.unreachable
         (Login.POST Sample.runtime Sample.empty_password_login))
    = [Login.login_call Sample.runtime "654321" ""].
Proof.
  split.
  - refine (proj1 (proj1 (login_requires_both_fields Sample.runtime
                            Sample.no_id_login _ eq_refl) _ Sample.unreachable)).
    left. reflexivity.
  - exact (proj1 (proj2 (login_requires_both_fields Sample.runtime
                           Sample.empty_password_login _ eq_refl)
                    eq_refl eq_refl) "654321" eq_refl Sample.unreachable).
Defined.

(** C4 as stated fails on an id that cannot be converted to a string:
    the empty password of [{doctor_id: {toString: 1}, password: ""}] is
    not forwarded, the answer is 500 and the backend is not called. *)
Lemma empty_password_is_not_always_forwarded :
  let body := Sample.credentials (JObj [("toString", JNum 1)]) (JStr "") in
  let outcome :=
    run Sample.unreachable
      (Login.POST Sample.runtime (Sample.request "/api/login" (inr body))) in
  Js.truthy (Js.prop body "doctor_id") = true /\
  Js.prop body "password" = JStr "" /\
  status (fst outcome) = 500%Z /\
  snd outcome = [].
Proof. repeat split. Qed.

Lemma falsy_doctor_id_is_rejected_witness :
  run Sample.unreachable (Login.POST Sample.runtime Sample.null_id_login)
    = (Login.failure (JStr "Doctor ID and password are required") 400, []).
Proof.
  refine (proj1 (falsy_doctor_id_is_rejected Sample.runtime Sample.null_id_login
                   _ Sample.unreachable eq_refl eq_refl _)).
  simpl. tauto.
Defined.

Lemma login_unavailable_on_transport_failure_witness :
  status (fst (run Sample.unreachable (Login.POST Sample.runtime Sample.other_login)))
    = 503%Z.
Proof.
  refine (proj1 (login_unavailable_on_transport_failure Sample.runtime
                   Sample.other_login _ "654321" Sample.unreachable
                   eq_refl eq_refl _ eq_refl _ eq_refl)).
  - discriminate.
  - intros [H _]. discriminate H.
Defined.

(** A backend that rejects other credentials with 401 and no detail. *)
Example rejected_login :
  fst (run (fun _ => FetchResponse 401 (Some "application/json") (Some (JObj [])))
         (Login.POST Sample.runtime Sample.other_login))
    = Login.failure (JStr "Incorrect ID or password.") 401.
Proof. reflexivity. Qed.

(** C5 as stated fails: the message of the 503 answer is not "Login
    service unavailable." but a longer sentence. *)
Lemma login_unavailable_message_differs :
  let response :=
    fst (run Sample.unreachable (Login.POST Sample.runtime Sample.other_login)) in
  ~ (status response = 503%Z /\
     Js.prop (body_of response) "error" = JStr "Login service unavailable.").
Proof.
  intros response [_ H]. vm_compute in H. discriminate H.
Qed.

(* ================================================================== *)
(** * Properties of the Prediction Proxy: normalization *)
(* ================================================================== *)

Lemma has_key_spec (k : string) (data : JsValue) :
  Js.has k data = true <-> has_key k data.
Proof.
  unfold has_key. destruct data; simpl;
    try (split; [discriminate | intros (? & ? & E & _); discriminate E]).
  destruct (Js.lookup k props) as [v|] eqn:E; split; intros H;
    try discriminate H; try reflexivity.
  - now exists props, v.
  - destruct H as (props' & v & Eq & Hl). injection Eq as <-.
    rewrite E in Hl. discriminate Hl.
Qed.

Lemma has_key_false (k : string) (data : JsValue) :
  ~ has_key k data -> Js.has k data = false.
Proof.
  intros H. destruct (Js.has k data) eqn:E; [|reflexivity].
  apply has_key_spec in E. contradiction.
Qed.


Lemma normalize_without_key (data : JsValue) :
  ~ has_key "resistant" data ->
  Predict.normalizePrediction data = Predict.prediction 0%float JUndefined.
Proof.
  intros H. unfold Predict.normalizePrediction.
  rewrite (has_key_false _ _ H), andb_false_r. reflexivity.
Qed.




Section PredictProperties.
Variable rt : Runtime.

(** A 2xx JSON reply is answered with its normalization. *)
Lemma POST_normalizes (random : float) (request : NextRequest) (body data : JsValue)
  (backend : FetchCall -> FetchResult) :
  json request = inr body ->
  replied_json (backend (Predict.predict_call rt body)) data ->
  run backend (Predict.POST rt random request)
    = (Http.json_ok (Predict.normalizePrediction data),
       [Predict.predict_call rt body]).
Proof.
  intros Hjson (st & ct & Hres & Hok & Hct).
  unfold Predict.POST. rewrite Hjson. cbn [run]. rewrite Hres.
  unfold Predict.after_fetch. now rewrite Hok, Hct.
Qed.

(** What a client reads of a normalized prediction. *)
Lemma wire_prediction (resistant : float) (probability : JsValue) :
  resistant = 1%float \/ resistant = 0%float ->
  let read := Js.wire (Predict.prediction resistant probability) in
  Js.prop read "resistant" = JNum resistant /\
  (forall p, probability = JNum p -> Js.is_finite p = true ->
             Js.prop read "probability" = JNum p) /\
  (forall p, probability = JNum p -> Js.is_finite p = false ->
             Js.prop read "probability" = JNull) /\
  (probability = JUndefined -> Js.has "probability" read = false).
Proof.
  intros Hr read. subst read. unfold Predict.prediction.
  split; [|split; [|split]].
  - destruct Hr as [-> | ->]; now destruct probability.
  - intros p -> Hp. cbn. rewrite Hp. now destruct Hr as [-> | ->].
  - intros p -> Hp. cbn. rewrite Hp. now destruct Hr as [-> | ->].
  - intros ->. now destruct Hr as [-> | ->].
Qed.


(** C9.  A 2xx JSON payload that is not an object with a [resistant]
    key is answered 200 with [{resistant: 0}], no probability on the
    wire; the answer depends neither on the request nor on the random
    draw, so it is not the mock's. *)
Theorem malformed_success_is_non_resistant
  (random : float) (request : NextRequest) (body data : JsValue)
  (backend : FetchCall -> FetchResult) :
  json request = inr body ->
  replied_json (backend (Predict.predict_call rt body)) data ->
  ~ has_key "resistant" data ->
  let response := fst (run backend (Predict.POST rt random request)) in
  status response = 200%Z /\
  body_of response = JObj [("resistant", JNum 0); ("probability", JUndefined)] /\
  Js.wire (body_of response) = JObj [("resistant", JNum 0)] /\
  Js.has "probability" (Js.wire (body_of response)) = false /\
  Js.has "error" (body_of response) = false.
Proof.
  intros Hjson Hreply Hkey response. subst response.
  rewrite (POST_normalizes random request body data backend Hjson Hreply).
  cbn [fst body_of Http.json_ok Http.json_status kind status].
  rewrite (normalize_without_key data Hkey). repeat split.
Qed.

End PredictProperties.

Lemma replies_json (data : JsValue) (call : FetchCall) :
  replied_json (Sample.replies data call) data.
Proof. exists 200%Z, "application/json". repeat split. Qed.


Lemma malformed_success_is_non_resistant_witness :
  Js.wire (body_of (fst (run (Sample.replies JNull)
                           (Predict.POST Sample.runtime 0
                              (Sample.request "/api/predict" (inr Sample.patient))))))
    = JObj [("resistant", JNum 0)].
Proof.
  refine (proj1 (proj2 (proj2
            (malformed_success_is_non_resistant Sample.runtime 0
               (Sample.request "/api/predict" (inr Sample.patient))
               Sample.patient JNull (Sample.replies JNull)
               eq_refl (replies_json _ _) _)))).
  intros (props & v & E & _). discriminate E.
Defined.


(** A probability the backend writes as [1e999] is parsed as infinity,
    which is a number, and reaches the client as [null]. *)
Example infinite_probability_is_read_as_null :
  Js.wire (body_of (fst (run (Sample.replies
                                (JObj [("resistant", JNum 1);
                                       ("probability", JNum infinity)]))
                           (Predict.POST Sample.runtime 0
                              (Sample.request "/api/predict" (inr Sample.patient))))))
    = JObj [("resistant", JNum 1); ("probability", JNull)].
Proof. reflexivity. Qed.

(* ================================================================== *)
(** * Properties of the Resource Proxy *)
(* ================================================================== *)

Lemma lookup_define_same (k : string) (v : JsValue) (props : list (string * JsValue)) :
  Js.lookup k (Js.define k v props) = Some v.
Proof.
  induction props as [|[k' v'] rest IH]; simpl.
  - now rewrite String.eqb_refl.
  - destruct (k' =? k) eqn:E; simpl.
    + now rewrite String.eqb_refl.
    + now rewrite E.
Qed.

Lemma lookup_define_other (k k' : string) (v : JsValue)
  (props : list (string * JsValue)) :
  k' <> k ->
  Js.lookup k' (Js.define k v props) = Js.lookup k' props.
Proof.
  intros Hne. induction props as [|[k0 v0] rest IH]; simpl.
  - apply String.eqb_neq in Hne. rewrite String.eqb_sym. now rewrite Hne.
  - destruct (k0 =? k) eqn:E; simpl.
    + apply String.eqb_eq in E. subst k0.
      assert (H : (k =? k') = false) by (apply String.eqb_neq; congruence).
      now rewrite H.
    + destruct (k0 =? k'); [reflexivity | exact IH].
Qed.

(** What the callback of [data.map] makes of a record. *)
Lemma normalize_doctor_record (props : list (string * JsValue)) :
  exists d',
    Admin.normalize_doctor (JObj props) = Some d' /\
    doctor_normalized (JObj props) d'.
Proof.
  unfold Admin.normalize_doctor. cbn [Js.member Js.is_nullish Js.spread].
  eexists. split; [reflexivity|].
  assert (Hsame : forall x : JsValue, (if Js.is_string x then x else x) = x)
    by (intros x; now destruct (Js.is_string x)).
  rewrite Hsame. unfold doctor_normalized. cbn [Js.prop]. repeat split.
  - eexists. reflexivity.
  - rewrite lookup_define_other by discriminate.
    now rewrite lookup_define_same.
  - intros _. now rewrite lookup_define_same.
  - intros k Hid Hdid. now rewrite !lookup_define_other by assumption.
Qed.

Lemma map_normalize_records (items : list JsValue) :
  Forall is_record items ->
  exists items',
    Admin.map_normalize items = Some items' /\
    Forall2 doctor_normalized items items'.
Proof.
  induction 1 as [|d rest [props ->] _ (rest' & Hrest & Hall)];
    cbn [Admin.map_normalize].
  - exists []. split; [reflexivity | constructor].
  - destruct (normalize_doctor_record props) as (d' & Hd & Hn).
    rewrite Hd, Hrest. exists (d' :: rest'). split; [reflexivity|].
    now constructor.
Qed.

Lemma populated_coalesce (a b : JsValue) :
  Js.is_nullish (Js.coalesce a b) = Js.is_nullish a && Js.is_nullish b.
Proof. destruct a; reflexivity. Qed.

(** A client reads a property whose value is not [undefined] as that
    value is read. *)
Lemma prop_wire_defined (k : string) (v : JsValue) (props : list (string * JsValue)) :
  Js.prop (JObj props) k = v -> Js.is_undefined v = false ->
  Js.prop (Js.wire (JObj props)) k = Js.wire v.
Proof.
  cbn [Js.prop Js.wire]. induction props as [|[k' x] rest IH]; cbn [Js.lookup].
  - intros <-. discriminate.
  - destruct (k' =? k) eqn:E.
    + intros -> Hv. rewrite Hv. cbn [Js.lookup]. now rewrite E.
    + intros Hx Hv. destruct (Js.is_undefined x); [now apply IH|].
      cbn [Js.lookup]. rewrite E. now apply IH.
Qed.

Lemma wire_read_defined (v : JsValue) :
  Js.is_nullish (Js.wire v) = false ->
  Js.is_nullish v = false /\ Js.is_undefined v = false.
Proof. destruct v; try discriminate; now split. Qed.

Section AdminProperties.
Variable rt : Runtime.

(** C8, as far as it holds.  A successful [GET ?type=doctor] whose
    backend body is an array of records returns, record by record,
    [doctor_id] as the backend sent it or, when it sent none, the
    record's [id], and every other key as the backend sent it.  A record
    that came with an [id] leaves with both keys populated, and one that
    came with a [doctor_id] keeps it; [{id: 5, name: "A"}] leaves with
    [id: 5] and [doctor_id: 5].  What the client reads follows: an [id]
    that is read as a value (neither missing, nor [null], nor a number
    that is not finite) is read from the returned record too, and also
    under [doctor_id] when the backend sent no [doctor_id].  The other
    half of the claim fails: [doctor_id_alone_leaves_id_missing]. *)
Theorem doctors_are_normalized
  (request : NextRequest) (st : Z) (contentType : option string)
  (items : list JsValue) (backend : FetchCall -> FetchResult) :
  Http.assoc "type" (searchParams request) = Some "doctor" ->
  backend (Admin.list_call rt request "doctor")
    = FetchResponse st contentType (Some (JArr items)) ->
  Http.ok st = true ->
  Forall is_record items ->
  let response := fst (run backend (Admin.GET rt request)) in
  status response = 200%Z /\
  (exists returned,
     body_of response = JArr returned /\
     Forall2 doctor_normalized items returned /\
     Forall2 (fun d d' =>
                (populated "id" d = true ->
                 populated "id" d' = true /\ populated "doctor_id" d' = true) /\
                (populated "doctor_id" d = true -> populated "doctor_id" d' = true))
             items returned /\
     Forall2 (fun d d' =>
                Js.is_nullish (Js.wire (Js.prop d "id")) = false ->
                Js.prop (Js.wire d') "id" = Js.wire (Js.prop d "id") /\
                (Js.is_nullish (Js.prop d "doctor_id") = true ->
                 Js.prop (Js.wire d') "doctor_id" = Js.wire (Js.prop d "id")))
             items returned) /\
  Admin.normalize_doctor Sample.doctor_with_id
    = Some (JObj [("id", JNum 5); ("name", JStr "A"); ("doctor_id", JNum 5)]).
Proof.
  intros Htype Hfetch Hok Hrecords response. subst response.
  unfold Admin.GET. rewrite Htype. cbn [String.eqb run].
  change ("doctor" =? "")%string with false. cbn [run].
  rewrite Hfetch. unfold Admin.after_fetch. rewrite Hok.
  change ("doctor" =? "doctor")%string with true. cbn [negb].
  destruct (map_normalize_records items Hrecords) as (returned & Hmap & Hall).
  rewrite Hmap. split; [reflexivity|]. split; [|reflexivity].
  exists returned. split; [reflexivity|]. split; [exact Hall|].
  clear Hmap Hrecords Hfetch. split.
  - induction Hall as [|d d' rest rest' Hd _ IH]; constructor.
    + destruct Hd as (_ & Hdid & Hid & _). unfold populated in *.
      rewrite Hdid, populated_coalesce. split.
      * intros H. rewrite (Hid H). apply negb_true_iff in H.
        rewrite H, andb_false_r. auto.
      * intros H. apply negb_true_iff in H. now rewrite H.
    + exact IH.
  - induction Hall as [|d d' rest rest' Hd _ IH]; constructor.
    + destruct Hd as ([props' ->] & Hdid & Hid & _). intros Hread.
      destruct (wire_read_defined _ Hread) as [Hnull Hdef].
      assert (Hpop : populated "id" d = true)
        by (unfold populated; now rewrite Hnull).
      split.
      * apply prop_wire_defined; [exact (Hid Hpop) | exact Hdef].
      * intros Hnone. apply prop_wire_defined; [|exact Hdef].
        rewrite Hdid. unfold Js.coalesce. now rewrite Hnone.
    + exact IH.
Qed.

End AdminProperties.

Lemma doctors_are_normalized_witness :
  status (fst (run (Sample.replies (JArr [Sample.doctor_with_id]))
                 (Admin.GET Sample.runtime Sample.doctors_list))) = 200%Z /\
  exists returned,
    body_of (fst (run (Sample.replies (JArr [Sample.doctor_with_id]))
                    (Admin.GET Sample.runtime Sample.doctors_list)))
      = JArr returned /\
    Forall2 doctor_normalized [Sample.doctor_with_id] returned.
Proof.
  destruct (doctors_are_normalized Sample.runtime Sample.doctors_list
              200 (Some "application/json") [Sample.doctor_with_id]
              (Sample.replies (JArr [Sample.doctor_with_id]))
              eq_refl eq_refl eq_refl
              (Forall_cons _ (ex_intro _ _ eq_refl) (Forall_nil _)))
    as (Hstatus & (returned & Hbody & Hall & _) & _).
  split; [exact Hstatus|]. exists returned. split; [exact Hbody | exact Hall].
Defined.

(** C8 as stated fails on a record the backend sent with [doctor_id]
    only: it is returned without an [id], where the sibling line of the
    same callback does fill [doctor_id] from [id]. *)
Lemma doctor_id_alone_leaves_id_missing :
  let response :=
    fst (run (Sample.replies (JArr [Sample.doctor_with_doctor_id]))
           (Admin.GET Sample.runtime Sample.doctors_list)) in
  status response = 200%Z /\
  exists d',
    body_of response = JArr [d'] /\
    populated "doctor_id" d' = true /\
    populated "id" d' = false /\
    Js.wire d' = JObj [("doctor_id", JStr "123456"); ("name", JStr "B")].
Proof.
  intros response. split; [reflexivity|]. eexists. repeat split.
Qed.

(* ================================================================== *)
(** * Binary64 arithmetic of the mock predictor *)
(* ================================================================== *)

(** [0.7 + Math.random() * 0.25] is one multiplication and one addition
    of binary64 numbers, each rounded to nearest.  The primitive
    operations are specified by [SpecFloat]'s [SFmul] and [SFadd]; both
    end in [binary_round_aux], which shifts the exact mantissa right,
    rounds it, and renormalizes.  The lemmas below follow that
    computation for a draw in [0, 1). *)

Section Rounding.
Import B64.
Local Open Scope Z_scope.

(** The exponent of a binary64 whose value has [x] digits before the
    binary point. *)
Lemma fexp_eq x : SpecFloat.fexp prec emax x = Z.max (x - 53) (-1074).
Proof. reflexivity. Qed.

Lemma pow2_pos k : 0 <= k -> 0 < 2 ^ k.
Proof. intros. apply Z.pow_pos_nonneg; lia. Qed.

(** [digits2_pos] counts binary digits. *)
Lemma digits2_bounds p :
  2 ^ (Zpos (digits2_pos p) - 1) <= Zpos p < 2 ^ Zpos (digits2_pos p).
Proof.
  induction p as [p IH | p IH |]; cbn [digits2_pos].
  - rewrite Pos2Z.inj_succ. change (Zpos p~1) with (2 * Zpos p + 1).
    replace (Z.succ (Zpos (digits2_pos p)) - 1)
      with (Z.succ (Zpos (digits2_pos p) - 1)) by lia.
    rewrite !Z.pow_succ_r by lia.
    remember (2 ^ (Z.pos (digits2_pos p) - 1)) as a eqn:Ea.
    remember (2 ^ Z.pos (digits2_pos p)) as b eqn:Eb. clear Ea Eb. lia.
  - rewrite Pos2Z.inj_succ. change (Zpos p~0) with (2 * Zpos p).
    replace (Z.succ (Zpos (digits2_pos p)) - 1)
      with (Z.succ (Zpos (digits2_pos p) - 1)) by lia.
    rewrite !Z.pow_succ_r by lia.
    remember (2 ^ (Z.pos (digits2_pos p) - 1)) as a eqn:Ea.
    remember (2 ^ Z.pos (digits2_pos p)) as b eqn:Eb. clear Ea Eb. lia.
  - cbn. lia.
Qed.

Lemma digits2_le p k : 0 <= k -> Zpos p < 2 ^ k -> Zpos (digits2_pos p) <= k.
Proof.
  intros Hk Hp. pose proof (digits2_bounds p) as [Hlo _].
  assert (H : 2 ^ (Zpos (digits2_pos p) - 1) < 2 ^ k) by lia.
  apply Z.pow_lt_mono_r_iff in H; lia.
Qed.

Lemma digits2_gt p k : 2 ^ k <= Zpos p -> k < Zpos (digits2_pos p).
Proof.
  intros Hp. pose proof (digits2_bounds p) as [_ Hhi].
  assert (H : 2 ^ k < 2 ^ Zpos (digits2_pos p)) by lia.
  apply Z.pow_lt_mono_r_iff in H; lia.
Qed.

Lemma digits2_lt_pow p k : Zpos (digits2_pos p) <= k -> Zpos p < 2 ^ k.
Proof.
  intros H. pose proof (digits2_bounds p) as [_ Hhi].
  assert (2 ^ Zpos (digits2_pos p) <= 2 ^ k) by (apply Z.pow_le_mono_r; lia).
  lia.
Qed.

Lemma digits2_eq p k : 2 ^ (k - 1) <= Zpos p < 2 ^ k -> 0 <= k -> Zpos (digits2_pos p) = k.
Proof.
  intros [Hlo Hhi] Hk.
  pose proof (digits2_le p k Hk Hhi). pose proof (digits2_gt p (k - 1) Hlo). lia.
Qed.

(** Shifting a mantissa right divides it by a power of two. *)
Lemma shr_1_m r : 0 <= shr_m r -> shr_m (shr_1 r) = shr_m r / 2.
Proof.
  destruct r as [m rb sb]. cbn [shr_m]. intros Hm.
  rewrite <- Z.div2_div.
  destruct m as [|[p|p|]|p]; try reflexivity. lia.
Qed.

Lemma iter_shr_m n : forall r,
  0 <= shr_m r -> shr_m (iter_pos shr_1 n r) = shr_m r / 2 ^ Zpos n.
Proof.
  induction n as [n IH | n IH |]; intros r Hr; cbn [iter_pos].
  - assert (H1 : 0 <= shr_m (shr_1 r)).
    { rewrite shr_1_m by exact Hr. apply Z.div_pos; lia. }
    assert (H2 : 0 <= shr_m (iter_pos shr_1 n (shr_1 r))).
    { rewrite IH by exact H1. apply Z.div_pos; [lia | apply pow2_pos; lia]. }
    rewrite IH by exact H2. rewrite IH by exact H1. rewrite shr_1_m by exact Hr.
    pose proof (pow2_pos (Zpos n) ltac:(lia)).
    rewrite !Z.div_div by lia.
    change (Zpos n~1) with (2 * Zpos n + 1). replace (2 * Zpos n + 1) with (1 + Zpos n + Zpos n) by lia.
    rewrite !Z.pow_add_r by lia. now rewrite Z.mul_assoc.
  - assert (H2 : 0 <= shr_m (iter_pos shr_1 n r)).
    { rewrite IH by exact Hr. apply Z.div_pos; [lia | apply pow2_pos; lia]. }
    rewrite IH by exact H2. rewrite IH by exact Hr.
    pose proof (pow2_pos (Zpos n) ltac:(lia)).
    rewrite !Z.div_div by lia.
    change (Zpos n~0) with (2 * Zpos n). replace (2 * Zpos n) with (Zpos n + Zpos n) by lia.
    now rewrite !Z.pow_add_r by lia.
  - now apply shr_1_m.
Qed.

(** Rounding to nearest keeps the truncated mantissa or adds one. *)
Lemma round_bounds q l : q <= round_nearest_even q l <= q + 1.
Proof.
  destruct l as [|[]]; cbn [round_nearest_even]; try lia.
  destruct (Z.even q); lia.
Qed.

(** The left shift of [shl_align]. *)
Lemma iter_xO m d : Zpos (Pos.iter xO m d) = Zpos m * 2 ^ Zpos d.
Proof.
  induction d as [|d IH] using Pos.peano_ind.
  - cbn. lia.
  - rewrite Pos.iter_succ. change (Zpos (Pos.iter xO m d)~0) with (2 * Zpos (Pos.iter xO m d)).
    rewrite IH, Pos2Z.inj_succ, Z.pow_succ_r by lia. lia.
Qed.

(** First stage of [binary_round_aux]. *)
Lemma bra_noshift mx ex :
  SpecFloat.fexp prec emax (Zpos (digits2_pos mx) + ex) - ex <= 0 ->
  binary_round_aux prec emax false (Zpos mx) ex loc_Exact = renorm (Zpos mx) ex.
Proof.
  intros Hn. unfold binary_round_aux.
  unfold shr_fexp at 1. cbn [Zdigits2 shr_record_of_loc].
  unfold shr. 
  destruct (SpecFloat.fexp prec emax (Zpos (digits2_pos mx) + ex) - ex) eqn:E; try lia;
  reflexivity.
Qed.

Lemma bra_shift mx ex n :
  SpecFloat.fexp prec emax (Zpos (digits2_pos mx) + ex) - ex = Zpos n ->
  exists m1,
    Zpos mx / 2 ^ Zpos n <= m1 <= Zpos mx / 2 ^ Zpos n + 1 /\
    binary_round_aux prec emax false (Zpos mx) ex loc_Exact = renorm m1 (ex + Zpos n).
Proof.
  intros Hn. unfold binary_round_aux.
  unfold shr_fexp at 1. cbn [Zdigits2 shr_record_of_loc].
  rewrite Hn. cbn [shr].
  set (mrs := iter_pos shr_1 n _).
  exists (round_nearest_even (shr_m mrs) (loc_of_shr_record mrs)). split.
  - pose proof (round_bounds (shr_m mrs) (loc_of_shr_record mrs)).
    assert (E : shr_m mrs = Zpos mx / 2 ^ Zpos n).
    { unfold mrs. rewrite iter_shr_m; cbn [shr_m]; [reflexivity | lia]. }
    rewrite <- E. exact H.
  - reflexivity.
Qed.

Lemma Zdigits2_nonneg m : 0 <= Zdigits2 m.
Proof. destruct m; cbn; lia. Qed.

(** Second stage of [binary_round_aux]. *)
Lemma renorm_noshift m e :
  SpecFloat.fexp prec emax (Zdigits2 m + e) - e <= 0 ->
  renorm m e = finish m e.
Proof.
  intros Hn. unfold renorm, shr_fexp. cbn [shr_record_of_loc]. unfold shr.
  destruct (SpecFloat.fexp prec emax (Zdigits2 m + e) - e) eqn:E; try lia; reflexivity.
Qed.

Lemma renorm_shift m e n :
  0 <= m ->
  SpecFloat.fexp prec emax (Zdigits2 m + e) - e = Zpos n ->
  renorm m e = finish (m / 2 ^ Zpos n) (e + Zpos n).
Proof.
  intros Hm Hn. unfold renorm, shr_fexp. cbn [shr_record_of_loc].
  rewrite Hn. cbn [shr]. rewrite iter_shr_m; cbn [shr_m]; [reflexivity | exact Hm].
Qed.

Lemma finish_cases m e :
  0 <= m -> e <= -55 ->
  finish m e = S754_zero false \/ exists p, finish m e = S754_finite false p e.
Proof.
  intros Hm He. destruct m as [|p|p]; [now left | right | lia].
  exists p. unfold finish.
  assert (H : (e <=? emax - prec) = true) by (apply Z.leb_le; cbn; lia).
  now rewrite H.
Qed.

(** A rounded value of at most 2^-2 renormalizes to a float of at most
    0.25. *)
Lemma renorm_below_quarter m1 e1 :
  0 <= m1 <= 2 ^ (-2 - e1) -> -1074 <= e1 <= -55 ->
  at_most_quarter (renorm m1 e1).
Proof.
  intros [Hlo Hhi] He.
  assert (Hcases : m1 = 0 \/ 0 < m1 < 2 ^ (-2 - e1) \/ m1 = 2 ^ (-2 - e1)) by lia.
  destruct Hcases as [-> | [Hlt | ->]].
  - rewrite renorm_noshift; [left; now exists false|].
    cbn [Zdigits2]. rewrite fexp_eq. lia.
  - destruct m1 as [|p1|p1]; try lia.
    assert (Hdg : Zpos (digits2_pos p1) <= -2 - e1) by (apply digits2_le; lia).
    cbn [Zdigits2] in *.
    destruct (SpecFloat.fexp prec emax (Zpos (digits2_pos p1) + e1) - e1)
      as [|k|k] eqn:En.
    + rewrite renorm_noshift by (cbn [Zdigits2]; lia).
      right; left. exists p1, e1. split; [|lia]. unfold finish.
      assert (H : (e1 <=? emax - prec) = true) by (apply Z.leb_le; cbn; lia).
      now rewrite H.
    + rewrite (renorm_shift _ _ k) by (cbn [Zdigits2]; lia).
      rewrite fexp_eq in En.
      assert (Hq : 0 <= Zpos p1 / 2 ^ Zpos k)
        by (apply Z.div_pos; [lia | apply pow2_pos; lia]).
      destruct (finish_cases (Zpos p1 / 2 ^ Zpos k) (e1 + Zpos k) Hq ltac:(lia))
        as [E | [p E]]; rewrite E.
      * left. now exists false.
      * right; left. exists p, (e1 + Zpos k). split; [reflexivity | lia].
    + rewrite renorm_noshift by (cbn [Zdigits2]; lia).
      right; left. exists p1, e1. split; [|lia]. unfold finish.
      assert (H : (e1 <=? emax - prec) = true) by (apply Z.leb_le; cbn; lia).
      now rewrite H.
  - right; right.
    pose proof (pow2_pos (-2 - e1) ltac:(lia)) as Hpos.
    destruct (2 ^ (-2 - e1)) as [|p1|p1] eqn:Ep; try lia.
    assert (Hdg : Zpos (digits2_pos p1) = -2 - e1 + 1).
    { apply digits2_eq; [|lia]. rewrite <- Ep.
      replace (-2 - e1 + 1 - 1) with (-2 - e1) by lia. split; [lia|].
      apply Z.pow_lt_mono_r; lia. }
    assert (Hn : SpecFloat.fexp prec emax (Zdigits2 (Zpos p1) + e1) - e1
                 = -54 - e1).
    { cbn [Zdigits2]. rewrite Hdg, fexp_eq. lia. }
    destruct (-54 - e1) as [|k|k] eqn:Ek; try lia.
    rewrite (renorm_shift _ _ k) by (cbn [Zdigits2]; lia || exact Hn).
    rewrite <- Ep.
    replace (2 ^ (-2 - e1) / 2 ^ Zpos k) with (2 ^ 52).
    + replace (e1 + Zpos k) with (-54) by lia. reflexivity.
    + rewrite <- Z.pow_sub_r by lia. f_equal. lia.
Qed.

(** Rounding an exact value below 2^-2 gives a float of at most 0.25. *)
Lemma round_below_quarter mx ex :
  Zpos mx < 2 ^ (-2 - ex) ->
  0 <= SpecFloat.fexp prec emax (Zpos (digits2_pos mx) + ex) - ex ->
  at_most_quarter (binary_round_aux prec emax false (Zpos mx) ex loc_Exact).
Proof.
  intros Hmx Hn.
  assert (Hex : 0 <= -2 - ex).
  { destruct (Z.le_gt_cases 0 (-2 - ex)) as [H | H]; [exact H|].
    rewrite Z.pow_neg_r in Hmx by lia. lia. }
  assert (Hdg : Zpos (digits2_pos mx) <= -2 - ex) by (apply digits2_le; lia).
  destruct (SpecFloat.fexp prec emax (Zpos (digits2_pos mx) + ex) - ex)
    as [|n|n] eqn:En; try lia.
  - rewrite bra_noshift by lia. rewrite fexp_eq in En.
    apply renorm_below_quarter; lia.
  - destruct (bra_shift mx ex n En) as (m1 & [Hq1 Hq2] & ->).
    rewrite fexp_eq in En.
    pose proof (pow2_pos (Zpos n) ltac:(lia)) as Hpn.
    assert (Hq : Zpos mx / 2 ^ Zpos n < 2 ^ (-2 - (ex + Zpos n))).
    { apply Z.div_lt_upper_bound; [lia|].
      rewrite <- Z.pow_add_r by lia.
      replace (Zpos n + (-2 - (ex + Zpos n))) with (-2 - ex) by lia. exact Hmx. }
    assert (0 <= Zpos mx / 2 ^ Zpos n) by (apply Z.div_pos; lia).
    apply renorm_below_quarter; lia.
Qed.

(** A positive float below 1, times 0.25. *)
Lemma mul_quarter m e :
  Zpos m < 2 ^ (- e) ->
  at_most_quarter
    (SF64mul (S754_finite false m e) (S754_finite false 4503599627370496 (-54))).
Proof.
  intros Hm.
  change (SF64mul (S754_finite false m e) (S754_finite false 4503599627370496 (-54)))
    with (binary_round_aux prec emax false
            (Zpos (m * 4503599627370496)) (e + -54) loc_Exact).
  assert (He : 0 <= - e).
  { destruct (Z.le_gt_cases 0 (- e)) as [H | H]; [exact H|].
    rewrite Z.pow_neg_r in Hm by lia. lia. }
  assert (Hprod : Zpos (m * 4503599627370496) = Zpos m * 2 ^ 52) by reflexivity.
  apply round_below_quarter.
  - rewrite Hprod. replace (-2 - (e + -54)) with (- e + 52) by lia.
    rewrite Z.pow_add_r by lia.
    apply Z.mul_lt_mono_pos_r; [reflexivity | exact Hm].
  - rewrite fexp_eq.
    assert (52 < Zpos (digits2_pos (m * 4503599627370496))).
    { apply digits2_gt. rewrite Hprod.
      assert (1 * 2 ^ 52 <= Zpos m * 2 ^ 52)
        by (apply Z.mul_le_mono_nonneg_r; [cbn|]; lia).
      lia. }
    lia.
Qed.

(** 0.7 plus a positive float with exponent at most -55: the sum keeps
    the exponent -53 of 0.7, and its mantissa stays within 2^51 of that
    of 0.7, where the mantissa of 0.95 lies. *)
Lemma add_seven_tenths my ey :
  ey <= -55 -> Zpos my < 2 ^ 53 ->
  exists m1,
    SF64add (S754_finite false M7 (-53)) (S754_finite false my ey)
      = S754_finite false m1 (-53) /\
    Zpos M7 <= Zpos m1 <= Zpos M95.
Proof.
  intros Hey Hmy.
  unfold SF64add, SFadd.
  rewrite (Z.min_r (-53) ey) by lia.
  unfold shl_align at 1 2. rewrite Z.sub_diag.
  destruct (ey - -53) as [|d|d] eqn:Ed; try lia.
  cbn [fst cond_Zopp].
  change (Zpos (Pos.iter xO M7 d) + Zpos my)
    with (Zpos (Pos.iter xO M7 d + my)).
  set (S := (Pos.iter xO M7 d + my)%positive).
  cbn [binary_normalize]. unfold binary_round.
  pose proof (pow2_pos (Zpos d) ltac:(lia)) as Hpd.
  assert (HS : Zpos S = Zpos M7 * 2 ^ Zpos d + Zpos my).
  { unfold S. rewrite Pos2Z.inj_add, iter_xO. reflexivity. }
  assert (Hd : Zpos d = - ey - 53) by lia.
  assert (Hmy' : Zpos my < 2 ^ 51 * 2 ^ Zpos d).
  { assert (2 ^ 53 <= 2 ^ 51 * 2 ^ Zpos d).
    { rewrite <- Z.pow_add_r by lia. apply Z.pow_le_mono_r; lia. }
    lia. }
  assert (HSlo : Zpos M7 * 2 ^ Zpos d <= Zpos S) by lia.
  assert (HShi : Zpos S < Zpos M95 * 2 ^ Zpos d).
  { rewrite HS. change (Zpos M95) with (Zpos M7 + 2 ^ 51). lia. }
  assert (Hdg : Zpos (digits2_pos S) = 53 + Zpos d).
  { apply digits2_eq; [|lia]. split.
    - replace (53 + Zpos d - 1) with (52 + Zpos d) by lia.
      rewrite Z.pow_add_r by lia.
      assert (2 ^ 52 * 2 ^ Zpos d <= Zpos M7 * 2 ^ Zpos d)
        by (apply Z.mul_le_mono_nonneg_r; [lia | vm_compute; discriminate]).
      lia.
    - rewrite Z.pow_add_r by lia.
      assert (Zpos M95 * 2 ^ Zpos d <= 2 ^ 53 * 2 ^ Zpos d)
        by (apply Z.mul_le_mono_nonneg_r; [lia | vm_compute; discriminate]).
      lia. }
  assert (Hfexp : SpecFloat.fexp prec emax (Zpos (digits2_pos S) + ey) = -53).
  { rewrite Hdg, fexp_eq. lia. }
  rewrite Hfexp. unfold shl_align.
  destruct (-53 - ey) as [|k|k] eqn:Ek; try lia.
  destruct (bra_shift S ey d) as (m1 & [Hq1 Hq2] & ->).
  { rewrite Hfexp. lia. }
  assert (Hq : Zpos S / 2 ^ Zpos d = Zpos M7 + Zpos my / 2 ^ Zpos d).
  { rewrite HS. apply Z.div_add_l. lia. }
  assert (Hr : 0 <= Zpos my / 2 ^ Zpos d < 2 ^ 51).
  { split; [apply Z.div_pos; lia|].
    apply Z.div_lt_upper_bound; lia. }
  rewrite Hq in Hq1, Hq2.
  assert (Hm1 : Zpos M7 <= m1 <= Zpos M95).
  { change (Zpos M95) with (Zpos M7 + 2 ^ 51). lia. }
  destruct m1 as [|p1|p1]; try (unfold M7 in Hm1; lia).
  exists p1. split; [|exact Hm1].
  replace (ey + Zpos d) with (-53) by lia.
  assert (Hdg1 : Zpos (digits2_pos p1) = 53).
  { apply digits2_eq; [|lia]. unfold M7, M95 in Hm1.
    change (2 ^ (53 - 1)) with 4503599627370496.
    change (2 ^ 53) with 9007199254740992. lia. }
  rewrite renorm_noshift.
  - reflexivity.
  - cbn [Zdigits2]. rewrite Hdg1. cbn. lia.
Qed.

End Rounding.

Section Binary64Facts.
Import B64.
Local Open Scope Z_scope.

Lemma bounded_digits m e :
  bounded prec emax m e = true ->
  Zpos (digits2_pos m) <= 53 /\ -1074 <= e.
Proof.
  unfold bounded, canonical_mantissa. intros H.
  apply andb_true_iff in H. destruct H as [H _].
  apply Z.eqb_eq in H. rewrite fexp_eq in H. lia.
Qed.

Lemma SFleb_same_exponent m1 m2 e :
  Zpos m1 <= Zpos m2 ->
  SFleb (S754_finite false m1 e) (S754_finite false m2 e) = true.
Proof.
  intros H. unfold SFleb, SFcompare. rewrite Z.compare_refl.
  change (Pos.compare_cont Eq m1 m2) with (Pos.compare m1 m2).
  destruct (Pos.compare_spec m1 m2) as [E | E | E]; try reflexivity. lia.
Qed.

(** A draw, as a binary64: a zero, or a positive float below 1. *)
Lemma draw_shape (d : float) :
  is_draw d ->
  (exists s, Prim2SF d = S754_zero s) \/
  (exists m e, Prim2SF d = S754_finite false m e /\ Zpos m < 2 ^ (- e)).
Proof.
  intros [Hlo Hhi]. rewrite leb_spec in Hlo. rewrite ltb_spec in Hhi.
  pose proof (Prim2SF_valid d) as Hvalid.
  change (Prim2SF 0) with (S754_zero false) in Hlo.
  change (Prim2SF 1) with (S754_finite false 4503599627370496 (-52)) in Hhi.
  destruct (Prim2SF d) as [s | s | | s m e].
  - left. now exists s.
  - destruct s; discriminate.
  - discriminate.
  - right. destruct s; [discriminate|]. exists m, e. split; [reflexivity|].
    cbn [valid_binary] in Hvalid.
    destruct (bounded_digits m e Hvalid) as [Hdg He].
    unfold SFltb, SFcompare in Hhi.
    destruct (Z.compare_spec e (-52)) as [E | E | E]; try discriminate Hhi.
    + subst e. rewrite Pos.compare_cont_spec in Hhi.
      destruct (Pos.compare_spec m 4503599627370496) as [E | E | E];
        try discriminate Hhi.
      exact (Pos2Z.pos_lt_pos _ _ E).
    + apply digits2_lt_pow. clear - Hdg E. lia.
Qed.

(** The product of a draw and 0.25 is at most 0.25. *)
Lemma draw_times_quarter (d : float) :
  is_draw d -> at_most_quarter (Prim2SF (d * 0.25)).
Proof.
  intros Hd. rewrite mul_spec.
  change (Prim2SF 0.25) with (S754_finite false 4503599627370496 (-54)).
  destruct (draw_shape d Hd) as [[s ->] | (m & e & -> & Hm)].
  - left. exists (xorb s false). reflexivity.
  - now apply mul_quarter.
Qed.

(** 0.7 plus a number that is at most 0.25 lies between 0.7 and 0.95,
    both included. *)
Lemma seven_tenths_plus (y : float) :
  at_most_quarter (Prim2SF y) ->
  (0.7 <=? 0.7 + y)%float = true /\ (0.7 + y <=? 0.95)%float = true.
Proof.
  intros Hy. rewrite !leb_spec, add_spec.
  pose proof (Prim2SF_valid y) as Hvalid.
  change (Prim2SF 0.7) with (S754_finite false M7 (-53)).
  change (Prim2SF 0.95) with (S754_finite false M95 (-53)).
  destruct Hy as [[s E] | [(m & e & E & He) | E]]; rewrite E in *.
  - split; reflexivity.
  - cbn [valid_binary] in Hvalid.
    destruct (bounded_digits m e Hvalid) as [Hdg _].
    destruct (add_seven_tenths m e He (digits2_lt_pow m 53 Hdg))
      as (m1 & -> & Hlo & Hhi).
    split; now apply SFleb_same_exponent.
  - split; reflexivity.
Qed.

Lemma SFmul_comm (x y : spec_float) :
  SFmul prec emax x y = SFmul prec emax y x.
Proof.
  destruct x as [sx | sx | | sx mx ex], y as [sy | sy | | sy my ey];
    cbn [SFmul]; try reflexivity; try now rewrite xorb_comm.
  now rewrite xorb_comm, Pos.mul_comm, Z.add_comm.
Qed.

End Binary64Facts.

Lemma float_mul_comm (a b : float) : (a * b = b * a)%float.
Proof.
  apply Prim2SF_inj. rewrite !mul_spec. apply SFmul_comm.
Qed.

Lemma one_is_not_zero : 1%float <> 0%float.
Proof.
  intros H.
  assert (E : (1 =? 1)%float = (0 =? 1)%float) by now rewrite H.
  vm_compute in E. discriminate E.
Qed.

(** The score of the specification is the score the code computes. *)
Lemma spec_score_is_score (age duration : float) :
  spec_score age duration = Predict.score age duration.
Proof.
  unfold spec_score, Predict.score.
  now rewrite (float_mul_comm 0.4), (float_mul_comm 0.6).
Qed.

(* ================================================================== *)
(** * Properties of the Prediction Proxy: the mock predictor *)
(* ================================================================== *)

Section MockProperties.
Variable rt : Runtime.

(** Every failure of the prediction call is answered through the mock. *)
Lemma POST_mocks (random : float) (request : NextRequest) (body : JsValue)
  (backend : FetchCall -> FetchResult) :
  json request = inr body ->
  predict_failed (backend (Predict.predict_call rt body)) ->
  run backend (Predict.POST rt random request)
    = (Predict.mock_response rt random body,
       [Predict.predict_call rt body]).
Proof.
  intros Hjson Hfail. unfold Predict.POST. rewrite Hjson. cbn [run].
  destruct Hfail as [| st ct b Hok | st b | st ct b Hct | st ct];
    unfold Predict.after_fetch.
  - reflexivity.
  - rewrite Hok. cbn [andb negb orb]. reflexivity.
  - rewrite andb_false_r. destruct (negb (Http.ok st) || negb false); reflexivity.
  - rewrite Hct, andb_false_r.
    destruct (negb (Http.ok st) || negb false); reflexivity.
  - destruct (Http.ok st && _); [reflexivity|].
    destruct (negb (Http.ok st) || _); reflexivity.
Qed.

(** A numeric field is read as it is, but for 0 and NaN. *)
Lemma mock_reads_numbers (props : list (string * JsValue)) (age duration : float) :
  Js.lookup "age" props = Some (JNum age) ->
  Js.lookup "duration_days" props = Some (JNum duration) ->
  Predict.mock_age rt (JObj props) = Some (Predict.or_zero age) /\
  Predict.mock_duration rt (JObj props) = Some (Predict.or_zero duration).
Proof.
  intros Hage Hduration. unfold Predict.mock_age, Predict.mock_duration.
  cbn [Js.opt_member Js.is_nullish Js.prop]. now rewrite Hage, Hduration.
Qed.

(** C7, amended.  When the prediction call fails (transport failure, a
    status that is not 2xx, or a 2xx body that is not JSON) and the
    request's [age] and [duration_days] convert to numbers, the answer
    is the mock's: [resistant] is 1 exactly when
    0.4*(age/100) + 0.6*min(duration_days/30, 1) > 0.5, and 0 otherwise,
    and for every draw in [0, 1) the probability lies between 0.70 and
    0.95, both bounds included; age 80 with 30 days yields
    [resistant: 1].  When one of the two does not convert, the answer is
    500 with the message of the conversion's error. *)
Theorem mock_prediction_on_failure
  (random : float) (request : NextRequest) (body : JsValue)
  (backend : FetchCall -> FetchResult) :
  json request = inr body ->
  predict_failed (backend (Predict.predict_call rt body)) ->
  is_draw random ->
  let response := fst (run backend (Predict.POST rt random request)) in
  (forall a d,
     Conv.ToNumber rt (Js.opt_member body "age") = Some a ->
     Conv.ToNumber rt (Js.opt_member body "duration_days") = Some d ->
     let age := Predict.or_zero a in
     let duration_days := Predict.or_zero d in
     status response = 200%Z /\
     exists resistant probability,
       body_of response
         = JObj [("resistant", JNum resistant); ("probability", JNum probability)] /\
       (resistant = 1%float \/ resistant = 0%float) /\
       (resistant = 1%float <->
        (0.5 <? spec_score age duration_days)%float = true) /\
       (0.7 <=? probability)%float = true /\
       (probability <=? 0.95)%float = true) /\
  (Conv.ToNumber rt (Js.opt_member body "age") = None \/
   Conv.ToNumber rt (Js.opt_member body "duration_days") = None ->
   status response = 500%Z /\
   body_of response = JObj [("error", JStr (ToPrimitiveError rt))]) /\
  Predict.mockPrediction rt random Sample.patient
    = Some (JObj [("resistant", JNum 1);
                  ("probability", JNum (0.7 + random * 0.25)%float)]).
Proof.
  intros Hjson Hfail Hdraw response. subst response.
  rewrite (POST_mocks random request body backend Hjson Hfail).
  cbn [fst]. unfold Predict.mock_response, Predict.mockPrediction,
    Predict.mock_age, Predict.mock_duration.
  split; [|split; [|reflexivity]].
  - intros a d Ha Hd. rewrite Ha, Hd. cbn [option_map].
    set (age := Predict.or_zero a). set (duration_days := Predict.or_zero d).
    split; [reflexivity|].
    cbn [body_of Http.json_ok Http.json_status kind]. unfold Predict.prediction.
    eexists _, _. split; [reflexivity|].
    rewrite spec_score_is_score.
    destruct (seven_tenths_plus _ (draw_times_quarter random Hdraw)) as [Hlo Hhi].
    destruct (0.5 <? Predict.score age duration_days)%float.
    + repeat split; auto.
    + repeat split; auto.
      * intros H. symmetry in H. now apply one_is_not_zero in H.
      * discriminate.
  - intros [Ha | Hd].
    + rewrite Ha. split; reflexivity.
    + rewrite Hd. cbn [option_map].
      destruct (Conv.ToNumber rt (Js.opt_member body "age")); split; reflexivity.
Qed.

End MockProperties.

Lemma top_draw_is_draw : is_draw Sample.top_draw.
Proof. split; reflexivity. Qed.

Example patient_score : Predict.score 80 30 = 0.92000000000000004%float.
Proof. reflexivity. Qed.

Lemma mock_prediction_on_failure_witness :
  status (fst (run Sample.unreachable
                 (Predict.POST Sample.runtime Sample.top_draw
                    (Sample.request "/api/predict" (inr Sample.patient)))))
    = 200%Z.
Proof.
  exact (proj1 (proj1 (mock_prediction_on_failure Sample.runtime Sample.top_draw
                         (Sample.request "/api/predict" (inr Sample.patient))
                         Sample.patient Sample.unreachable
                         eq_refl predict_transport top_draw_is_draw)
                  80%float 30%float eq_refl eq_refl)).
Defined.

(** An age that cannot be converted to a number: the mock throws, and
    the answer is 500. *)
Example unreadable_age_is_an_error :
  status (fst (run Sample.unreachable
                 (Predict.POST Sample.runtime Sample.top_draw
                    (Sample.request "/api/predict"
                       (inr (JObj [("age", JObj [("toString", JNum 1)]);
                                   ("duration_days", JNum 30)]))))))
    = 500%Z.
Proof. reflexivity. Qed.

(** C7 as stated fails at the top of the range: the greatest draw below
    1, like the one before it, gives the probability 0.95 itself, which
    is not below 0.95. *)
Lemma top_draw_reaches_upper_bound :
  let response (random : float) :=
    fst (run Sample.unreachable
           (Predict.POST Sample.runtime random
              (Sample.request "/api/predict" (inr Sample.patient)))) in
  is_draw Sample.top_draw /\
  (exists probability,
     Js.prop (body_of (response Sample.top_draw)) "probability" = JNum probability /\
     (probability =? 0.95)%float = true /\
     (probability <? 0.95)%float = false) /\
  is_draw Sample.second_draw /\
  (exists probability,
     Js.prop (body_of (response Sample.second_draw)) "probability"
       = JNum probability /\
     (probability <? 0.95)%float = false).
Proof.
  intros response. split; [exact top_draw_is_draw|]. split.
  - eexists. split; [reflexivity|]. split; reflexivity.
  - split; [split; reflexivity|].
    eexists. split; reflexivity.
Qed.

(* ================================================================== *)
(** * Further properties of the Session Gate *)
(* ================================================================== *)

(** X1.  On whatever path it is run, either middleware only ever
    continues (the clearing one possibly with the cleared cookie) or
    redirects to the entry route: its status is 200 or 307, never an
    error; and on a path that does not start with ["/admin"] it never
    redirects. *)
Theorem gate_continues_or_redirects (request : NextRequest) :
  (GateFallback.middleware request = Http.next \/
   GateFallback.middleware request = Http.redirect request "/") /\
  (GateLogout.middleware request = Http.next \/
   GateLogout.middleware request
     = Http.cookies_set Http.next GateLogout.cleared_cookie \/
   GateLogout.middleware request = Http.redirect request "/") /\
  (status (GateFallback.middleware request) = 200%Z \/
   status (GateFallback.middleware request) = 307%Z) /\
  (status (GateLogout.middleware request) = 200%Z \/
   status (GateLogout.middleware request) = 307%Z) /\
  (JsString.startsWith (pathname request) "/admin" = false ->
   GateFallback.middleware request = Http.next /\
   GateLogout.middleware request <> Http.redirect request "/").
Proof.
  unfold GateFallback.middleware, GateLogout.middleware.
  split; [|split; [|split; [|split]]].
  - destruct (JsString.startsWith _ _); [|now left].
    destruct (_ || _); [now right | now left].
  - destruct (pathname request =? "/"); [right; now left|].
    destruct (JsString.startsWith _ _); [|now left].
    destruct (_ || _); [right; now right | now left].
  - destruct (JsString.startsWith _ _); [|now left].
    destruct (_ || _); [now right | now left].
  - destruct (pathname request =? "/"); [now left|].
    destruct (JsString.startsWith _ _); [|now left].
    destruct (_ || _); [now right | now left].
  - intros ->. destruct (pathname request =? "/"); split;
      try reflexivity; discriminate.
Qed.

Lemma gate_continues_or_redirects_witness :
  GateFallback.middleware Sample.entry_page = Http.next /\
  GateLogout.middleware Sample.entry_page <> Http.redirect Sample.entry_page "/".
Proof.
  exact (proj2 (proj2 (proj2 (proj2
           (gate_continues_or_redirects Sample.entry_page)))) eq_refl).
Defined.

(** X2.  What the gate's pattern extracts from a raw [Cookie] header is
    a non-empty text without semicolon that stands in the header right
    after [user_role=]; a header without [user_role=] yields nothing. *)
Theorem header_role_is_in_header (h : string) :
  (forall v, CookieRegex.group1 h = Some v ->
             v <> "" /\ JsString.includes v ";" = false /\
             JsString.includes h ("user_role=" ++ v) = true) /\
  (JsString.includes h "user_role=" = false -> CookieRegex.group1 h = None).
Proof.
  split.
  - intros v. apply search_sound.
  - apply search_complete.
Qed.

Lemma header_role_is_in_header_witness :
  JsString.includes "theme=dark; user_role=Admin" "user_role=Admin" = true /\
  CookieRegex.group1 "theme=dark" = None.
Proof.
  split.
  - exact (proj2 (proj2 (proj1 (header_role_is_in_header
                                   "theme=dark; user_role=Admin") "Admin" eq_refl))).
  - exact (proj2 (header_role_is_in_header "theme=dark") eq_refl).
Defined.

(* ================================================================== *)
(** * Further properties of the Session Issuer *)
(* ================================================================== *)

(** ** Trimming *)

Lemma trimEnd_idempotent (s : string) :
  JsString.trimEnd (JsString.trimEnd s) = JsString.trimEnd s.
Proof.
  induction s as [|c s IH]; [reflexivity|].
  cbn [JsString.trimEnd].
  destruct (JsString.trimEnd s) as [|c' s'] eqn:E.
  - destruct (JsString.is_whitespace c) eqn:Hc; [reflexivity|].
    cbn [JsString.trimEnd]. now rewrite Hc.
  - cbn [JsString.trimEnd] in *. now rewrite IH.
Qed.

Lemma trimStart_clean (s : string) : starts_clean (JsString.trimStart s) = true.
Proof.
  induction s as [|c s IH]; [reflexivity|].
  cbn [JsString.trimStart]. destruct (JsString.is_whitespace c) eqn:E; [exact IH|].
  cbn [starts_clean]. now rewrite E.
Qed.

Lemma trimStart_of_clean (s : string) :
  starts_clean s = true -> JsString.trimStart s = s.
Proof.
  destruct s as [|c s]; [reflexivity|]. cbn [starts_clean JsString.trimStart].
  intros H. apply negb_true_iff in H. now rewrite H.
Qed.

Lemma trimEnd_clean (s : string) :
  starts_clean s = true -> starts_clean (JsString.trimEnd s) = true.
Proof.
  destruct s as [|c s]; [reflexivity|]. cbn [starts_clean JsString.trimEnd].
  intros H. destruct (JsString.trimEnd s).
  - apply negb_true_iff in H. rewrite H. cbn [starts_clean]. now rewrite H.
  - exact H.
Qed.

Lemma trim_idempotent (s : string) :
  JsString.trim (JsString.trim s) = JsString.trim s.
Proof.
  unfold JsString.trim.
  rewrite (trimStart_of_clean (JsString.trimEnd (JsString.trimStart s))).
  - apply trimEnd_idempotent.
  - apply trimEnd_clean, trimStart_clean.
Qed.

(** ** Statuses *)

(** The statuses of a reply that is not 2xx which a response with a
    body can carry. *)
Lemma accepts_status_spec (st : Z) :
  Http.ok st = false ->
  Http.accepts_status st = true <-> ((200 <= st <= 599)%Z /\ st <> 304%Z).
Proof.
  intros Hok. unfold Http.accepts_status, Http.null_body_status, Http.ok in *.
  rewrite !andb_true_iff, negb_true_iff, !orb_false_iff,
    !Z.leb_le, !Z.eqb_neq.
  apply andb_false_iff in Hok. rewrite Z.leb_gt, Z.leb_gt in Hok. lia.
Qed.

Lemma json_init_spec (body : JsValue) (st : Z) :
  Http.ok st = false ->
  ((200 <= st <= 599)%Z /\ st <> 304%Z ->
   Http.json_init body st = Some (Http.json_status body st)) /\
  (~ ((200 <= st <= 599)%Z /\ st <> 304%Z) -> Http.json_init body st = None).
Proof.
  intros Hok. unfold Http.json_init.
  pose proof (accepts_status_spec st Hok) as H.
  destruct (Http.accepts_status st); split; intros Hst; try reflexivity.
  - exfalso. apply Hst. now apply H.
  - apply H in Hst. discriminate.
Qed.

(** ** The outcomes of the route *)

Lemma demo_session_issued : session_issued Login.demo_session "Doctor".
Proof. repeat split. now exists None. Qed.

Lemma failure_refused (e : JsValue) (st : Z) :
  Http.ok st = false -> login_refused (Login.failure e st).
Proof. intros H. repeat split. exact H. Qed.

Lemma on_fetch_error_outcome (d p : string) :
  login_refused (Login.on_fetch_error d p) \/
  session_issued (Login.on_fetch_error d p) "Doctor".
Proof.
  unfold Login.on_fetch_error. destruct (Login.is_demo d p).
  - right. exact demo_session_issued.
  - left. now apply failure_refused.
Qed.

Lemma on_accepted_outcome (request : NextRequest) (data : JsValue) (r : NextResponse) :
  Login.on_accepted request data = Some r -> exists role, session_issued r role.
Proof.
  unfold Login.on_accepted.
  destruct (Js.member data "role") as [v|]; [|discriminate].
  destruct (Js.or v (JStr "Doctor")); try discriminate.
  intros H. injection H as <-. eexists. repeat split. eexists. reflexivity.
Qed.

Lemma on_rejected_outcome (st : Z) (data : JsValue) (d p : string) (r : NextResponse) :
  Http.ok st = false ->
  Login.on_rejected st data d p = Some r ->
  login_refused r \/ session_issued r "Doctor".
Proof.
  intros Hok. unfold Login.on_rejected. destruct (Login.is_demo d p).
  - intros H. injection H as <-. right. exact demo_session_issued.
  - destruct (Js.member data "detail"); [|discriminate].
    destruct (Http.accepts_status st); [|discriminate].
    intros H. injection H as <-. left. now apply failure_refused.
Qed.

Lemma after_fetch_outcome (request : NextRequest) (d p : string) (result : FetchResult) :
  login_refused (Login.after_fetch request d p result) \/
  exists role, session_issued (Login.after_fetch request d p result) role.
Proof.
  assert (Herr : login_refused (Login.on_fetch_error d p) \/
                 exists role, session_issued (Login.on_fetch_error d p) role).
  { destruct (on_fetch_error_outcome d p); [now left | right; now exists "Doctor"]. }
  unfold Login.after_fetch. destruct result as [|st ct body]; [exact Herr|].
  set (isJson := match ct with Some c => _ | None => false end).
  destruct (if isJson then body else Some (JObj [])) as [data|]; [|exact Herr].
  destruct (Http.ok st) eqn:Hok; cbn [andb negb].
  - destruct isJson.
    + destruct (Login.on_accepted request data) as [r|] eqn:E; cbn [Login.or_else];
        [|exact Herr].
      right. exact (on_accepted_outcome _ _ _ E).
    + left. now apply failure_refused.
  - destruct (Login.on_rejected st data d p) as [r|] eqn:E; cbn [Login.or_else];
      [|exact Herr].
    destruct (on_rejected_outcome _ _ _ _ _ Hok E); [now left | right; now exists "Doctor"].
Qed.

Section LoginFurther.
Variable rt : Runtime.

(** How [POST] starts, whatever the request. *)
Lemma POST_cases (request : NextRequest) :
  Login.POST rt request = Respond (Login.failure (JStr "Authentication failed") 500) \/
  Login.POST rt request
    = Respond (Login.failure (JStr "Doctor ID and password are required") 400) \/
  exists d p,
    JsString.trim d = d /\
    Login.POST rt request
      = Await (Login.login_call rt d p)
              (fun result => Respond (Login.after_fetch request d p result)).
Proof.
  unfold Login.POST. destruct (json request) as [e|body]; [now left|].
  destruct (negb _ || _); [right; now left|].
  unfold Login.doctor_id_string.
  destruct (Conv.ToString rt _) as [id|]; [|now left].
  right; right. eexists _, _. split; [|reflexivity].
  apply trim_idempotent.
Qed.

(** X3.  A login response either opens a session (status 200,
    [success: true], the role, and exactly one [user_role] cookie with
    that role) or opens none (a status that is not 2xx, [success: false],
    no cookie): the cookie is set on success and only then. *)
Theorem cookie_iff_success (request : NextRequest) (backend : FetchCall -> FetchResult) :
  let r := fst (run backend (Login.POST rt request)) in
  login_refused r \/ exists role, session_issued r role.
Proof.
  intros r. subst r.
  destruct (POST_cases request) as [-> | [-> | (d & p & _ & ->)]].
  - left. now apply failure_refused.
  - left. now apply failure_refused.
  - cbn [run fst]. apply after_fetch_outcome.
Qed.

(** X4.  The route calls the backend at most once, and not at all when
    it answers 400 or 500 on its own; the one call is a [POST] to
    [/login] on the configured base, whose body holds the id as a string
    without surrounding white space and the password as a string. *)
Theorem login_calls_backend_at_most_once
  (request : NextRequest) (backend : FetchCall -> FetchResult) :
  let outcome := run backend (Login.POST rt request) in
  (snd outcome = [] /\
   (status (fst outcome) = 400%Z \/ status (fst outcome) = 500%Z)) \/
  exists d p,
    JsString.trim d = d /\
    snd outcome
      = [ {| f_url := Conv.api_base rt ++ "/login";
             f_method := "POST";
             f_headers := [("Content-Type", "application/json")];
             f_body := Some (JObj [("doctor_id", JStr d); ("password", JStr p)]) |} ].
Proof.
  intros outcome. subst outcome.
  destruct (POST_cases request) as [-> | [-> | (d & p & Hd & ->)]].
  - left. split; [reflexivity | now right].
  - left. split; [reflexivity | now left].
  - right. exists d, p. split; [exact Hd | reflexivity].
Qed.

(** The response to a backend reply that is 2xx and JSON. *)
Lemma accepted_response
  (request : NextRequest) (body data : JsValue) (id raw : string)
  (backend : FetchCall -> FetchResult) :
  json request = inr body ->
  Js.truthy (Js.prop body "doctor_id") = true ->
  Js.prop body "password" <> JUndefined ->
  Conv.ToString rt (Js.prop body "doctor_id") = Some id ->
  replied_json
    (backend (Login.login_call rt (JsString.trim id)
                (Login.password_string (Js.prop body "password")))) data ->
  Js.is_nullish data = false ->
  backend_role data raw ->
  let role := if JsString.toLowerCase raw =? "admin" then "Admin" else raw in
  fst (run backend (Login.POST rt request))
    = Http.cookies_set
        (Http.json_ok
           (JObj [("success", JBool true);
                  ("role", JStr role);
                  ("access_token", Js.prop data "access_token");
                  ("refresh_token", Js.prop data "refresh_token");
                  ("token_type", Js.prop data "token_type");
                  ("expires_in", Js.prop data "expires_in")]))
        (Login.session_cookie role (Some (Login.isSecure request))).
Proof.
  intros Hjson Hid Hpw Hconv (st & ct & Hres & Hok & Hct) Hdata Hrole role.
  rewrite (POST_calls rt request body (JsString.trim id) Hjson Hid Hpw)
    by (unfold Login.doctor_id_string; now rewrite Hconv).
  cbn [run fst].
  rewrite Hres. unfold Login.after_fetch. rewrite Hct, Hok. cbn [andb].
  unfold Login.on_accepted, Js.member. rewrite Hdata.
  assert (Hor : Js.or (Js.prop data "role") (JStr "Doctor") = JStr raw).
  { destruct Hrole as [raw Hraw Hne | Hfalsy]; unfold Js.or.
    - rewrite Hraw. cbn [Js.truthy].
      apply String.eqb_neq in Hne. now rewrite Hne.
    - now rewrite Hfalsy. }
  rewrite Hor. reflexivity.
Qed.

Lemma issued_role_spec (raw : string) :
  issued_role raw (if JsString.toLowerCase raw =? "admin" then "Admin" else raw).
Proof.
  unfold issued_role. destruct (JsString.toLowerCase raw =? "admin") eqn:E.
  - left. split; [|reflexivity]. apply toLowerCase_admin. now apply String.eqb_eq.
  - right. split; [|reflexivity]. intros H. apply toLowerCase_admin in H.
    apply String.eqb_neq in E. contradiction.
Qed.

Lemma isSecure_spec (request : NextRequest) :
  NoDup (map fst (headers request)) ->
  Login.isSecure request = true <-> over_https request.
Proof.
  intros Hmap. unfold Login.isSecure, over_https, JsString.startsWith,
    header_is, Http.header.
  rewrite orb_true_iff. split.
  - intros [H | H].
    + left. now apply prefix_split.
    + right. destruct (Http.assoc "x-forwarded-proto" (headers request))
        as [p|] eqn:E; [|discriminate].
      apply String.eqb_eq in H. subst p. now apply assoc_Some_In.
  - intros [[rest E] | H].
    + left. rewrite E. change "https://" with ("https://" ++ "") at 1.
      rewrite prefix_app. now destruct rest.
    + right. rewrite (assoc_In _ _ _ Hmap H). apply String.eqb_refl.
Qed.

(** X5.  When the backend accepts a login (2xx, JSON) whose id [String]
    converts, the route answers 200 with the backend's tokens and a
    role, and sets [user_role] to that same role: ["Admin"] for a
    backend role that spells admin in any letter case, the backend's
    string otherwise, ["Doctor"] when the backend names none; the cookie
    is marked secure exactly when the request came over https, by its
    URL or by its [x-forwarded-proto] header. *)
Theorem accepted_login_issues_role
  (request : NextRequest) (body data : JsValue) (id raw : string)
  (backend : FetchCall -> FetchResult) :
  json request = inr body ->
  NoDup (map fst (headers request)) ->
  Js.truthy (Js.prop body "doctor_id") = true ->
  Js.prop body "password" <> JUndefined ->
  Conv.ToString rt (Js.prop body "doctor_id") = Some id ->
  replied_json
    (backend (Login.login_call rt (JsString.trim id)
                (Login.password_string (Js.prop body "password")))) data ->
  Js.is_nullish data = false ->
  backend_role data raw ->
  exists role secure,
    issued_role raw role /\
    (secure = true <-> over_https request) /\
    let r := fst (run backend (Login.POST rt request)) in
    status r = 200%Z /\
    Js.prop (body_of r) "success" = JBool true /\
    Js.prop (body_of r) "role" = JStr role /\
    Js.prop (body_of r) "access_token" = Js.prop data "access_token" /\
    Js.prop (body_of r) "refresh_token" = Js.prop data "refresh_token" /\
    Js.prop (body_of r) "token_type" = Js.prop data "token_type" /\
    Js.prop (body_of r) "expires_in" = Js.prop data "expires_in" /\
    set_cookies r
      = [ {| c_name := "user_role"; c_value := role;
             c_httpOnly := Some true; c_sameSite := Some "lax";
             c_maxAge := Some 86400%Z; c_path := Some "/";
             c_secure := Some secure |} ].
Proof.
  intros Hjson Hmap Hid Hpw Hconv Hreply Hdata Hrole.
  exists (if JsString.toLowerCase raw =? "admin" then "Admin" else raw),
         (Login.isSecure request).
  split; [apply issued_role_spec|].
  split; [now apply isSecure_spec|]. intros r. subst r.
  rewrite (accepted_response request body data id raw backend
             Hjson Hid Hpw Hconv Hreply Hdata Hrole).
  repeat split.
Qed.

(** X6.  The session a login opens is the one the gate reads: a later
    request under the admin prefix that carries the cookie of an accepted
    login (one whose id [String] converts) passes either gate when the
    backend's role spells admin, and is redirected to the entry route
    otherwise. *)
Theorem login_cookie_opens_admin_gate
  (request : NextRequest) (body data : JsValue) (id raw : string)
  (backend : FetchCall -> FetchResult) (visit : NextRequest) :
  json request = inr body ->
  Js.truthy (Js.prop body "doctor_id") = true ->
  Js.prop body "password" <> JUndefined ->
  Conv.ToString rt (Js.prop body "doctor_id") = Some id ->
  replied_json
    (backend (Login.login_call rt (JsString.trim id)
                (Login.password_string (Js.prop body "password")))) data ->
  Js.is_nullish data = false ->
  backend_role data raw ->
  carries_cookies visit (fst (run backend (Login.POST rt request))) ->
  JsString.startsWith (pathname visit) "/admin" = true ->
  (spells_admin raw ->
   GateFallback.middleware visit = Http.next /\
   GateLogout.middleware visit = Http.next) /\
  (~ spells_admin raw ->
   GateFallback.middleware visit = Http.redirect visit "/" /\
   GateLogout.middleware visit = Http.redirect visit "/").
Proof.
  intros Hjson Hid Hpw Hconv Hreply Hdata Hrole Hcarry Hpath.
  rewrite (accepted_response request body data id raw backend
             Hjson Hid Hpw Hconv Hreply Hdata Hrole) in Hcarry.
  set (role := if JsString.toLowerCase raw =? "admin" then "Admin" else raw) in *.
  specialize (Hcarry _ (or_introl eq_refl)). cbn [c_name c_value Login.session_cookie] in Hcarry.
  assert (Hne : role <> "").
  { unfold role. destruct (JsString.toLowerCase raw =? "admin"); [discriminate|].
    destruct Hrole; [assumption | discriminate]. }
  assert (Hadm : admin_role (Some role) <-> spells_admin raw).
  { unfold role. split.
    - intros (r & E & Hs). injection E as <-.
      destruct (JsString.toLowerCase raw =? "admin") eqn:El; [|exact Hs].
      apply toLowerCase_admin. now apply String.eqb_eq.
    - intros Hs. eexists. split; [reflexivity|].
      apply toLowerCase_admin in Hs. apply String.eqb_eq in Hs. rewrite Hs.
      exists "A"%char, "d"%char, "m"%char, "i"%char, "n"%char. tauto. }
  assert (Hroot : (pathname visit =? "/") = false).
  { apply String.eqb_neq. intros E. rewrite E in Hpath. discriminate. }
  unfold GateFallback.middleware, GateLogout.middleware, GateFallback.read_role.
  rewrite Hroot, Hpath, Hcarry, !decide_on_role.
  apply role_present_some in Hne. rewrite Hne. cbn iota.
  split; intros Hs.
  - apply Hadm, role_is_admin_spec in Hs. rewrite Hs. split; reflexivity.
  - destruct (role_is_admin (Some role)) eqn:E.
    + apply role_is_admin_spec, Hadm in E. contradiction.
    + split; reflexivity.
Qed.

End LoginFurther.

Lemma accepts_json (data : JsValue) (call : FetchCall) :
  replied_json (Scenario.accepts data call) data.
Proof. exists 200%Z, "application/json; charset=utf-8". repeat split. Qed.

Lemma admin_reply_role : backend_role Scenario.admin_reply "ADMIN".
Proof. apply role_given; [reflexivity | discriminate]. Qed.

Lemma other_login_password :
  Js.prop (Sample.credentials (JStr "654321") (JStr "secret")) "password" <> JUndefined.
Proof. discriminate. Qed.

Lemma accepted_login_issues_role_witness :
  exists role,
    issued_role "ADMIN" role /\
    Js.prop (body_of (fst (run (Scenario.accepts Scenario.admin_reply)
                             (Login.POST Sample.runtime Sample.other_login))))
            "role" = JStr role.
Proof.
  destruct (accepted_login_issues_role Sample.runtime Sample.other_login
              _ Scenario.admin_reply "654321" "ADMIN"
              (Scenario.accepts Scenario.admin_reply)
              eq_refl (NoDup_nil _) eq_refl other_login_password eq_refl
              (accepts_json _ _) eq_refl admin_reply_role)
    as (role & secure & Hissued & _ & _ & _ & Hrole & _).
  exists role. split; [exact Hissued | exact Hrole].
Defined.

Lemma admin_visit_carries :
  carries_cookies (Scenario.admin_visit "Admin")
    (fst (run (Scenario.accepts Scenario.admin_reply)
            (Login.POST Sample.runtime Sample.other_login))).
Proof. intros c [<- | []]. reflexivity. Qed.

Lemma spells_ADMIN : spells_admin "ADMIN".
Proof. exists "A"%char, "D"%char, "M"%char, "I"%char, "N"%char. tauto. Qed.

Lemma login_cookie_opens_admin_gate_witness :
  GateFallback.middleware (Scenario.admin_visit "Admin") = Http.next /\
  GateLogout.middleware (Scenario.admin_visit "Admin") = Http.next.
Proof.
  exact (proj1 (login_cookie_opens_admin_gate Sample.runtime Sample.other_login
                  _ Scenario.admin_reply "654321" "ADMIN"
                  (Scenario.accepts Scenario.admin_reply)
                  (Scenario.admin_visit "Admin")
                  eq_refl eq_refl other_login_password eq_refl
                  (accepts_json _ _) eq_refl
                  admin_reply_role admin_visit_carries eq_refl)
               spells_ADMIN).
Defined.

Section LoginEdges.
Variable rt : Runtime.



(** X8.  A backend reply that is 2xx but not JSON by its content type is
    answered 401 "Authentication failed" without a cookie, whatever the
    credentials [String] converts, the demo pair included. *)
Theorem success_without_json_is_refused
  (request : NextRequest) (body : JsValue) (id : string) (st : Z)
  (contentType : option string) (reply : option JsValue)
  (backend : FetchCall -> FetchResult) :
  json request = inr body ->
  Js.truthy (Js.prop body "doctor_id") = true ->
  Js.prop body "password" <> JUndefined ->
  Conv.ToString rt (Js.prop body "doctor_id") = Some id ->
  backend (Login.login_call rt (JsString.trim id)
             (Login.password_string (Js.prop body "password")))
    = FetchResponse st contentType reply ->
  Http.ok st = true ->
  (contentType = None \/
   exists c, contentType = Some c /\
             JsString.includes c "application/json" = false) ->
  fst (run backend (Login.POST rt request))
    = Http.json_status
        (JObj [("success", JBool false);
               ("error", JStr "Authentication failed")]) 401 /\
  set_cookies (fst (run backend (Login.POST rt request))) = [].
Proof.
  intros Hjson Hid Hpw Hconv Hfetch Hok Hct.
  rewrite (POST_calls rt request body (JsString.trim id) Hjson Hid Hpw)
    by (unfold Login.doctor_id_string; now rewrite Hconv).
  cbn [run fst]. rewrite Hfetch. unfold Login.after_fetch. rewrite Hok.
  destruct Hct as [-> | (c & -> & Hc)]; [|rewrite Hc]; split; reflexivity.
Qed.

(** X9.  A backend reply that is 2xx and JSON but whose body is [null],
    or whose [role] is truthy and not a string, cannot be read: the
    route treats it like a transport failure, so a login that is not the
    demo pair (and whose id [String] converts) is answered 503 without a
    cookie. *)
Theorem unreadable_success_is_unavailable
  (request : NextRequest) (body data : JsValue) (id : string)
  (backend : FetchCall -> FetchResult) :
  json request = inr body ->
  Js.truthy (Js.prop body "doctor_id") = true ->
  Js.prop body "password" <> JUndefined ->
  Conv.ToString rt (Js.prop body "doctor_id") = Some id ->
  ~ demo_pair (JsString.trim id) (Js.prop body "password") ->
  replied_json
    (backend (Login.login_call rt (JsString.trim id)
                (Login.password_string (Js.prop body "password")))) data ->
  (data = JNull \/
   (Js.truthy (Js.prop data "role") = true /\
    forall s, Js.prop data "role" <> JStr s)) ->
  let r := fst (run backend (Login.POST rt request)) in
  status r = 503%Z /\
  body_of r
    = JObj [("success", JBool false);
            ("error",
             JStr "Login service unavailable. Is the backend running on port 8000?")] /\
  set_cookies r = [].
Proof.
  intros Hjson Hid Hpw Hconv Hdemo (st & ct & Hres & Hok & Hct) Hdata r. subst r.
  rewrite (POST_calls rt request body (JsString.trim id) Hjson Hid Hpw)
    by (unfold Login.doctor_id_string; now rewrite Hconv).
  cbn [run fst]. rewrite Hres. unfold Login.after_fetch. rewrite Hct, Hok.
  cbn [andb].
  assert (E : Login.on_accepted request data = None).
  { unfold Login.on_accepted. destruct Hdata as [-> | [Ht Hs]]; [reflexivity|].
    unfold Js.member. destruct (Js.is_nullish data); [reflexivity|].
    unfold Js.or. rewrite Ht.
    destruct (Js.prop data "role") as [| | | |s| |]; try reflexivity.
    now destruct (Hs s). }
  rewrite E. cbn [Login.or_else]. unfold Login.on_fetch_error.
  rewrite (not_demo _ _ Hdemo). repeat split.
Qed.

End LoginEdges.

Lemma other_login_is_not_demo :
  ~ demo_pair (JsString.trim "654321")
      (Js.prop (Sample.credentials (JStr "654321") (JStr "secret")) "password").
Proof. intros [H _]. discriminate H. Qed.


Lemma demo_login_password :
  Js.prop (Sample.credentials (JStr "123456") (JStr "password")) "password"
    <> JUndefined.
Proof. discriminate. Qed.

Lemma success_without_json_is_refused_witness :
  status (fst (run Scenario.html_page (Login.POST Sample.runtime Sample.demo_login)))
    = 401%Z.
Proof.
  refine (f_equal status
            (proj1 (success_without_json_is_refused Sample.runtime Sample.demo_login
                      _ "123456" 200 (Some "text/html") None Scenario.html_page
                      eq_refl eq_refl demo_login_password eq_refl eq_refl eq_refl _))).
  right. exists "text/html". split; reflexivity.
Defined.

Lemma unreadable_success_is_unavailable_witness :
  status (fst (run (Scenario.accepts JNull)
                 (Login.POST Sample.runtime Sample.other_login))) = 503%Z.
Proof.
  refine (proj1 (unreadable_success_is_unavailable Sample.runtime Sample.other_login
                   _ JNull "654321" (Scenario.accepts JNull)
                   eq_refl eq_refl other_login_password eq_refl
                   other_login_is_not_demo (accepts_json _ _) _)).
  now left.
Defined.

(* ================================================================== *)
(** * Further properties of the Resource Proxy *)
(* ================================================================== *)

(** ** Credential forwarding *)

Lemma passthrough_names (name k v : string) (value : option string) :
  In (k, v) (Admin.passthrough name value) -> k = name /\ value = Some v /\ v <> "".
Proof.
  unfold Admin.passthrough. destruct value as [x|]; [|intros []].
  destruct (x =? "") eqn:E; [intros []|].
  intros [H | []]. injection H as <- <-. repeat split.
  now apply String.eqb_neq.
Qed.

(** X10.  The headers sent to the backend are [Content-Type:
    application/json], the request's [Authorization] and its [Cookie],
    each of the two only when the request has it non-empty, with its
    value unchanged; no other header of the request is forwarded. *)
Theorem only_credentials_are_forwarded (request : NextRequest) :
  let sent := Admin.forwardAuthHeaders request in
  Http.assoc "Content-Type" sent = Some "application/json" /\
  (forall k v, In (k, v) sent ->
     (k = "Content-Type" /\ v = "application/json") \/
     (k = "Authorization" /\ Http.header request "authorization" = Some v /\ v <> "") \/
     (k = "Cookie" /\ Http.header request "cookie" = Some v /\ v <> "")) /\
  (forall v, Http.header request "authorization" = Some v -> v <> "" ->
             Http.assoc "Authorization" sent = Some v) /\
  (forall v, Http.header request "cookie" = Some v -> v <> "" ->
             Http.assoc "Cookie" sent = Some v).
Proof.
  intros sent. subst sent. unfold Admin.forwardAuthHeaders.
  split; [reflexivity|]. split; [|split].
  - intros k v Hin. cbn [app] in Hin. destruct Hin as [H | Hin].
    + injection H as <- <-. now left.
    + apply in_app_or in Hin. destruct Hin as [H | H];
        apply passthrough_names in H; destruct H as (-> & Hv & Hne).
      * right; left. auto.
      * right; right. auto.
  - intros v Hv Hne. rewrite Hv. unfold Admin.passthrough.
    apply String.eqb_neq in Hne. rewrite Hne. reflexivity.
  - intros v Hv Hne. rewrite Hv. unfold Admin.passthrough at 2.
    apply String.eqb_neq in Hne. rewrite Hne.
    destruct (Admin.passthrough "Authorization" _) as [|[k a] rest] eqn:E;
      [reflexivity|].
    assert (Hin : In (k, a) (Admin.passthrough "Authorization"
                               (Http.header request "authorization")))
      by (rewrite E; now left).
    apply passthrough_names in Hin. destruct Hin as (-> & _ & _).
    unfold Admin.passthrough in E.
    destruct (Http.header request "authorization") as [x|]; [|discriminate].
    destruct (x =? ""); [discriminate|]. injection E as <- <-. reflexivity.
Qed.

Lemma only_credentials_are_forwarded_witness :
  Http.assoc "Cookie"
    (Admin.forwardAuthHeaders
       (Scenario.with_headers [("cookie", "user_role=Admin"); ("x-debug", "1")]
          Sample.doctors_list))
    = Some "user_role=Admin".
Proof.
  refine (proj2 (proj2 (proj2 (only_credentials_are_forwarded
            (Scenario.with_headers [("cookie", "user_role=Admin"); ("x-debug", "1")]
               Sample.doctors_list)))) "user_role=Admin" eq_refl _).
  discriminate.
Defined.

(** ** Listing *)

Section AdminListing.
Variable rt : Runtime.

Lemma GET_calls (request : NextRequest) (type : string) :
  Http.assoc "type" (searchParams request) = Some type ->
  type <> "" ->
  Admin.GET rt request
    = Await (Admin.list_call rt request type)
            (fun result => Respond (Admin.after_fetch rt type result)).
Proof.
  intros Ht Hne. unfold Admin.GET. rewrite Ht.
  apply String.eqb_neq in Hne. now rewrite Hne.
Qed.

(** X11.  A listing without a [type] parameter, or with an empty one, is
    answered 400 "Type parameter required" and the backend is not
    called. *)
Theorem listing_requires_type
  (request : NextRequest) (backend : FetchCall -> FetchResult) :
  Http.assoc "type" (searchParams request) = None \/
  Http.assoc "type" (searchParams request) = Some "" ->
  run backend (Admin.GET rt request)
    = (Http.json_status (JObj [("error", JStr "Type parameter required")]) 400, []).
Proof.
  intros [H | H]; unfold Admin.GET; rewrite H; reflexivity.
Qed.

(** X12.  A backend reply that is not 2xx, with a status a response can
    carry, is passed on as it is, status and body, for every [type]; a
    body that does not parse is passed on as an empty object.  With a
    status no response can carry (304, or one outside 200..599) the
    answer is the 500 of a failed listing. *)
Theorem listing_passes_backend_errors
  (request : NextRequest) (type : string) (st : Z)
  (contentType : option string) (reply : option JsValue)
  (backend : FetchCall -> FetchResult) :
  Http.assoc "type" (searchParams request) = Some type ->
  type <> "" ->
  backend (Admin.list_call rt request type) = FetchResponse st contentType reply ->
  Http.ok st = false ->
  let r := fst (run backend (Admin.GET rt request)) in
  ((200 <= st <= 599)%Z /\ st <> 304%Z ->
   status r = st /\
   set_cookies r = [] /\
   (forall data, reply = Some data -> body_of r = data) /\
   (reply = None -> body_of r = JObj [])) /\
  (~ ((200 <= st <= 599)%Z /\ st <> 304%Z) ->
   r = Http.json_status
         (JObj [("error",
                 JStr ("Failed to fetch " ++ type ++ "s. Is the backend running at "
                         ++ Conv.api_base rt ++ "?"))])
         500).
Proof.
  intros Ht Hne Hfetch Hok r. subst r.
  rewrite (GET_calls request type Ht Hne). cbn [run fst]. rewrite Hfetch.
  unfold Admin.after_fetch. rewrite Hok. cbn [negb].
  destruct (json_init_spec match reply with Some d => d | None => JObj [] end
              st Hok) as [Hyes Hno].
  split; intros Hst.
  - rewrite (Hyes Hst). repeat split; intros; subst; reflexivity.
  - rewrite (Hno Hst). reflexivity.
Qed.

(** X13.  Only the exact type ["doctor"] lists doctors: every other type
    (["hospital"], but also ["Doctor"] or ["doctors"]) is sent to the
    hospitals collection, and its 2xx body is returned exactly as the
    backend sent it. *)
Theorem other_types_list_hospitals
  (request : NextRequest) (type : string) (st : Z)
  (contentType : option string) (data : JsValue)
  (backend : FetchCall -> FetchResult) :
  Http.assoc "type" (searchParams request) = Some type ->
  type <> "" ->
  type <> "doctor" ->
  backend (Admin.list_call rt request type)
    = FetchResponse st contentType (Some data) ->
  Http.ok st = true ->
  run backend (Admin.GET rt request)
    = (Http.json_ok data,
       [ {| f_url := Conv.api_base rt ++ "/admin/hospitals";
            f_method := "GET";
            f_headers := Admin.forwardAuthHeaders request;
            f_body := None |} ]).
Proof.
  intros Ht Hne Hdoc Hfetch Hok.
  rewrite (GET_calls request type Ht Hne). cbn [run]. rewrite Hfetch.
  unfold Admin.after_fetch, Admin.list_call, Admin.API_BASE. rewrite Hok.
  apply String.eqb_neq in Hdoc. rewrite Hdoc. reflexivity.
Qed.

(** X14.  A listing the route cannot complete is answered 500 with a
    message that names the type and the backend address: when the call
    breaks, and when a doctors list holds a [null] entry. *)
Theorem listing_failure_is_reported
  (request : NextRequest) (type : string) (backend : FetchCall -> FetchResult) :
  Http.assoc "type" (searchParams request) = Some type ->
  type <> "" ->
  backend (Admin.list_call rt request type) = FetchRejects \/
  (type = "doctor" /\
   exists st contentType items,
     backend (Admin.list_call rt request type)
       = FetchResponse st contentType (Some (JArr items)) /\
     Http.ok st = true /\ In JNull items) ->
  fst (run backend (Admin.GET rt request))
    = Http.json_status
        (JObj [("error",
                JStr ("Failed to fetch " ++ type ++ "s. Is the backend running at "
                        ++ Conv.api_base rt ++ "?"))])
        500.
Proof.
  intros Ht Hne Hfail.
  rewrite (GET_calls request type Ht Hne). cbn [run fst].
  destruct Hfail as [-> | (-> & st & ct & items & -> & Hok & Hin)];
    [reflexivity|].
  unfold Admin.after_fetch. rewrite Hok.
  change ("doctor" =? "doctor")%string with true. cbn [negb].
  assert (E : Admin.map_normalize items = None).
  { induction items as [|d items IH]; [destruct Hin|].
    cbn [Admin.map_normalize]. destruct Hin as [-> | Hin]; [reflexivity|].
    rewrite (IH Hin). now destruct (Admin.normalize_doctor d). }
  rewrite E. reflexivity.
Qed.

End AdminListing.

Lemma listing_requires_type_witness :
  run Sample.unreachable
    (Admin.GET Sample.runtime (Sample.request "/api/admin" (inl "")))
    = (Http.json_status (JObj [("error", JStr "Type parameter required")]) 400, []).
Proof.
  apply (listing_requires_type Sample.runtime). now left.
Defined.

Lemma doctors_type : "doctors" <> "".
Proof. discriminate. Qed.

Lemma listing_passes_backend_errors_witness :
  status (fst (run (Scenario.rejects 403 (JObj [("detail", JStr "Forbidden")]))
                 (Admin.GET Sample.runtime Sample.doctors_list))) = 403%Z.
Proof.
  assert (Hne : "doctor" <> "") by discriminate.
  refine (proj1 (proj1 (listing_passes_backend_errors Sample.runtime
                          Sample.doctors_list
                          "doctor" 403 (Some "application/json")
                          (Some (JObj [("detail", JStr "Forbidden")]))
                          (Scenario.rejects 403 (JObj [("detail", JStr "Forbidden")]))
                          eq_refl Hne eq_refl eq_refl) _)).
  lia.
Defined.

Lemma other_types_list_hospitals_witness :
  fst (run (Sample.replies (JArr [Sample.doctor_with_id]))
         (Admin.GET Sample.runtime (Scenario.list_of "Doctor")))
    = Http.json_ok (JArr [Sample.doctor_with_id]).
Proof.
  assert (Hne : "Doctor" <> "") by discriminate.
  assert (Hdoc : "Doctor" <> "doctor") by discriminate.
  exact (f_equal fst
           (other_types_list_hospitals Sample.runtime (Scenario.list_of "Doctor")
              "Doctor" 200 (Some "application/json") (JArr [Sample.doctor_with_id])
              (Sample.replies (JArr [Sample.doctor_with_id]))
              eq_refl Hne Hdoc eq_refl eq_refl)).
Defined.

Lemma listing_failure_is_reported_witness :
  status (fst (run (Sample.replies (JArr [Sample.doctor_with_id; JNull]))
                 (Admin.GET Sample.runtime Sample.doctors_list))) = 500%Z.
Proof.
  assert (Hne : "doctor" <> "") by discriminate.
  refine (f_equal status
            (listing_failure_is_reported Sample.runtime Sample.doctors_list "doctor"
               (Sample.replies (JArr [Sample.doctor_with_id; JNull]))
               eq_refl Hne _)).
  right. split; [reflexivity|].
  exists 200%Z, (Some "application/json"), [Sample.doctor_with_id; JNull].
  repeat split. right. now left.
Defined.

(** ** Normalization, again *)

Lemma define_present (k : string) (v : JsValue) (props : list (string * JsValue)) :
  Js.lookup k props = Some v -> Js.define k v props = props.
Proof.
  induction props as [|[k' v'] rest IH]; [discriminate|].
  cbn [Js.lookup Js.define]. destruct (k' =? k) eqn:E.
  - intros H. injection H as ->. apply String.eqb_eq in E. now subst.
  - intros H. now rewrite (IH H).
Qed.

Lemma define_keys (k : string) (v : JsValue) (props : list (string * JsValue)) :
  map fst (Js.define k v props)
    = (map fst props
        ++ match Js.lookup k props with Some _ => [] | None => [k] end)%list.
Proof.
  induction props as [|[k' v'] rest IH]; [reflexivity|].
  cbn [Js.lookup Js.define]. destruct (k' =? k) eqn:E.
  - apply String.eqb_eq in E. subst. cbn [map fst]. now rewrite app_nil_r.
  - cbn [map fst app]. now rewrite IH.
Qed.

Lemma coalesce_twice (a b : JsValue) :
  Js.coalesce (Js.coalesce a b) b = Js.coalesce a b.
Proof. destruct a; try reflexivity; destruct b; reflexivity. Qed.

(** X15.  Normalizing a doctor record a second time changes nothing, and
    the first time it keeps every key of the backend's record in place:
    at most [doctor_id] and [id] are appended. *)
Theorem normalization_is_stable (d d' : JsValue) :
  Admin.normalize_doctor d = Some d' ->
  Admin.normalize_doctor d' = Some d' /\
  exists added,
    keys_of d' = (map fst (Js.spread d) ++ added)%list /\
    incl added ["doctor_id"; "id"].
Proof.
  unfold Admin.normalize_doctor, Js.member.
  destruct (Js.is_nullish d) eqn:Hd; [discriminate|].
  assert (Hsame : forall x : JsValue, (if Js.is_string x then x else x) = x)
    by (intros x; now destruct (Js.is_string x)).
  rewrite !Hsame. intros H. injection H as <-.
  set (i := Js.prop d "id").
  set (c := Js.coalesce (Js.prop d "doctor_id") i).
  set (props' := Js.define "id" i (Js.define "doctor_id" c (Js.spread d))).
  assert (Hid : Js.lookup "id" props' = Some i)
    by apply lookup_define_same.
  assert (Hdid : Js.lookup "doctor_id" props' = Some c).
  { unfold props'. rewrite lookup_define_other by discriminate.
    apply lookup_define_same. }
  split.
  - cbn [Js.is_nullish Js.prop Js.spread]. rewrite Hid, Hdid, Hsame.
    unfold c at 1. rewrite coalesce_twice. fold c.
    rewrite (define_present "doctor_id" c props' Hdid).
    now rewrite (define_present "id" i props' Hid).
  - cbn [keys_of]. unfold props'. rewrite !define_keys, <- app_assoc.
    eexists. split; [reflexivity|].
    intros k Hk. apply in_app_or in Hk. cbn [In].
    destruct Hk as [Hk | Hk]; revert Hk.
    + destruct (Js.lookup "doctor_id" (Js.spread d)); cbn [In]; intros Hk;
        [destruct Hk|].
      destruct Hk as [<- | []]. now left.
    + destruct (Js.lookup "id" (Js.define "doctor_id" c (Js.spread d)));
        cbn [In]; intros Hk; [destruct Hk|].
      destruct Hk as [<- | []]. right; now left.
Qed.

Lemma normalization_is_stable_witness :
  Admin.normalize_doctor
    (JObj [("id", JNum 5); ("name", JStr "A"); ("doctor_id", JNum 5)])
    = Some (JObj [("id", JNum 5); ("name", JStr "A"); ("doctor_id", JNum 5)]).
Proof.
  exact (proj1 (normalization_is_stable Sample.doctor_with_id _ eq_refl)).
Defined.

(** ** Creating and updating *)

Lemma omit_lookup (keys : list string) (k : string) (props : list (string * JsValue)) :
  Js.lookup k (Js.omit keys props)
    = if existsb (String.eqb k) keys then None else Js.lookup k props.
Proof.
  induction props as [|[k' v'] rest IH].
  - cbn. now destruct (existsb _ keys).
  - cbn [Js.omit Js.lookup].
    destruct (k' =? k) eqn:E.
    + apply String.eqb_eq in E. subst k'.
      destruct (existsb (String.eqb k) keys) eqn:Hk; [exact IH|].
      cbn [Js.lookup]. now rewrite String.eqb_refl.
    + destruct (existsb (String.eqb k') keys); [exact IH|].
      cbn [Js.lookup]. rewrite E. exact IH.
Qed.


Section AdminWriting.
Variable rt : Runtime.


(** X17.  The answer to a creation is the backend's body: with status
    200 for every 2xx status (a 201 becomes 200), and with the backend's
    status when that is not 2xx and a response can carry it.  A call
    that breaks, a reply that does not parse, or a status no response
    can carry (304, or one outside 200..599) is answered 500 "Failed to
    create resource". *)
Theorem create_relays_backend
  (request : NextRequest) (props : list (string * JsValue)) (type : JsValue)
  (backend : FetchCall -> FetchResult) :
  json request = inr (JObj props) ->
  Js.lookup "type" props = Some type ->
  Js.truthy type = true ->
  let result :=
    backend (Admin.create_call rt request type (JObj (Js.omit ["type"] props))) in
  let r := fst (run backend (Admin.POST rt request)) in
  let failed :=
    Http.json_status (JObj [("error", JStr "Failed to create resource")]) 500 in
  (forall st contentType data,
     result = FetchResponse st contentType (Some data) ->
     (Http.ok st = true -> status r = 200%Z /\ body_of r = data) /\
     (Http.ok st = false -> (200 <= st <= 599)%Z /\ st <> 304%Z ->
      status r = st /\ body_of r = data) /\
     (Http.ok st = false -> ~ ((200 <= st <= 599)%Z /\ st <> 304%Z) ->
      r = failed)) /\
  (result = FetchRejects \/
   (exists st contentType, result = FetchResponse st contentType None) ->
   r = failed).
Proof.
  intros Hjson Htype Htruthy result r failed. subst result r failed.
  unfold Admin.POST. rewrite Hjson.
  cbn [Js.is_nullish Js.prop Js.spread]. rewrite Htype, Htruthy. cbn [negb run fst].
  split.
  - intros st ct data ->. cbn [Admin.relay].
    split; [|split].
    + intros Hok. rewrite Hok. split; reflexivity.
    + intros Hok Hst. rewrite Hok. cbn [negb].
      rewrite (proj1 (json_init_spec data st Hok) Hst). split; reflexivity.
    + intros Hok Hst. rewrite Hok. cbn [negb].
      now rewrite (proj2 (json_init_spec data st Hok) Hst).
  - intros [-> | (st & ct & ->)]; reflexivity.
Qed.

(** X18.  An update goes to [/admin/doctors/<key>] whatever the [type]:
    the key is the request's [id] when it has one that is not [null],
    and its [doctorId] otherwise, converted to a string; [type], [id]
    and [doctorId] are left out of the forwarded body, every other field
    is kept.  When the key cannot be converted to a string, the answer
    is 500 "Failed to update resource" and the backend is not called. *)
Theorem update_targets_one_doctor
  (request : NextRequest) (props : list (string * JsValue)) (type : JsValue)
  (backend : FetchCall -> FetchResult) :
  json request = inr (JObj props) ->
  Js.lookup "type" props = Some type ->
  Js.truthy type = true ->
  let id := Js.prop (JObj props) "id" in
  let doctorId := Js.prop (JObj props) "doctorId" in
  let key := if Js.is_nullish id then doctorId else id in
  (Js.is_nullish id = true -> Js.truthy doctorId = true) ->
  (forall target,
     Conv.ToString rt key = Some target ->
     (Js.is_nullish id = false -> target <> "") ->
     exists data,
       snd (run backend (Admin.PUT rt request))
         = [ {| f_url := Conv.api_base rt ++ "/admin/doctors/" ++ target;
                f_method := "PUT";
                f_headers := Admin.forwardAuthHeaders request;
                f_body := Some (JObj data) |} ] /\
       (forall k, In k ["type"; "doctorId"; "id"] -> Js.lookup k data = None) /\
       (forall k, ~ In k ["type"; "doctorId"; "id"] ->
                  Js.lookup k data = Js.lookup k props)) /\
  (Conv.ToString rt key = None ->
   run backend (Admin.PUT rt request)
     = (Http.json_status (JObj [("error", JStr "Failed to update resource")]) 500,
        [])).
Proof.
  intros Hjson Htype Htruthy id doctorId key Hdoc.
  unfold Admin.PUT. rewrite Hjson.
  cbn [Js.is_nullish Js.spread].
  change (Js.prop (JObj props) "type") with
    (match Js.lookup "type" props with Some x => x | None => JUndefined end).
  rewrite Htype, Htruthy. cbn [negb]. fold id doctorId.
  unfold Admin.pathId, Admin.update_url, Admin.API_BASE. subst key.
  split.
  - intros target Hconv Hne.
    assert (Hcall :
      match (if Js.is_nullish id then Some doctorId
             else option_map JStr (Conv.ToString rt id)) with
      | Some path_id =>
          if negb (Js.truthy path_id)
          then Respond (Admin.bad_request "id or doctorId required")
          else
            match option_map (fun s => Conv.api_base rt ++ "/admin/doctors/" ++ s)
                    (Conv.ToString rt path_id) with
            | Some url =>
                Await (Admin.update_call request url
                         (JObj (Js.omit ["type"; "doctorId"; "id"] props)))
                      (fun result => Respond (Admin.relay Admin.update_failed result))
            | None => Respond Admin.update_failed
            end
      | None => Respond Admin.update_failed
      end
      = Await (Admin.update_call request
                 (Conv.api_base rt ++ "/admin/doctors/" ++ target)
                 (JObj (Js.omit ["type"; "doctorId"; "id"] props)))
              (fun result => Respond (Admin.relay Admin.update_failed result))).
    { destruct (Js.is_nullish id) eqn:Hnull.
      - rewrite (Hdoc eq_refl), Hconv. reflexivity.
      - rewrite Hconv. cbn [option_map Js.truthy Conv.ToString].
        specialize (Hne eq_refl). apply String.eqb_neq in Hne. now rewrite Hne. }
    rewrite Hcall. cbn [run snd].
    exists (Js.omit ["type"; "doctorId"; "id"] props). split; [reflexivity|]. split.
    + intros k Hk. rewrite omit_lookup.
      assert (E : existsb (String.eqb k) ["type"; "doctorId"; "id"] = true).
      { apply existsb_exists. exists k. split; [exact Hk | apply String.eqb_refl]. }
      now rewrite E.
    + intros k Hk. rewrite omit_lookup.
      destruct (existsb (String.eqb k) ["type"; "doctorId"; "id"]) eqn:E;
        [|reflexivity].
      apply existsb_exists in E. destruct E as (k' & Hin & Heq).
      apply String.eqb_eq in Heq. subst k'. contradiction.
  - intros Hconv. destruct (Js.is_nullish id) eqn:Hnull.
    + rewrite (Hdoc eq_refl), Hconv. reflexivity.
    + rewrite Hconv. reflexivity.
Qed.


End AdminWriting.

Lemma new_doctor_type : Js.lookup "type"
  [("type", JStr "doctor"); ("name", JStr "A"); ("doctor_id", JStr "123456")]
  = Some (JStr "doctor").
Proof. reflexivity. Qed.


Lemma create_relays_backend_witness :
  status (fst (run (fun _ => FetchResponse 201 (Some "application/json")
                               (Some (JObj [("id", JNum 7)])))
                 (Admin.POST Sample.runtime
                    (Scenario.admin_write Scenario.new_doctor)))) = 200%Z.
Proof.
  destruct (proj1 (create_relays_backend Sample.runtime
                     (Scenario.admin_write Scenario.new_doctor) _ (JStr "doctor")
                     (fun _ => FetchResponse 201 (Some "application/json")
                                 (Some (JObj [("id", JNum 7)])))
                     eq_refl new_doctor_type eq_refl)
              201%Z (Some "application/json") (JObj [("id", JNum 7)]) eq_refl)
    as (Hok & _).
  exact (proj1 (Hok eq_refl)).
Defined.

Lemma update_targets_one_doctor_witness :
  exists data,
    snd (run Sample.unreachable
           (Admin.PUT Sample.runtime (Scenario.admin_write Scenario.suspend_doctor)))
      = [ {| f_url := "http://127.0.0.1:8000/admin/doctors/5";
             f_method := "PUT";
             f_headers := [("Content-Type", "application/json")];
             f_body := Some (JObj data) |} ].
Proof.
  assert (Hdoc : Js.is_nullish (JStr "5") = true -> Js.truthy (JStr "123456") = true)
    by reflexivity.
  assert (Hpath : Js.is_nullish (JStr "5") = false -> "5" <> "") by discriminate.
  destruct (proj1 (update_targets_one_doctor Sample.runtime
                     (Scenario.admin_write Scenario.suspend_doctor) _ (JStr "doctor")
                     Sample.unreachable eq_refl eq_refl eq_refl Hdoc)
              "5" eq_refl Hpath)
    as (data & Hcalls & _).
  exists data. exact Hcalls.
Defined.


(* ================================================================== *)
(** * Further properties of the statistics and prediction routes *)
(* ================================================================== *)

Lemma lookup_In (k : string) (v : JsValue) (props : list (string * JsValue)) :
  Js.lookup k props = Some v -> exists k', In (k', v) props.
Proof.
  induction props as [|[k' v'] rest IH]; [discriminate|].
  cbn [Js.lookup]. destruct (k' =? k).
  - intros H. injection H as ->. exists k'. now left.
  - intros H. destruct (IH H) as [k'' Hin]. exists k''. now right.
Qed.

Lemma or_truthy_or_default (x d : JsValue) :
  Js.truthy (Js.or x d) = true \/ Js.or x d = d.
Proof. unfold Js.or. destruct (Js.truthy x) eqn:E; [now left | now right]. Qed.

Lemma or_defined (x d : JsValue) :
  Js.is_undefined d = false -> Js.is_undefined (Js.or x d) = false.
Proof.
  intros Hd. unfold Js.or. destruct (Js.truthy x) eqn:E; [|exact Hd].
  now destruct x.
Qed.

(** What a client reads of an object none of whose values is
    [undefined]: every key, in order, with the value as it is read. *)
Lemma wire_defined_props (props : list (string * JsValue)) :
  (forall k v, In (k, v) props -> Js.is_undefined v = false) ->
  Js.wire (JObj props)
    = JObj (map (fun kv => (fst kv, Js.wire (snd kv))) props).
Proof.
  intros H. cbn [Js.wire]. f_equal.
  induction props as [|[k v] rest IH]; [reflexivity|].
  rewrite (H k v (or_introl eq_refl)). cbn [map fst snd]. f_equal.
  apply IH. intros k' v' Hin. apply (H k' v'). now right.
Qed.

Lemma lookup_map_wire (k : string) (props : list (string * JsValue)) :
  Js.lookup k (map (fun kv => (fst kv, Js.wire (snd kv))) props)
    = option_map Js.wire (Js.lookup k props).
Proof.
  induction props as [|[k' v] rest IH]; [reflexivity|].
  cbn [map fst snd Js.lookup]. destruct (k' =? k); [reflexivity | exact IH].
Qed.

Lemma lookup_In_key (k : string) (v : JsValue) (props : list (string * JsValue)) :
  Js.lookup k props = Some v -> In (k, v) props.
Proof.
  induction props as [|[k' v'] rest IH]; [discriminate|].
  cbn [Js.lookup]. destruct (String.eqb_spec k' k) as [-> |].
  - intros H. injection H as ->. now left.
  - intros H. right. now apply IH.
Qed.

(** A value that is truthy or 0 is read as it is, unless it is a number
    that is not finite, which is read as [null]. *)
Lemma wire_of_truthy_or_zero (v : JsValue) :
  Js.truthy v = true \/ v = JNum 0 ->
  Js.truthy (Js.wire v) = true \/ Js.wire v = JNum 0 \/
  (Js.wire v = JNull /\ exists x, v = JNum x /\ Js.is_finite x = false).
Proof.
  intros [H | ->]; [|right; now left].
  destruct v as [| |b|x|s|items|props]; try discriminate H.
  - now left.
  - cbn [Js.wire]. destruct (Js.is_finite x) eqn:E; [now left|].
    right; right. split; [reflexivity|]. now exists x.
  - now left.
  - now left.
  - now left.
Qed.

Section Statistics.
Variable rt : Runtime.

Lemma stats_values (backend : FetchCall -> FetchResult) :
  exists props,
    fst (run backend (DashboardStats.GET rt)) = Http.json_ok (JObj props) /\
    map fst props
      = ["checksThisWeek"; "resistantCount"; "notResistantCount";
         "topAntibiotics"; "averageAge"] /\
    forall k v, In (k, v) props -> Js.truthy v = true \/ v = JNum 0.
Proof.
  cbn [DashboardStats.GET run fst].
  set (result := backend (DashboardStats.stats_call rt)). clearbody result.
  assert (Hmock : exists props,
    Http.json_ok DashboardStats.mock_stats = Http.json_ok (JObj props) /\
    map fst props
      = ["checksThisWeek"; "resistantCount"; "notResistantCount";
         "topAntibiotics"; "averageAge"] /\
    forall k v, In (k, v) props -> Js.truthy v = true \/ v = JNum 0).
  { eexists. split; [reflexivity|]. split; [reflexivity|].
    intros k v H. cbn [In] in H. left.
    destruct H as [H | [H | [H | [H | [H | []]]]]];
      injection H as _ <-; reflexivity. }
  assert (Hstats : forall data, exists props,
    Http.json_ok (DashboardStats.stats_of data) = Http.json_ok (JObj props) /\
    map fst props
      = ["checksThisWeek"; "resistantCount"; "notResistantCount";
         "topAntibiotics"; "averageAge"] /\
    forall k v, In (k, v) props -> Js.truthy v = true \/ v = JNum 0).
  { intros data. eexists. split; [reflexivity|]. split; [reflexivity|].
    intros k v H. cbn [In] in H.
    destruct H as [H | [H | [H | [H | [H | []]]]]];
      injection H as _ <-;
      try apply or_truthy_or_default.
    left. unfold Js.or.
    destruct (Js.truthy (Js.prop data "top_antibiotics")) eqn:E;
      [exact E | reflexivity]. }
  unfold DashboardStats.after_fetch.
  destruct result as [|st ct [data|]];
    [ | destruct (Http.ok st); cbn [negb];
        [destruct (Js.is_nullish data)|] | destruct (Http.ok st) ];
    try exact Hmock.
  exact (Hstats data).
Qed.

(** X20.  The statistics route always answers: whatever the backend
    does there is exactly one [GET] to [/dashboard-stats], and the
    response is 200 without cookies, with the five keys in their order,
    each value being truthy or the number 0.  The client reads all five
    keys, each value truthy, 0, or [null], and [null] only where the
    backend gave a number that is not finite. *)
Theorem statistics_are_always_answered (backend : FetchCall -> FetchResult) :
  let outcome := run backend (DashboardStats.GET rt) in
  let answer := body_of (fst outcome) in
  let read := Js.wire answer in
  snd outcome
    = [ {| f_url := Conv.api_base rt ++ "/dashboard-stats";
           f_method := "GET";
           f_headers := [("Content-Type", "application/json")];
           f_body := None |} ] /\
  status (fst outcome) = 200%Z /\
  set_cookies (fst outcome) = [] /\
  keys_of answer
    = ["checksThisWeek"; "resistantCount"; "notResistantCount";
       "topAntibiotics"; "averageAge"] /\
  keys_of read = keys_of answer /\
  (forall k v,
     Js.lookup k (Js.spread answer) = Some v ->
     Js.truthy v = true \/ v = JNum 0) /\
  (forall k w,
     Js.lookup k (Js.spread read) = Some w ->
     Js.truthy w = true \/ w = JNum 0 \/
     (w = JNull /\ exists x, Js.prop answer k = JNum x /\ Js.is_finite x = false)).
Proof.
  intros outcome answer read. subst read answer outcome.
  split; [reflexivity|].
  destruct (stats_values backend) as (props & -> & Hkeys & Hvalues).
  cbn [fst body_of Http.json_ok Http.json_status kind status set_cookies keys_of
       Js.spread].
  split; [reflexivity|]. split; [reflexivity|]. split; [exact Hkeys|].
  assert (Hdef : forall k v, In (k, v) props -> Js.is_undefined v = false).
  { intros k v Hin. destruct (Hvalues k v Hin) as [H | ->]; [|reflexivity].
    now destruct v. }
  rewrite (wire_defined_props props Hdef). cbn [keys_of Js.spread].
  split; [|split].
  - rewrite map_map. cbn [fst]. reflexivity.
  - intros k v H. apply (Hvalues k v). now apply lookup_In_key.
  - intros k w H. rewrite lookup_map_wire in H.
    destruct (Js.lookup k props) as [v|] eqn:E; [|discriminate].
    cbn [option_map] in H. injection H as <-.
    pose proof (Hvalues k v (lookup_In_key _ _ _ E)) as Hv.
    destruct (wire_of_truthy_or_zero v Hv) as [H | [H | (H & x & -> & Hx)]];
      [now left | right; now left |].
    right; right. split; [exact H|]. exists x. cbn [Js.prop]. now rewrite E.
Qed.

(** X21.  When the backend call breaks, the reply is not 2xx, its body
    does not parse, or it parses to [null], the statistics route answers
    with the built-in sample data. *)
Theorem statistics_fall_back_to_sample (backend : FetchCall -> FetchResult) :
  let result := backend (DashboardStats.stats_call rt) in
  backend_failed result \/
  (exists st contentType, result = FetchResponse st contentType None) \/
  (exists st contentType, result = FetchResponse st contentType (Some JNull)) ->
  fst (run backend (DashboardStats.GET rt))
    = Http.json_ok
        (JObj [("checksThisWeek", JNum 145);
               ("resistantCount", JNum 58);
               ("notResistantCount", JNum 87);
               ("topAntibiotics",
                JArr [JObj [("name", JStr "Amoxicillin"); ("count", JNum 45)];
                      JObj [("name", JStr "Ciprofloxacin"); ("count", JNum 38)];
                      JObj [("name", JStr "Vancomycin"); ("count", JNum 32)]]);
               ("averageAge", JNum 52.3)]).
Proof.
  intros result H. subst result. cbn [DashboardStats.GET run fst].
  unfold DashboardStats.after_fetch.
  destruct H as [[-> | (st & ct & body & -> & Hok)]
                | [(st & ct & ->) | (st & ct & ->)]].
  - reflexivity.
  - rewrite Hok. reflexivity.
  - destruct (Http.ok st); reflexivity.
  - destruct (Http.ok st); reflexivity.
Qed.

(** X22.  The prediction route answers 500 with the parser's message,
    without calling the backend, when the request body does not parse.
    Every other request leads to exactly one [POST] to [/predict] that
    carries the request body unchanged, and sets no cookie.  Its answer
    is 200 with an object whose [resistant] is the number 0 or 1, which
    the client reads as such, or else, when the backend gave no usable
    prediction and the request's [age] or [duration_days] cannot be
    converted to a number, 500 with the message of that error. *)
Theorem prediction_route_discipline
  (random : float) (request : NextRequest) (backend : FetchCall -> FetchResult) :
  let outcome := run backend (Predict.POST rt random request) in
  let r := fst outcome in
  match json request with
  | inl message =>
      outcome = (Http.json_status (JObj [("error", JStr message)]) 500, [])
  | inr body =>
      snd outcome
        = [ {| f_url := Conv.api_base rt ++ "/predict";
               f_method := "POST";
               f_headers := [("Content-Type", "application/json")];
               f_body := Some body |} ] /\
      set_cookies r = [] /\
      ((status r = 200%Z /\
        (Js.prop (body_of r) "resistant" = JNum 0 \/
         Js.prop (body_of r) "resistant" = JNum 1) /\
        Js.prop (Js.wire (body_of r)) "resistant" = Js.prop (body_of r) "resistant") \/
       (r = Http.json_status (JObj [("error", JStr (ToPrimitiveError rt))]) 500 /\
        (Conv.ToNumber rt (Js.opt_member body "age") = None \/
         Conv.ToNumber rt (Js.opt_member body "duration_days") = None) /\
        forall data, ~ replied_json (backend (Predict.predict_call rt body)) data))
  end.
Proof.
  intros outcome r. subst r outcome. unfold Predict.POST.
  destruct (json request) as [message|body]; [reflexivity|].
  cbn [run fst snd]. split; [reflexivity|].
  set (result := backend (Predict.predict_call rt body)).
  assert (Hshape : forall x p,
    x = 0%float \/ x = 1%float ->
    let resp := Http.json_ok (Predict.prediction x p) in
    set_cookies resp = [] /\
    status resp = 200%Z /\
    (Js.prop (body_of resp) "resistant" = JNum 0 \/
     Js.prop (body_of resp) "resistant" = JNum 1) /\
    Js.prop (Js.wire (body_of resp)) "resistant" = Js.prop (body_of resp) "resistant").
  { intros x p Hx resp. subst resp. split; [reflexivity|]. split; [reflexivity|].
    split.
    - cbn. destruct Hx as [-> | ->]; [now left | now right].
    - cbn [body_of Http.json_ok Http.json_status kind].
      assert (Hx' : x = 1%float \/ x = 0%float) by tauto.
      now rewrite (proj1 (wire_prediction x p Hx')). }
  assert (Hnorm : forall data,
    let resp := Http.json_ok (Predict.normalizePrediction data) in
    set_cookies resp = [] /\
    status resp = 200%Z /\
    (Js.prop (body_of resp) "resistant" = JNum 0 \/
     Js.prop (body_of resp) "resistant" = JNum 1) /\
    Js.prop (Js.wire (body_of resp)) "resistant" = Js.prop (body_of resp) "resistant").
  { intros data. unfold Predict.normalizePrediction.
    destruct (_ && _); apply Hshape; [|now left].
    destruct (Js.prop data "resistant") as [| |[]|x| | |];
      try (now left); try (now right).
    destruct (x =? 1)%float; [now right | now left]. }
  assert (Hmock :
    (forall data, ~ replied_json result data) ->
    let resp := Predict.mock_response rt random body in
    set_cookies resp = [] /\
    ((status resp = 200%Z /\
      (Js.prop (body_of resp) "resistant" = JNum 0 \/
       Js.prop (body_of resp) "resistant" = JNum 1) /\
      Js.prop (Js.wire (body_of resp)) "resistant"
        = Js.prop (body_of resp) "resistant") \/
     (resp = Http.json_status (JObj [("error", JStr (ToPrimitiveError rt))]) 500 /\
      (Conv.ToNumber rt (Js.opt_member body "age") = None \/
       Conv.ToNumber rt (Js.opt_member body "duration_days") = None) /\
      forall data, ~ replied_json result data))).
  { intros Hno resp. subst resp.
    unfold Predict.mock_response, Predict.mockPrediction,
      Predict.mock_age, Predict.mock_duration.
    destruct (Conv.ToNumber rt (Js.opt_member body "age")) as [a|];
      cbn [option_map].
    - destruct (Conv.ToNumber rt (Js.opt_member body "duration_days")) as [d|];
        cbn [option_map].
      + assert (Hx : (if (0.5 <? Predict.score (Predict.or_zero a)
                                   (Predict.or_zero d))%float
                      then 1%float else 0%float) = 0%float \/
                     (if (0.5 <? Predict.score (Predict.or_zero a)
                                   (Predict.or_zero d))%float
                      then 1%float else 0%float) = 1%float)
          by (destruct (_ <? _)%float; [now right | now left]).
        destruct (Hshape _ (JNum (0.7 + random * 0.25)%float) Hx)
          as (Hc & Hrest).
        split; [exact Hc | left; exact Hrest].
      + split; [reflexivity|]. right. split; [reflexivity|].
        split; [now right | exact Hno].
    - split; [reflexivity|]. right. split; [reflexivity|].
      split; [now left | exact Hno]. }
  unfold Predict.after_fetch. fold result.
  destruct result as [|st ct reply] eqn:Hres.
  - apply Hmock. intros data (? & ? & E & _). discriminate E.
  - destruct (Http.ok st) eqn:Hok; cbn [andb negb orb].
    + destruct ct as [c|].
      * destruct (JsString.includes c "application/json") eqn:Hc.
        -- destruct reply as [data|].
           ++ destruct (Hnorm data) as (Hcook & Hrest).
              split; [exact Hcook | left; exact Hrest].
           ++ apply Hmock.
              intros data (? & ? & E & _). discriminate E.
        -- apply Hmock.
           intros data (? & c' & E & _ & Hc'). injection E as _ <- _. congruence.
      * apply Hmock.
        intros data (? & ? & E & _). discriminate E.
    + apply Hmock.
      intros data (st' & ? & E & Hok' & _). injection E as <- _ _. congruence.
Qed.

End Statistics.

(** X23.  Normalizing a prediction that is already normalized changes
    nothing. *)
Theorem normalization_of_prediction_is_idempotent (data : JsValue) :
  Predict.normalizePrediction (Predict.normalizePrediction data)
    = Predict.normalizePrediction data.
Proof.
  assert (H : forall r p,
    (r = 0%float \/ r = 1%float) ->
    (Js.is_number p = true \/ p = JUndefined) ->
    Predict.normalizePrediction (Predict.prediction r p) = Predict.prediction r p).
  { intros r p Hr Hp. unfold Predict.normalizePrediction, Predict.prediction.
    cbn [Js.truthy Js.typeof_object Js.has Js.prop Js.lookup andb].
    cbn.
    destruct Hr as [-> | ->], Hp as [Hp | ->]; cbn; try rewrite Hp; reflexivity. }
  unfold Predict.normalizePrediction at 2 3.
  destruct (_ && _); [|apply H; [now left | now right]].
  apply H.
  - destruct (Js.prop data "resistant") as [| |[]|x| | |];
      try (now left); try (now right).
    destruct (x =? 1)%float; [now right | now left].
  - destruct (Js.is_number (Js.prop data "probability")) eqn:E1; [now left|].
    destruct (Js.is_number (Js.prop data "confidence")) eqn:E2; [now left|].
    now right.
Qed.

(** X24.  In the mock prediction the verdict does not depend on the
    random draw and the probability does not depend on the patient; a
    request body without [age] and [duration_days] (or a [null] body)
    gets the verdict 0.  Whether the mock throws does not depend on the
    draw either. *)
Theorem mock_verdict_ignores_draw
  (rt : Runtime) (draw draw' : float) (body body' : JsValue) :
  option_map (fun mock => Js.prop mock "resistant")
             (Predict.mockPrediction rt draw body)
    = option_map (fun mock => Js.prop mock "resistant")
                 (Predict.mockPrediction rt draw' body) /\
  (forall mock mock',
     Predict.mockPrediction rt draw body = Some mock ->
     Predict.mockPrediction rt draw body' = Some mock' ->
     Js.prop mock "probability" = Js.prop mock' "probability") /\
  (Js.opt_member body "age" = JUndefined ->
   Js.opt_member body "duration_days" = JUndefined ->
   exists mock,
     Predict.mockPrediction rt draw body = Some mock /\
     Js.prop mock "resistant" = JNum 0).
Proof.
  unfold Predict.mockPrediction.
  split; [|split].
  - destruct (Predict.mock_age rt body); [|reflexivity].
    destruct (Predict.mock_duration rt body); reflexivity.
  - intros mock mock'.
    destruct (Predict.mock_age rt body); [|discriminate].
    destruct (Predict.mock_duration rt body); [|discriminate].
    destruct (Predict.mock_age rt body'); [|discriminate].
    destruct (Predict.mock_duration rt body'); [|discriminate].
    intros H H'. injection H as <-. injection H' as <-. reflexivity.
  - intros Hage Hduration.
    unfold Predict.mock_age, Predict.mock_duration.
    rewrite Hage, Hduration. eexists. split; reflexivity.
Qed.

Lemma statistics_fall_back_to_sample_witness :
  body_of (fst (run Sample.unreachable (DashboardStats.GET Sample.runtime)))
    = DashboardStats.mock_stats.
Proof.
  rewrite (statistics_fall_back_to_sample Sample.runtime Sample.unreachable).
  - reflexivity.
  - left. now left.
Defined.

Lemma mock_verdict_ignores_draw_witness :
  exists mock,
    Predict.mockPrediction Sample.runtime Sample.top_draw JNull = Some mock /\
    Js.prop mock "resistant" = JNum 0.
Proof.
  exact (proj2 (proj2 (mock_verdict_ignores_draw Sample.runtime Sample.top_draw
                         Sample.top_draw JNull JNull)) eq_refl eq_refl).
Defined.

(* ================================================================== *)
(** * The login page and the route together *)
(* ================================================================== *)

Lemma digit_is_not_whitespace (c : ascii) :
  LoginPage.is_digit c = true -> JsString.is_whitespace c = false.
Proof.
  unfold LoginPage.is_digit, JsString.is_whitespace, JsString.between.
  intros H. apply andb_true_iff in H. destruct H as [H1 H2].
  apply N.leb_le in H1. apply N.leb_le in H2.
  repeat (apply orb_false_iff; split).
  - apply andb_false_iff. right. apply N.leb_gt. lia.
  - apply N.eqb_neq. lia.
  - apply N.eqb_neq. lia.
Qed.

Lemma digits_only_all_digits (value : string) :
  all_digits (LoginPage.digits_only value).
Proof.
  unfold all_digits. induction value as [|c rest IH]; [constructor|].
  cbn [LoginPage.digits_only]. destruct (LoginPage.is_digit c) eqn:E; [|exact IH].
  cbn [list_ascii_of_string]. now constructor.
Qed.

Lemma digits_only_fixed (s : string) :
  all_digits s -> LoginPage.digits_only s = s.
Proof.
  unfold all_digits. induction s as [|c rest IH]; [reflexivity|].
  cbn [list_ascii_of_string LoginPage.digits_only]. intros H.
  inversion H as [|? ? Hc Hrest]; subst. rewrite Hc. now rewrite IH.
Qed.

Lemma is_digit_decimal (c : ascii) : LoginPage.is_digit c = decimal_digit c.
Proof. each_ascii c; reflexivity. Qed.

Lemma digits_only_spec (value : string) :
  list_ascii_of_string (LoginPage.digits_only value) = digits_of value.
Proof.
  unfold digits_of. induction value as [|c rest IH]; [reflexivity|].
  cbn [LoginPage.digits_only list_ascii_of_string filter].
  rewrite <- is_digit_decimal.
  destruct (LoginPage.is_digit c); cbn [list_ascii_of_string]; now rewrite IH.
Qed.

Lemma trimEnd_digits (s : string) :
  all_digits s -> JsString.trimEnd s = s.
Proof.
  unfold all_digits. induction s as [|c rest IH]; [reflexivity|].
  cbn [list_ascii_of_string JsString.trimEnd]. intros H.
  inversion H as [|? ? Hc Hrest]; subst. rewrite (IH Hrest).
  destruct rest; [|reflexivity].
  now rewrite (digit_is_not_whitespace c Hc).
Qed.

Lemma trim_digits (s : string) : all_digits s -> JsString.trim s = s.
Proof.
  intros H. unfold JsString.trim. rewrite trimStart_of_clean.
  - now apply trimEnd_digits.
  - destruct s as [|c rest]; [reflexivity|]. cbn [starts_clean].
    inversion H as [|? ? Hc Hrest]; subst.
    now rewrite (digit_is_not_whitespace c Hc).
Qed.

(** What a client reads of a property that is not [undefined]. *)
Lemma wire_prop (props : list (string * JsValue)) (k : string) (v : JsValue) :
  Js.lookup k props = Some v -> Js.is_undefined v = false ->
  Js.prop (Js.wire (JObj props)) k = Js.wire v.
Proof.
  intros H Hv. induction props as [|[k' x] rest IH]; [discriminate|].
  cbn [Js.lookup] in H. cbn [Js.wire Js.prop] in *.
  destruct (k' =? k) eqn:E.
  - injection H as ->. rewrite Hv. cbn [Js.lookup]. now rewrite E.
  - destruct (Js.is_undefined x); [exact (IH H)|].
    cbn [Js.lookup]. rewrite E. exact (IH H).
Qed.

Lemma wire_prop_absent (props : list (string * JsValue)) (k : string) :
  Js.lookup k props = None -> Js.prop (Js.wire (JObj props)) k = JUndefined.
Proof.
  intros H. induction props as [|[k' x] rest IH]; [reflexivity|].
  cbn [Js.lookup] in H. cbn [Js.wire Js.prop] in *.
  destruct (k' =? k) eqn:E; [discriminate|].
  destruct (Js.is_undefined x); [exact (IH H)|].
  cbn [Js.lookup]. rewrite E. exact (IH H).
Qed.

Lemma reply_reads_success (r : NextResponse) (b : bool) :
  Js.prop (body_of r) "success" = JBool b ->
  exists data,
    LoginPage.reply_of r = LoginPage.Replied (Some data) /\
    Js.member data "success" = Some (JBool b).
Proof.
  unfold body_of, LoginPage.reply_of.
  destruct (kind r) as [| |body]; try discriminate.
  destruct body as [| | | | | |props]; try discriminate.
  cbn [Js.prop]. destruct (Js.lookup "success" props) as [v|] eqn:E; [|discriminate].
  intros ->. eexists. split; [reflexivity|].
  unfold Js.member. cbn [Js.wire Js.is_nullish].
  f_equal. exact (wire_prop props "success" (JBool b) E eq_refl).
Qed.

Section LoginPageAndRoute.
Variable rt : Runtime.

Lemma POST_outcome (request : NextRequest) (backend : FetchCall -> FetchResult) :
  login_refused (fst (run backend (Login.POST rt request))) \/
  exists role, session_issued (fst (run backend (Login.POST rt request))) role.
Proof.
  destruct (POST_cases rt request) as [-> | [-> | (d & p & _ & ->)]].
  - left. now apply failure_refused.
  - left. now apply failure_refused.
  - cbn [run fst]. apply after_fetch_outcome.
Qed.

(** X25.  The Doctor ID field keeps exactly the decimal digits of what
    was typed, in their order, and nothing else; the password is left
    alone.  The field's error is shown exactly for one to five digits,
    so that seven digits or more raise no error while typing. *)
Theorem id_field_keeps_digits (value : string) (s : LoginPage.State) :
  let s' := LoginPage.handleDoctorIdChange value s in
  list_ascii_of_string (LoginPage.doctorId s') = digits_of value /\
  (LoginPage.idError s' = "Doctor ID must be 6 digits" <->
   (1 <= List.length (digits_of value) <= 5)%nat) /\
  (LoginPage.idError s' = "" <->
   (List.length (digits_of value) = 0 \/
    6 <= List.length (digits_of value))%nat) /\
  LoginPage.password s' = LoginPage.password s /\
  LoginPage.error s' = LoginPage.error s /\
  LoginPage.isLoading s' = LoginPage.isLoading s.
Proof.
  intros s'. subst s'. cbn [LoginPage.handleDoctorIdChange LoginPage.doctorId
                            LoginPage.idError LoginPage.password LoginPage.error
                            LoginPage.isLoading].
  pose proof (digits_only_spec value) as Hd.
  split; [exact Hd|].
  assert (Hlen : String.length (LoginPage.digits_only value)
                 = List.length (digits_of value)).
  { rewrite <- Hd. clear Hd. induction (LoginPage.digits_only value) as [|c r IH];
      [reflexivity|]. cbn. now rewrite IH. }
  rewrite Hlen. set (n := List.length (digits_of value)).
  destruct (Nat.ltb_spec 0 n) as [E1|E1]; destruct (Nat.ltb_spec n 6) as [E2|E2];
    cbn [andb];
    (split; [|split; [|repeat split]]);
    split; intros H; try discriminate; try reflexivity; try lia;
    exfalso; lia.
Qed.

(** X26.  A form whose Doctor ID field does not hold six digits is
    refused on the page with the field's error and sends nothing.  With
    six digits the form is sent, and the route that receives its body
    calls the backend once with exactly the digits typed and the
    password as typed: the route neither answers 400 nor alters them. *)
Theorem typed_id_reaches_backend
  (value pw : string) (s : LoginPage.State)
  (request : NextRequest) (backend : FetchCall -> FetchResult) :
  let s1 := LoginPage.setPassword pw (LoginPage.handleDoctorIdChange value s) in
  (String.length (LoginPage.digits_only value) <> 6 ->
   exists s2, LoginPage.handleSubmit s1 = LoginPage.Refused s2 /\
              LoginPage.idError s2 = "Doctor ID must be 6 digits") /\
  (String.length (LoginPage.digits_only value) = 6 ->
   exists s2 body,
     LoginPage.handleSubmit s1 = LoginPage.Sent s2 body /\
     LoginPage.isLoading s2 = true /\
     (json request = inr body ->
      snd (run backend (Login.POST rt request))
        = [ {| f_url := Conv.api_base rt ++ "/login";
               f_method := "POST";
               f_headers := [("Content-Type", "application/json")];
               f_body := Some (JObj [("doctor_id", JStr (LoginPage.digits_only value));
                                     ("password", JStr pw)]) |} ])).
Proof.
  intros s1. subst s1. unfold LoginPage.handleSubmit.
  cbn [LoginPage.setPassword LoginPage.handleDoctorIdChange LoginPage.doctorId
       LoginPage.password LoginPage.idError LoginPage.isLoading LoginPage.error].
  split.
  - intros Hlen. apply Nat.eqb_neq in Hlen. rewrite Hlen. cbn [negb].
    eexists. split; reflexivity.
  - intros Hlen. rewrite Hlen. cbn [Nat.eqb negb].
    eexists _, _. split; [reflexivity|]. split; [reflexivity|].
    intros Hjson.
    set (digits := LoginPage.digits_only value) in *.
    set (body := JObj [("doctor_id", JStr digits); ("password", JStr pw)]) in *.
    assert (Hid : Js.prop body "doctor_id" = JStr digits) by reflexivity.
    assert (Hpw : Js.prop body "password" = JStr pw) by reflexivity.
    rewrite (POST_calls rt request body digits Hjson); rewrite ?Hid, ?Hpw.
    + reflexivity.
    + cbn [Js.truthy]. destruct digits; [discriminate | reflexivity].
    + discriminate.
    + unfold Login.doctor_id_string. cbn [Conv.ToString option_map].
      now rewrite (trim_digits digits (digits_only_all_digits value)).
Qed.

(** X27.  Page and route agree on what a successful login is: after the
    route's response the page is no longer loading, and either it goes
    to [/dashboard] and the response has issued the session cookie, or
    it stays, the response has issued no cookie, and an error message is
    shown. *)
Theorem page_enters_dashboard_iff_session
  (request : NextRequest) (backend : FetchCall -> FetchResult)
  (s : LoginPage.State) :
  let r := fst (run backend (Login.POST rt request)) in
  let after := LoginPage.afterSubmit s (LoginPage.reply_of r) in
  LoginPage.isLoading (fst after) = false /\
  ((snd after = Some "/dashboard" /\ exists role, session_issued r role) \/
   (snd after = None /\ login_refused r /\
    Js.truthy (LoginPage.error (fst after)) = true)).
Proof.
  intros r after. subst after.
  destruct (POST_outcome request backend) as [Hr | [role Hr]]; fold r in Hr.
  - destruct (reply_reads_success r false (proj1 (proj2 Hr))) as (data & -> & Hs).
    unfold LoginPage.afterSubmit. rewrite Hs. cbn [Js.truthy fst snd LoginPage.isLoading].
    split; [reflexivity|]. right. split; [reflexivity|]. split; [exact Hr|].
    cbn [LoginPage.error]. unfold Js.or.
    destruct (Js.truthy (Js.prop data "error")) eqn:E; [exact E | reflexivity].
  - destruct Hr as (Hst & Hsucc & Hrest).
    destruct (reply_reads_success r true Hsucc) as (data & -> & Hs).
    unfold LoginPage.afterSubmit. rewrite Hs. cbn [Js.truthy fst snd LoginPage.isLoading].
    split; [reflexivity|]. left. split; [reflexivity|].
    exists role. repeat split; try assumption; apply Hrest.
Qed.

End LoginPageAndRoute.

Lemma id_field_keeps_digits_witness :
  LoginPage.idError (LoginPage.handleDoctorIdChange "12-34" Scenario.form)
    = "Doctor ID must be 6 digits".
Proof.
  apply (proj1 (proj2 (id_field_keeps_digits "12-34" Scenario.form))).
  cbn. lia.
Defined.

Lemma typed_id_reaches_backend_witness :
  exists s2 body,
    LoginPage.handleSubmit
      (LoginPage.setPassword "secret"
         (LoginPage.handleDoctorIdChange "12-34 56" Scenario.form))
      = LoginPage.Sent s2 body /\
    LoginPage.isLoading s2 = true /\
    (json (Sample.request "/login"
             (inr (JObj [("doctor_id", JStr "123456"); ("password", JStr "secret")])))
       = inr body ->
     snd (run Sample.unreachable
            (Login.POST Sample.runtime
               (Sample.request "/login"
                  (inr (JObj [("doctor_id", JStr "123456");
                              ("password", JStr "secret")])))))
       = [ {| f_url := Conv.api_base Sample.runtime ++ "/login";
              f_method := "POST";
              f_headers := [("Content-Type", "application/json")];
              f_body := Some (JObj [("doctor_id", JStr "123456");
                                    ("password", JStr "secret")]) |} ]).
Proof.
  exact (proj2 (typed_id_reaches_backend Sample.runtime "12-34 56" "secret"
                  Scenario.form
                  (Sample.request "/login"
                     (inr (JObj [("doctor_id", JStr "123456");
                                 ("password", JStr "secret")])))
                  Sample.unreachable) eq_refl).
Defined.

(* ================================================================== *)
(** * The pages of the prediction form and of the administration *)
(* ================================================================== *)

Lemma length_succ (s : string) (n : nat) :
  String.length s = S n ->
  exists c rest, s = String c rest /\ String.length rest = n.
Proof.
  destruct s as [|c rest]; [discriminate|].
  cbn [String.length]. intros H. injection H as H. now exists c, rest.
Qed.

Lemma length_zero (s : string) : String.length s = 0 -> s = "".
Proof. destruct s; [reflexivity | discriminate]. Qed.

Lemma all_digits_cons (c : ascii) (s : string) :
  all_digits (String c s) -> LoginPage.is_digit c = true /\ all_digits s.
Proof.
  unfold all_digits. cbn [list_ascii_of_string]. intros H.
  inversion H; subst. now split.
Qed.

Lemma ssn_format (d : string) :
  all_digits d -> String.length d = 9 ->
  let formatted :=
    PredictPage.slice 0 3 d ++ "-" ++ PredictPage.slice 3 5 d ++ "-"
      ++ PredictPage.slice 5 9 d in
  String.length formatted = 11 /\
  LoginPage.digits_only formatted = d /\
  exists area group serial,
    d = area ++ group ++ serial /\
    String.length area = 3 /\ String.length group = 2 /\
    String.length serial = 4 /\
    formatted = area ++ "-" ++ group ++ "-" ++ serial.
Proof.
  intros Hd Hlen.
  do 9 (apply length_succ in Hlen;
        destruct Hlen as (? & ? & -> & Hlen);
        apply all_digits_cons in Hd; destruct Hd as [? Hd]).
  apply length_zero in Hlen. subst.
  cbn [PredictPage.slice String.substring String.append Nat.sub].
  split; [reflexivity|]. split.
  - cbn [LoginPage.digits_only].
    change (LoginPage.is_digit "-") with false.
    repeat match goal with
           | H : LoginPage.is_digit ?c = true |- _ => rewrite H; clear H
           end.
    reflexivity.
  - match goal with
    | |- context [String ?c1 (String ?c2 (String ?c3 (String "-" (String ?c4
                   (String ?c5 (String "-" (String ?c6 (String ?c7
                   (String ?c8 (String ?c9 EmptyString))))))))))] =>
        exists (String c1 (String c2 (String c3 EmptyString))),
               (String c4 (String c5 EmptyString)),
               (String c6 (String c7 (String c8 (String c9 EmptyString))))
    end.
    repeat split.
Qed.

(** X28.  A value is accepted as an SSN exactly when it holds nine
    decimal digits.  The accepted SSN is stored in the form
    [XXX-XX-XXXX]: the first three digits, a hyphen, the next two, a
    hyphen, the last four, in the order typed; the stored text is
    accepted again unchanged.  A refused value leaves the stored SSN as
    it was and sets the error. *)
Theorem ssn_is_stored_formatted (value : string) (st : PredictPage.SsnState) :
  match PredictPage.validateSSN value st with
  | (true, st') =>
      List.length (digits_of value) = 9 /\
      (exists area group serial,
         list_ascii_of_string (area ++ group ++ serial) = digits_of value /\
         String.length area = 3 /\ String.length group = 2 /\
         String.length serial = 4 /\
         PredictPage.formData_ssn st' = area ++ "-" ++ group ++ "-" ++ serial) /\
      String.length (PredictPage.formData_ssn st') = 11 /\
      digits_of (PredictPage.formData_ssn st') = digits_of value /\
      PredictPage.errors_ssn st' = "" /\
      forall st2,
        PredictPage.validateSSN (PredictPage.formData_ssn st') st2 = (true, st')
  | (false, st') =>
      List.length (digits_of value) <> 9 /\
      PredictPage.formData_ssn st' = PredictPage.formData_ssn st /\
      PredictPage.errors_ssn st' = "SSN must be 9 digits (XXX-XX-XXXX)"
  end.
Proof.
  unfold PredictPage.validateSSN.
  set (digits := LoginPage.digits_only value).
  assert (Hlen9 : String.length digits = List.length (digits_of value)).
  { rewrite <- (digits_only_spec value). fold digits.
    clear. induction digits as [|c r IH]; [reflexivity|]. cbn. now rewrite IH. }
  destruct (Nat.eqb_spec (String.length digits) 9) as [Hlen|Hlen]; cbn [negb].
  - destruct (ssn_format digits (digits_only_all_digits value) Hlen)
      as (H11 & Hsame & area & group & serial & Hsplit & Ha & Hb & Hc & Hform).
    cbn [PredictPage.formData_ssn PredictPage.errors_ssn].
    split; [now rewrite <- Hlen9|].
    split.
    { exists area, group, serial. rewrite <- Hsplit.
      split; [apply digits_only_spec|]. now repeat split. }
    split; [exact H11|].
    split.
    { rewrite <- !digits_only_spec. now rewrite Hsame. }
    split; [reflexivity|].
    intros st2. rewrite Hsame, Hlen. reflexivity.
  - cbn [PredictPage.formData_ssn PredictPage.errors_ssn].
    split; [now rewrite <- Hlen9|]. now split.
Qed.

(** ** From the list of doctors to an update *)





Section AdminPageAndRoute.
Variable rt : Runtime.




(** X30.  A new doctor is sent only when name, Doctor ID, password,
    region and hospital are all filled in.  The creation route that
    receives the form's body posts it to [/admin/doctors] without the
    [type]: the six fields of the form as typed, the password included,
    and the status [Active]. *)
Theorem new_doctor_form_reaches_backend
  (newDoctor : AdminPage.NewDoctor)
  (request : NextRequest) (backend : FetchCall -> FetchResult) :
  match AdminPage.handleAddDoctor newDoctor with
  | None =>
      AdminPage.name newDoctor = "" \/ AdminPage.doctor_id newDoctor = "" \/
      AdminPage.password newDoctor = "" \/ AdminPage.region newDoctor = "" \/
      AdminPage.hospital newDoctor = ""
  | Some body =>
      (AdminPage.name newDoctor <> "" /\ AdminPage.doctor_id newDoctor <> "" /\
       AdminPage.password newDoctor <> "" /\ AdminPage.region newDoctor <> "" /\
       AdminPage.hospital newDoctor <> "") /\
      (json request = inr body ->
       snd (run backend (Admin.POST rt request))
         = [ {| f_url := Conv.api_base rt ++ "/admin/doctors";
                f_method := "POST";
                f_headers := Admin.forwardAuthHeaders request;
                f_body :=
                  Some (JObj [("name", JStr (AdminPage.name newDoctor));
                              ("doctor_id", JStr (AdminPage.doctor_id newDoctor));
                              ("password", JStr (AdminPage.password newDoctor));
                              ("role", JStr (AdminPage.role newDoctor));
                              ("region", JStr (AdminPage.region newDoctor));
                              ("hospital", JStr (AdminPage.hospital newDoctor));
                              ("status", JStr "Active")]) |} ])
  end.
Proof.
  unfold AdminPage.handleAddDoctor.
  destruct (String.eqb_spec (AdminPage.name newDoctor) "") as [H1|H1];
    [now left|].
  destruct (String.eqb_spec (AdminPage.doctor_id newDoctor) "") as [H2|H2];
    [right; now left|].
  destruct (String.eqb_spec (AdminPage.password newDoctor) "") as [H3|H3];
    [right; right; now left|].
  destruct (String.eqb_spec (AdminPage.region newDoctor) "") as [H4|H4];
    [right; right; right; now left|].
  destruct (String.eqb_spec (AdminPage.hospital newDoctor) "") as [H5|H5];
    [right; right; right; now right|].
  cbn [orb]. split; [now repeat split|].
  intros Hjson. cbn [Js.wire Js.is_undefined] in Hjson.
  unfold Admin.POST. rewrite Hjson. reflexivity.
Qed.

End AdminPageAndRoute.


Lemma new_doctor_form_reaches_backend_witness :
  snd (run Sample.unreachable
         (Admin.POST Sample.runtime
            (Scenario.admin_write
               (JObj [("type", JStr "doctor"); ("name", JStr "A");
                      ("doctor_id", JStr "123456"); ("password", JStr "pw");
                      ("role", JStr "Doctor"); ("region", JStr "Texas");
                      ("hospital", JStr "General"); ("status", JStr "Active")]))))
    = [ {| f_url := "http://127.0.0.1:8000/admin/doctors";
           f_method := "POST";
           f_headers := [("Content-Type", "application/json")];
           f_body :=
             Some (JObj [("name", JStr "A"); ("doctor_id", JStr "123456");
                         ("password", JStr "pw"); ("role", JStr "Doctor");
                         ("region", JStr "Texas"); ("hospital", JStr "General");
                         ("status", JStr "Active")]) |} ].
Proof.
  exact (proj2 (new_doctor_form_reaches_backend Sample.runtime
                  {| AdminPage.name := "A"; AdminPage.doctor_id := "123456";
                     AdminPage.password := "pw"; AdminPage.role := "Doctor";
                     AdminPage.region := "Texas"; AdminPage.hospital := "General" |}
                  (Scenario.admin_write
                     (JObj [("type", JStr "doctor"); ("name", JStr "A");
                            ("doctor_id", JStr "123456"); ("password", JStr "pw");
                            ("role", JStr "Doctor"); ("region", JStr "Texas");
                            ("hospital", JStr "General"); ("status", JStr "Active")]))
                  Sample.unreachable) eq_refl).
Defined.
